(** * RathamCloud VPS manager: lifecycle and resource governance engine

    A shallow embedding of the governance core of [main.py]: the three
    persisted collections ([vps_data], [admin_data], [port_data]), the
    command executor [execute_RTC], the persistence functions, the port
    allocator, the two guardian loops and the admin / lifecycle commands
    that mutate the collections.

    Conventions of the embedding.
    - Python [int] is [Z]; [str(n)] and an integer inside an f-string are
      stdpp's [pretty]; string concatenation is [+:+].
    - A [dict] keyed by user id is a [gmap string _]; the list stored under
      a key is a Rocq list, updated in place by index.
    - The module globals are the record [Globals]; the files on disk, the
      messages sent and the commands run are the rest of [World].
    - Everything the code obtains from outside the process (exit status of
      a command, a usage sample, the clock, whether a file write fails) is
      read from an [Env] as a function of the interactions so far, so that
      every possible behaviour of the outside is covered by quantifying
      over [Env].
    - A command handler runs to completion: interleaving of coroutines at
      an [await] is not modelled.  Of the calls into the chat platform the
      replies and direct messages are recorded and the role grants are left
      out; none of them is assumed to raise.  Calls of [logger] are left
      out.
    - Records read from disk have the shape the code writes: the keys it
      indexes directly are present, the keys it reads with [.get] or tests
      with [in] may be absent.
    - A loop over [dict.items()] visits the keys in the order of
      [map_to_list]; no statement below depends on that order. *)

From Stdlib Require Import Ascii String QArith Qcanon.
From stdpp Require Import gmap strings list fin_maps pretty numbers.

Open Scope Z_scope.

(** ** Data model *)

(** One entry of [vps['suspension_history']]. *)
Record suspension := {
  time : string;
  reason : string;
  by_ : string                       (* key ['by'] *)
}.

(** One instance record.  The four keys the code reads with [.get] or tests
    with [in] may be absent in a record loaded from disk. *)
Record vps := {
  container_name : string;
  ram : string;
  cpu : string;
  storage : string;
  config : string;
  status : option string;                          (* vps.get('status') *)
  suspended : option bool;                         (* vps.get('suspended', False) *)
  suspension_history : option (list suspension);
  created_at : string;
  shared_with : option (list string)               (* "shared_with" in vps *)
}.

(** One active forward of [port_data["active_ports"][user_id]]. *)
Record port_info := {
  container : string;
  internal_port : Z;
  host_port : Z
}.

(** [port_data]: [users] maps a user id to its ["slots"] quota. *)
Record port_table := {
  users : gmap string Z;
  active_ports : gmap string (list port_info)
}.

(** [admin_data]: the key ["admins"] may be absent. *)
Record admin_table := {
  admins : option (list string)
}.

#[global] Instance suspension_eq_dec : EqDecision suspension.
Proof. solve_decision. Defined.
#[global] Instance vps_eq_dec : EqDecision vps.
Proof. solve_decision. Defined.
#[global] Instance port_info_eq_dec : EqDecision port_info.
Proof. solve_decision. Defined.

(** Environment-sourced configuration. *)
Record Config := {
  MAIN_ADMIN_ID : Z;
  DEFAULT_STORAGE_POOL : string;
  CPU_THRESHOLD : Z;
  RAM_THRESHOLD : Z
}.

(** The defaults of the [os.getenv] calls. *)
Definition default_config : Config := {|
  MAIN_ADMIN_ID := 1210291131301101618;
  DEFAULT_STORAGE_POOL := "default";
  CPU_THRESHOLD := 90;
  RAM_THRESHOLD := 90
|}.

(** The module globals. *)
Record Globals := {
  vps_data : gmap string (list vps);
  admin_data : admin_table;
  port_data : port_table;
  cpu_monitor_active : bool
}.

(** What [open] + [json.load] finds for one file. *)
Inductive file (A : Type) : Type :=
| Missing                      (* FileNotFoundError *)
| Corrupt                      (* json.JSONDecodeError *)
| Unreadable (e : string)      (* any other exception *)
| Json (a : A).
Arguments Missing {A}.
Arguments Corrupt {A}.
Arguments Unreadable {A} e.
Arguments Json {A} a.

Record Disk := {
  vps_file : file (gmap string (list vps));
  admin_file : file admin_table;
  port_file : file port_table
}.

(** ** The outside world *)

(** Exit of the external tool: status 0 with its output, or a failure
    (non-zero status or timeout) with the message of the raised exception. *)
Inductive exec_result := Done (stdout : string) | Failed (stderr : string).

(** Which of the three dumps of [save_data] raises, if any. *)
Inductive save_outcome := Saved | FailVps | FailAdmin | FailPort.

Inductive embed_kind := Plain | Success | Error | Info | Warning.

Inductive event :=
| Exec (command : string) (r : exec_result)     (* execute_RTC *)
| Send (k : embed_kind) (title : string)        (* ctx.send(embed=...) *)
| Dm (user_id : string)                         (* user.send(embed=...) *)
| SampleHost                                    (* get_cpu_usage *)
| SampleCpu (container : string)                (* get_container_cpu_pct *)
| SampleRam (container : string)                (* get_container_ram_pct *)
| Clock.                                        (* datetime.now() *)

(** The answers of the outside.  Each answer may depend on everything that
    happened before it (the trace so far); [disk_write] is asked once per
    call of [save_data], with the outcomes of the earlier calls. *)
Record Env := {
  rtc : list event → string → exec_result;
  host_cpu : list event → Qc;
  container_cpu : list event → string → Qc;
  container_ram : list event → string → Qc;
  now : list event → string;
  disk_write : list save_outcome → save_outcome;
  fmt1 : Qc → string                            (* f"{x:.1f}" *)
}.

(** State of the task created for [cpu_monitor] in [on_ready]. *)
Inductive task_state := TaskRunning | TaskFinished.

Record World := {
  mem : Globals;
  disk : Disk;
  trace : list event;
  save_log : list save_outcome;
  cpu_monitor_task : task_state
}.

(** ** A state and exception monad *)

Inductive outcome (A : Type) : Type := Ret (a : A) | Raise (e : string).
Arguments Ret {A} a.
Arguments Raise {A} e.

Definition M (A : Type) : Type := World → outcome A * World.

Definition ret {A} (a : A) : M A := λ w, (Ret a, w).

Definition raise {A} (e : string) : M A := λ w, (Raise e, w).

Definition bind {A B} (m : M A) (k : A → M B) : M B :=
  λ w, match m w with
       | (Ret a, w') => k a w'
       | (Raise e, w') => (Raise e, w')
       end.

(** [try: m  except Exception as e: h e] *)
Definition try_except {A} (m : M A) (h : string → M A) : M A :=
  λ w, match m w with
       | (Ret a, w') => (Ret a, w')
       | (Raise e, w') => h e w'
       end.

Notation "'let*' x ':=' m 'in' k" := (bind m (λ x, k))
  (at level 10, x name, m at level 100, k at level 200).
Notation "m '>>' k" := (bind m (λ _, k))
  (at level 100, k at level 200, right associativity).

Definition get : M Globals := λ w, (Ret (mem w), w).

Definition put (g : Globals) : M unit :=
  λ w, (Ret tt, {| mem := g; disk := disk w; trace := trace w;
                   save_log := save_log w;
                   cpu_monitor_task := cpu_monitor_task w |}).

Definition emit (e : event) : M unit :=
  λ w, (Ret tt, {| mem := mem w; disk := disk w; trace := trace w ++ [e];
                   save_log := save_log w;
                   cpu_monitor_task := cpu_monitor_task w |}).

(** The interactions with the outside so far. *)
Definition history : M (list event) := λ w, (Ret (trace w), w).

Definition set_vps_data (v : gmap string (list vps)) : M unit :=
  let* g := get in
  put {| vps_data := v; admin_data := admin_data g; port_data := port_data g;
         cpu_monitor_active := cpu_monitor_active g |}.

Definition set_admin_data (a : admin_table) : M unit :=
  let* g := get in
  put {| vps_data := vps_data g; admin_data := a; port_data := port_data g;
         cpu_monitor_active := cpu_monitor_active g |}.

Definition set_port_data (p : port_table) : M unit :=
  let* g := get in
  put {| vps_data := vps_data g; admin_data := admin_data g; port_data := p;
         cpu_monitor_active := cpu_monitor_active g |}.

Definition set_cpu_monitor_active (b : bool) : M unit :=
  let* g := get in
  put {| vps_data := vps_data g; admin_data := admin_data g;
         port_data := port_data g; cpu_monitor_active := b |}.

Definition set_users (u : gmap string Z) : M unit :=
  let* g := get in
  set_port_data {| users := u; active_ports := active_ports (port_data g) |}.

Definition set_active_ports (ap : gmap string (list port_info)) : M unit :=
  let* g := get in
  set_port_data {| users := users (port_data g); active_ports := ap |}.

Definition send (k : embed_kind) (title : string) : M unit := emit (Send k title).

(** ** Loading *)

Definition load_vps_data (f : file (gmap string (list vps)))
  : outcome (gmap string (list vps)) :=
  match f with
  | Json a => Ret a
  | Missing | Corrupt => Ret ∅
  | Unreadable e => Raise e
  end.

Definition load_admin_data (cfg : Config) (f : file admin_table)
  : outcome admin_table :=
  match f with
  | Json a => Ret a
  | Missing | Corrupt => Ret {| admins := Some [pretty (MAIN_ADMIN_ID cfg)] |}
  | Unreadable e => Raise e
  end.

Definition load_port_data (f : file port_table) : outcome port_table :=
  match f with
  | Json a => Ret a
  | Missing | Corrupt => Ret {| users := ∅; active_ports := ∅ |}
  | Unreadable e => Raise e
  end.

(** Module initialisation: the three loads, then [cpu_monitor_active = True];
    [on_ready] creates the monitor task. *)
Definition startup (cfg : Config) (d : Disk) : outcome World :=
  match load_vps_data (vps_file d) with
  | Raise e => Raise e
  | Ret v =>
    match load_admin_data cfg (admin_file d) with
    | Raise e => Raise e
    | Ret a =>
      match load_port_data (port_file d) with
      | Raise e => Raise e
      | Ret p =>
        Ret {| mem := {| vps_data := v; admin_data := a; port_data := p;
                         cpu_monitor_active := true |};
               disk := d; trace := []; save_log := [];
               cpu_monitor_task := TaskRunning |}
      end
    end
  end.

(** ** Pure helpers *)

(** [l.remove(x)]: drops the first element equal to [x]; [None] is
    Python's [ValueError] when there is none. *)
Fixpoint list_remove_first {A} `{EqDecision A} (x : A) (l : list A)
  : option (list A) :=
  match l with
  | [] => None
  | y :: l' => if decide (x = y) then Some l'
               else (y ::.) <$> list_remove_first x l'
  end.

(** [s.lower()] on ASCII letters. *)
Definition lower_ascii (c : ascii) : ascii :=
  let n := N_of_ascii c in
  if (65 <=? n)%N && (n <=? 90)%N then ascii_of_N (n + 32) else c.

Fixpoint lower (s : string) : string :=
  match s with
  | EmptyString => EmptyString
  | String c s' => String (lower_ascii c) (lower s')
  end.

(** The set built by the two nested loops of [get_next_available_port]. *)
Definition used_ports (pd : port_table) : gset Z :=
  foldl (λ used user_ports,
           foldl (λ used port_info, {[host_port port_info]} ∪ used)
                 used user_ports)
        ∅ ((map_to_list (active_ports pd)).*2).

Definition get_next_available_port (pd : port_table) : option Z :=
  let used := used_ports pd in
  find (λ p, bool_decide (p ∉ used)) (seqZ 10000 10000).

(** The update of one record by the host guardian. *)
Definition stop_if_running (v : vps) : vps :=
  if bool_decide (status v = Some "running") then
    {| container_name := container_name v; ram := ram v; cpu := cpu v;
       storage := storage v; config := config v; status := Some "stopped";
       suspended := suspended v; suspension_history := suspension_history v;
       created_at := created_at v; shared_with := shared_with v |}
  else v.

(** The update of one record by the instance guardian. *)
Definition auto_suspend (entry : suspension) (v : vps) : vps :=
  {| container_name := container_name v; ram := ram v; cpu := cpu v;
     storage := storage v; config := config v; status := Some "suspended";
     suspended := Some true;
     suspension_history := Some (default [] (suspension_history v) ++ [entry]);
     created_at := created_at v; shared_with := shared_with v |}.

(** The test of [vps_monitor] that selects the records it samples. *)
Definition monitored (v : vps) : bool :=
  bool_decide (status v = Some "running")
  && negb (default false (suspended v)).

(** [x > threshold] for a sampled percentage and an integer threshold. *)
Definition exceeds (x : Qc) (threshold : Z) : bool :=
  bool_decide (Q2Qc (inject_Z threshold) < x)%Qc.

(** ** The engine, for a fixed configuration and outside world *)

Section Engine.
Variable cfg : Config.
Variable env : Env.

(** [execute_RTC(command)]: the tool's exit decides between returning its
    output and raising. *)
Definition execute_RTC (command : string) : M string :=
  let* h := history in
  match rtc env h command with
  | Done out => emit (Exec command (Done out)) >> ret out
  | Failed err => emit (Exec command (Failed err)) >> raise err
  end.

Definition get_cpu_usage : M Qc :=
  let* h := history in emit SampleHost >> ret (host_cpu env h).

Definition get_container_cpu_pct (container_name : string) : M Qc :=
  let* h := history in
  emit (SampleCpu container_name) >> ret (container_cpu env h container_name).

Definition get_container_ram_pct (container_name : string) : M Qc :=
  let* h := history in
  emit (SampleRam container_name) >> ret (container_ram env h container_name).

(** [datetime.now().isoformat()] *)
Definition datetime_now : M string :=
  let* h := history in emit Clock >> ret (now env h).

(** [save_data()]: three dumps in order, each renamed into place after it
    is written; whatever is raised is caught (and logged) inside, so the
    call always returns normally. *)
Definition save_data : M unit :=
  λ w,
    let g := mem w in
    let d := disk w in
    let o := disk_write env (save_log w) in
    let d' :=
      match o with
      | Saved => {| vps_file := Json (vps_data g);
                    admin_file := Json (admin_data g);
                    port_file := Json (port_data g) |}
      | FailVps => d
      | FailAdmin => {| vps_file := Json (vps_data g);
                        admin_file := admin_file d;
                        port_file := port_file d |}
      | FailPort => {| vps_file := Json (vps_data g);
                       admin_file := Json (admin_data g);
                       port_file := port_file d |}
      end in
    (Ret tt, {| mem := g; disk := d'; trace := trace w;
                save_log := save_log w ++ [o];
                cpu_monitor_task := cpu_monitor_task w |}).

(** The [is_admin()] and [is_main_admin()] checks; a failed check raises
    [CheckFailure], which [on_command_error] answers with "Access Denied". *)
Definition is_admin (author : Z) (g : Globals) : bool :=
  let user_id := pretty author in
  bool_decide (user_id = pretty (MAIN_ADMIN_ID cfg))
  || bool_decide (user_id ∈ default [] (admins (admin_data g))).

Definition is_main_admin (author : Z) (g : Globals) : bool :=
  bool_decide (pretty author = pretty (MAIN_ADMIN_ID cfg)).

(** A command behind a check decorator. *)
Definition checked (check : Globals → bool) (body : M unit) : M unit :=
  let* g := get in
  if check g then body else send Error "Access Denied".

(** *** Host guardian *)

(** One wake-up of the [cpu_monitor] task: the [while cpu_monitor_active]
    test followed by one pass through the loop body.  When the test fails
    the coroutine returns and the task is finished. *)
Definition cpu_monitor_body : M unit :=
  try_except
    (let* cpu_usage := get_cpu_usage in
     if exceeds cpu_usage (CPU_THRESHOLD cfg) then
       try_except
         (execute_RTC "RTC stop --all --force" >>
          let* g := get in
          set_vps_data ((λ vps_list : list vps, stop_if_running <$> vps_list)
                          <$> vps_data g) >>
          save_data)
         (λ e, ret tt)
     else ret tt)
    (λ e, ret tt).

Definition cpu_monitor : M unit :=
  λ w,
    match cpu_monitor_task w with
    | TaskFinished => (Ret tt, w)
    | TaskRunning =>
      if cpu_monitor_active (mem w) then cpu_monitor_body w
      else (Ret tt, {| mem := mem w; disk := disk w; trace := trace w;
                       save_log := save_log w;
                       cpu_monitor_task := TaskFinished |})
    end.

Definition cpu_monitor_control (action : string) : M unit :=
  if bool_decide (lower action = "status") then
    send Plain "RathamCloud CPU Monitor Status"
  else if bool_decide (lower action = "enable") then
    set_cpu_monitor_active true >> send Success "CPU Monitor Enabled"
  else if bool_decide (lower action = "disable") then
    set_cpu_monitor_active false >> send Warning "CPU Monitor Disabled"
  else send Error "Invalid Action".

(** *** Instance guardian *)

Fixpoint for_each {A} (l : list A) (body : A → M unit) : M unit :=
  match l with
  | [] => ret tt
  | x :: l' => body x >> for_each l' body
  end.

Definition suspend_reason (cpu ram : Qc) : string :=
  "High resource usage: CPU " +:+ fmt1 env cpu +:+ "%, RAM " +:+ fmt1 env ram
  +:+ "% (threshold: " +:+ pretty (CPU_THRESHOLD cfg) +:+ "% CPU / "
  +:+ pretty (RAM_THRESHOLD cfg) +:+ "% RAM)".

(** The body of the inner loop of [vps_monitor] for the record object that
    sits at index [i] of [vps_data[user_id]]; the assignments to [vps[...]]
    update that object in place. *)
Definition monitor_vps (user_id : string) (i : nat) : M unit :=
  let* g := get in
  match vps_data g !! user_id ≫= (.!! i) with
  | None => ret tt
  | Some v =>
    if monitored v then
      let container := container_name v in
      let* cpu := get_container_cpu_pct container in
      let* ram := get_container_ram_pct container in
      if exceeds cpu (CPU_THRESHOLD cfg) || exceeds ram (RAM_THRESHOLD cfg) then
        let reason := suspend_reason cpu ram in
        try_except
          (execute_RTC ("RTC stop " +:+ container) >>
           let* t := datetime_now in
           let entry := {| time := t; reason := reason;
                           by_ := "RathamCloud Auto-System" |} in
           let* g := get in
           set_vps_data (alter (alter (auto_suspend entry) i) user_id
                               (vps_data g)) >>
           save_data >>
           emit (Dm user_id))
          (λ e, ret tt)
      else ret tt
    else ret tt
  end.

(** One pass of the [while True] body of [vps_monitor], up to the sleep. *)
Definition vps_monitor : M unit :=
  try_except
    (let* g := get in
     for_each (map_to_list (vps_data g))
       (λ '(user_id, vps_list),
          for_each (seq 0 (length vps_list)) (monitor_vps user_id)))
    (λ e, ret tt).

(** *** Lifecycle operations *)

(** The id that [create_vps] derives for the next instance of an owner. *)
Definition derived_container_name (user_id : string) (vps_list : list vps)
  : string :=
  let vps_count := Z.of_nat (length vps_list) + 1 in
  "RathamCloud-vps-" +:+ user_id +:+ "-" +:+ pretty vps_count.

(** The record that [create_vps] builds. *)
Definition new_vps_info (container_name : string) (ram cpu disk : Z)
  (t : string) : vps :=
  {| container_name := container_name;
     ram := pretty ram +:+ "GB";
     cpu := pretty cpu;
     storage := pretty disk +:+ "GB";
     config := pretty ram +:+ "GB RAM / " +:+ pretty cpu +:+ " CPU / "
               +:+ pretty disk +:+ "GB Disk";
     status := Some "running";
     suspended := Some false;
     suspension_history := Some [];
     created_at := t;
     shared_with := Some [] |}.

(** [create_vps(ctx, ram, cpu, disk, user)] *)
Definition create_vps (ram cpu disk user : Z) : M unit :=
  if bool_decide (ram ≤ 0) || bool_decide (cpu ≤ 0) || bool_decide (disk ≤ 0)
  then send Error "Invalid Specs"
  else
    let user_id := pretty user in
    let* g := get in
    match vps_data g !! user_id with
    | None => set_vps_data (<[user_id := []]> (vps_data g))
    | Some _ => ret tt
    end >>
    let* g := get in
    let container_name :=
      derived_container_name user_id (default [] (vps_data g !! user_id)) in
    let ram_mb := ram * 1024 in
    send Info "Creating RathamCloud VPS" >>
    try_except
      (execute_RTC ("RTC init ubuntu:22.04 " +:+ container_name
                    +:+ " --storage " +:+ DEFAULT_STORAGE_POOL cfg) >>
       execute_RTC ("RTC config set " +:+ container_name
                    +:+ " limits.memory " +:+ pretty ram_mb +:+ "MB") >>
       execute_RTC ("RTC config set " +:+ container_name
                    +:+ " limits.cpu " +:+ pretty cpu) >>
       execute_RTC ("RTC config device set " +:+ container_name
                    +:+ " root size " +:+ pretty disk +:+ "GB") >>
       execute_RTC ("RTC start " +:+ container_name) >>
       let* t := datetime_now in
       let vps_info := new_vps_info container_name ram cpu disk t in
       let* g := get in
       set_vps_data (alter (λ vps_list, vps_list ++ [vps_info]) user_id
                           (vps_data g)) >>
       save_data >>
       send Success "RathamCloud VPS Created Successfully" >>
       emit (Dm user_id))
      (λ e, send Error "Creation Failed").

(** [delete_vps(ctx, user, vps_number, reason)] *)
Definition delete_vps (user vps_number : Z) : M unit :=
  let user_id := pretty user in
  let* g := get in
  match vps_data g !! user_id with
  | None => send Error "Invalid VPS"
  | Some vps_list =>
    if bool_decide (vps_number < 1)
       || bool_decide (vps_number > Z.of_nat (length vps_list))
    then send Error "Invalid VPS"
    else
      let i := Z.to_nat (vps_number - 1) in
      match vps_list !! i with
      | None => raise "IndexError"
      | Some v =>
        let container_name := container_name v in
        send Info "Deleting RathamCloud VPS" >>
        try_except
          (try_except
             (execute_RTC ("RTC stop " +:+ container_name +:+ " --force") >>
              ret tt)
             (λ e, ret tt) >>
           execute_RTC ("RTC delete " +:+ container_name +:+ " --force") >>
           let* g := get in
           set_vps_data (alter (delete i) user_id (vps_data g)) >>
           let* g := get in
           match vps_data g !! user_id with
           | Some [] => set_vps_data (delete user_id (vps_data g))
           | _ => ret tt
           end >>
           save_data >>
           send Success "RathamCloud VPS Deleted Successfully")
          (λ e, send Error "Deletion Failed")
      end
  end.

(** *** Admin registry *)

(** [admin_add(ctx, user)] *)
Definition admin_add (user : Z) : M unit :=
  let user_id := pretty user in
  if bool_decide (user_id = pretty (MAIN_ADMIN_ID cfg)) then
    send Error "Already Admin"
  else
    let* g := get in
    if bool_decide (user_id ∈ default [] (admins (admin_data g))) then
      send Error "Already Admin"
    else
      match admins (admin_data g) with
      | None => set_admin_data {| admins := Some [] |}
      | Some _ => ret tt
      end >>
      let* g := get in
      set_admin_data
        {| admins := (λ l, l ++ [user_id]) <$> admins (admin_data g) |} >>
      save_data >>
      send Success "Admin Added" >>
      emit (Dm user_id).

(** [admin_remove(ctx, user)] *)
Definition admin_remove (user : Z) : M unit :=
  let user_id := pretty user in
  if bool_decide (user_id = pretty (MAIN_ADMIN_ID cfg)) then
    send Error "Cannot Remove"
  else
    let* g := get in
    if bool_decide (user_id ∉ default [] (admins (admin_data g))) then
      send Error "Not Admin"
    else
      match admins (admin_data g) ≫= list_remove_first user_id with
      | None => raise "ValueError"
      | Some l => set_admin_data {| admins := Some l |}
      end >>
      save_data >>
      send Success "Admin Removed" >>
      emit (Dm user_id).

(** *** Port allocator *)

Definition tcp_add_command (container_name : string) (host_port arg2 : Z)
  : string :=
  "RTC config device add " +:+ container_name +:+ " port-"
  +:+ pretty host_port +:+ "-tcp proxy listen=tcp:0.0.0.0:"
  +:+ pretty host_port +:+ " connect=tcp:127.0.0.1:" +:+ pretty arg2.

Definition udp_add_command (container_name : string) (host_port arg2 : Z)
  : string :=
  "RTC config device add " +:+ container_name +:+ " port-"
  +:+ pretty host_port +:+ "-udp proxy listen=udp:0.0.0.0:"
  +:+ pretty host_port +:+ " connect=udp:127.0.0.1:" +:+ pretty arg2.

Definition tcp_remove_command (container : string) (arg1 : Z) : string :=
  "RTC config device remove " +:+ container +:+ " port-" +:+ pretty arg1
  +:+ "-tcp".

Definition udp_remove_command (container : string) (arg1 : Z) : string :=
  "RTC config device remove " +:+ container +:+ " port-" +:+ pretty arg1
  +:+ "-udp".

(** The branch [action == "add"] of [ports_command], both arguments given. *)
Definition ports_add (user_id : string) (arg1 arg2 : Z) : M unit :=
  let* g := get in
  let vps_list := default [] (vps_data g !! user_id) in
  if bool_decide (arg1 < 1) || bool_decide (arg1 > Z.of_nat (length vps_list))
  then send Error "Invalid VPS"
  else
    match vps_list !! Z.to_nat (arg1 - 1) with
    | None => raise "IndexError"
    | Some v =>
      let container_name := container_name v in
      let slots := default 0 (users (port_data g) !! user_id) in
      let active := default [] (active_ports (port_data g) !! user_id) in
      if bool_decide (Z.of_nat (length active) >= slots) then
        send Error "No Slots"
      else
        match get_next_available_port (port_data g) with
        | None => send Error "System Error"
        | Some host_port =>
          if bool_decide (host_port = 0) then send Error "System Error"
          else
            send Info "Adding Port Forward" >>
            try_except
              (execute_RTC (tcp_add_command container_name host_port arg2) >>
               execute_RTC (udp_add_command container_name host_port arg2) >>
               let* g := get in
               match active_ports (port_data g) !! user_id with
               | None => set_active_ports
                           (<[user_id := []]> (active_ports (port_data g)))
               | Some _ => ret tt
               end >>
               let* g := get in
               set_active_ports
                 (alter (λ l, l ++ [ {| container := container_name;
                                        internal_port := arg2;
                                        host_port := host_port |} ])
                        user_id (active_ports (port_data g))) >>
               save_data >>
               send Success "Port Forward Added")
              (λ e, send Error "Failed")
        end
    end.

(** The branch [action == "remove"] of [ports_command], argument given. *)
Definition ports_remove (user_id : string) (arg1 : Z) : M unit :=
  let* g := get in
  let active := default [] (active_ports (port_data g) !! user_id) in
  match find (λ p, bool_decide (host_port p = arg1)) active with
  | None => send Error "Not Found"
  | Some found =>
    try_except
      (execute_RTC (tcp_remove_command (container found) arg1) >>
       execute_RTC (udp_remove_command (container found) arg1) >>
       let* g := get in
       match active_ports (port_data g) !! user_id
             ≫= list_remove_first found with
       | None => raise "ValueError"
       | Some l => set_active_ports
                     (<[user_id := l]> (active_ports (port_data g)))
       end >>
       save_data >>
       send Success "Port Forward Removed")
      (λ e, send Error "Failed")
  end.

(** [ports_command(ctx, action, arg1, arg2)] *)
Definition ports_command (author : Z) (action : string) (arg1 arg2 : option Z)
  : M unit :=
  let user_id := pretty author in
  if bool_decide (action = "list") then
    send Info "🔌 Port Forwarding"
  else if bool_decide (action = "add") then
    match arg1, arg2 with
    | Some arg1, Some arg2 => ports_add user_id arg1 arg2
    | _, _ => send Error "Usage"
    end
  else if bool_decide (action = "remove") then
    match arg1 with
    | None => send Error "Usage"
    | Some arg1 => ports_remove user_id arg1
    end
  else ret tt.

(** [ports_add_user(ctx, amount, user)] *)
Definition ports_add_user (amount user : Z) : M unit :=
  let user_id := pretty user in
  let* g := get in
  let slots := default 0 (users (port_data g) !! user_id) in
  set_users (<[user_id := slots + amount]> (users (port_data g))) >>
  save_data >>
  send Success "Slots Allocated".

(** *** Requests *)

(** Everything that can happen to the engine after start-up: a command of
    the chat surface with its author, or a wake-up of one of the two
    guardian tasks. *)
Inductive request :=
| CreateVps (author ram cpu disk user : Z)
| DeleteVps (author user vps_number : Z)
| AdminAdd (author user : Z)
| AdminRemove (author user : Z)
| PortsCommand (author : Z) (action : string) (arg1 arg2 : option Z)
| PortsAddUser (author amount user : Z)
| CpuMonitorControl (author : Z) (action : string)
| CpuMonitorWake
| VpsMonitorWake.

(** Dispatch, with the check decorators of each command. *)
Definition handle (r : request) : M unit :=
  match r with
  | CreateVps author ram cpu disk user =>
      checked (is_admin author) (create_vps ram cpu disk user)
  | DeleteVps author user vps_number =>
      checked (is_admin author) (delete_vps user vps_number)
  | AdminAdd author user => checked (is_main_admin author) (admin_add user)
  | AdminRemove author user => checked (is_main_admin author) (admin_remove user)
  | PortsCommand author action arg1 arg2 => ports_command author action arg1 arg2
  | PortsAddUser author amount user =>
      checked (is_admin author) (ports_add_user amount user)
  | CpuMonitorControl author action =>
      checked (is_admin author) (cpu_monitor_control action)
  | CpuMonitorWake => cpu_monitor
  | VpsMonitorWake => vps_monitor
  end.

(** The world after a request; an exception that escapes a handler is
    answered by [on_command_error] and leaves the state as it is then. *)
Definition step (w : World) (r : request) : World := (handle r w).2.

Definition run (w : World) (rs : list request) : World := foldl step w rs.

End Engine.

(** * Verification *)

(** ** Symbolic execution of handlers *)

Ltac munfold :=
  cbv beta iota zeta delta
    [bind ret raise try_except get put emit send history execute_RTC
     set_vps_data set_admin_data set_port_data set_users set_active_ports
     set_cpu_monitor_active save_data datetime_now checked
     get_cpu_usage get_container_cpu_pct get_container_ram_pct];
  cbn [mem disk trace save_log cpu_monitor_task vps_data admin_data port_data
       cpu_monitor_active users active_ports fst snd].

(** Closes conjunctions of equations between worlds or traces. *)
Ltac trace_eq :=
  repeat split; try reflexivity;
  rewrite <- ?app_assoc; cbn [app]; reflexivity.

(** ** Relations that every step of a handler respects *)

(** [relates R m]: running [m] takes every world to an [R]-related one. *)
Definition relates {A} (R : relation World) (m : M A) : Prop :=
  ∀ w, R w (m w).2.

Lemma relates_elim {A} (R : relation World) (m : M A) w :
  relates R m → R w (m w).2.
Proof. intros H. apply H. Qed.

Section Relates.
Context (R : relation World) `{!PreOrder R}.

Lemma relates_ret {A} (a : A) : relates R (ret a).
Proof. intros w. reflexivity. Qed.

Lemma relates_raise {A} (e : string) : relates R (@raise A e).
Proof. intros w. reflexivity. Qed.

Lemma relates_get : relates R get.
Proof. intros w. reflexivity. Qed.

Lemma relates_history : relates R history.
Proof. intros w. reflexivity. Qed.

Lemma relates_bind {A B} (m : M A) (k : A → M B) :
  relates R m → (∀ a, relates R (k a)) → relates R (bind m k).
Proof.
  intros Hm Hk w. unfold bind. specialize (Hm w).
  destruct (m w) as [[a|e] w']; simpl in *; [|done].
  etrans; [exact Hm|apply Hk].
Qed.

Lemma relates_try {A} (m : M A) (h : string → M A) :
  relates R m → (∀ e, relates R (h e)) → relates R (try_except m h).
Proof.
  intros Hm Hh w. unfold try_except. specialize (Hm w).
  destruct (m w) as [[a|e] w']; simpl in *; [done|].
  etrans; [exact Hm|apply Hh].
Qed.

Lemma relates_for_each {A} (l : list A) (body : A → M unit) :
  (∀ x, relates R (body x)) → relates R (for_each l body).
Proof.
  intros Hb. induction l as [|x l IH]; simpl.
  - apply relates_ret.
  - apply relates_bind; [apply Hb|intros _; exact IH].
Qed.

Lemma relates_checked (check : Globals → bool) (body : M unit) :
  relates R (emit (Send Error "Access Denied")) → relates R body →
  relates R (checked check body).
Proof.
  intros He Hb. unfold checked. apply relates_bind; [apply relates_get|].
  intros g. destruct (check g); [exact Hb|exact He].
Qed.

Lemma relates_run (step : World → request → World) (rs : list request) w :
  (∀ w r, R w (step w r)) → R w (foldl step w rs).
Proof.
  intros Hs. revert w. induction rs as [|r rs IH]; intros w; simpl.
  - reflexivity.
  - etrans; [apply Hs|apply IH].
Qed.

End Relates.

(** Decomposes a handler into its primitive steps; [leaf] closes those. *)
Ltac solve_preorder :=
  try match goal with |- PreOrder _ => apply _ end.

Ltac relates_with leaf :=
  repeat lazymatch goal with
    | |- relates _ (ret _) => apply relates_ret; solve_preorder
    | |- relates _ (raise _) => apply relates_raise; solve_preorder
    | |- relates _ get => apply relates_get; solve_preorder
    | |- relates _ history => apply relates_history; solve_preorder
    | |- relates _ (bind _ _) =>
        (apply relates_bind; solve_preorder); [|intros ?]
    | |- relates _ (try_except _ _) =>
        (apply relates_try; solve_preorder); [|intros ?]
    | |- relates _ (for_each _ _) =>
        (apply relates_for_each; solve_preorder); intros ?
    | |- relates _ (checked _ _) => apply relates_checked; solve_preorder
    | |- relates _ (if ?b then _ else _) => destruct b
    | |- relates _ (match ?x with _ => _ end) => destruct x
    | |- relates _ (let _ := _ in _) => cbv zeta
    | |- relates _ _ => leaf
    end.

(** A relation given by a component of the world that must not change. *)
Definition unchanged {X} (f : World → X) : relation World :=
  λ w w', f w' = f w.

#[global] Instance unchanged_preorder {X} (f : World → X) :
  PreOrder (unchanged f).
Proof.
  split; [intros w; reflexivity|].
  intros w1 w2 w3 H12 H23. unfold unchanged in *. congruence.
Qed.

Ltac unchanged_leaf := intros ?; reflexivity.

(** Unfolds the handlers down to the primitive steps of the monad. *)
Ltac unfold_handlers :=
  unfold create_vps, delete_vps, admin_add, admin_remove, ports_command,
    ports_add, ports_remove, ports_add_user, cpu_monitor_control, vps_monitor,
    monitor_vps, cpu_monitor_body, execute_RTC, datetime_now, get_cpu_usage,
    get_container_cpu_pct, get_container_ram_pct, send.

(** ** Facts about the pure helpers *)

Lemma list_remove_first_Some {A} `{EqDecision A} (x : A) l l' :
  list_remove_first x l = Some l' →
  ∃ l1 l2, l = l1 ++ x :: l2 ∧ l' = l1 ++ l2 ∧ x ∉ l1.
Proof.
  revert l'. induction l as [|y l IH]; intros l' Hl; simpl in Hl; [done|].
  case_decide as Hxy.
  - simplify_eq. exists [], l'. split_and!; [done..|apply not_elem_of_nil].
  - destruct (list_remove_first x l) as [k|] eqn:Hk; simplify_eq/=.
    destruct (IH k eq_refl) as (l1 & l2 & -> & -> & Hx).
    exists (y :: l1), l2. split_and!; [done..|].
    rewrite not_elem_of_cons. done.
Qed.

Lemma list_remove_first_elem_of_ne {A} `{EqDecision A} (x y : A) l l' :
  list_remove_first x l = Some l' → y ≠ x → y ∈ l' ↔ y ∈ l.
Proof.
  intros Hl Hne. destruct (list_remove_first_Some _ _ _ Hl) as (l1 & l2 & -> & -> & _).
  rewrite !elem_of_app, elem_of_cons. tauto.
Qed.

(** ** Concrete worlds used in the examples below *)

(** A disk on which none of the three files exists yet. *)
Definition fresh_disk : Disk :=
  {| vps_file := Missing; admin_file := Missing; port_file := Missing |}.

(** An outside world in which every command succeeds, every sample reads
    0% and every write reaches the disk. *)
Definition quiet_env : Env :=
  {| rtc := λ _ _, Done "ok";
     host_cpu := λ _, Q2Qc 0;
     container_cpu := λ _ _, Q2Qc 0;
     container_ram := λ _ _, Q2Qc 0;
     now := λ _, "2024-01-01T00:00:00";
     disk_write := λ _, Saved;
     fmt1 := λ _, "0.0" |}.

(** The world just after start-up on a fresh disk. *)
Definition fresh_world : World :=
  {| mem := {| vps_data := ∅;
               admin_data :=
                 {| admins := Some [pretty (MAIN_ADMIN_ID default_config)] |};
               port_data := {| users := ∅; active_ports := ∅ |};
               cpu_monitor_active := true |};
     disk := fresh_disk; trace := []; save_log := [];
     cpu_monitor_task := TaskRunning |}.

(** An environment in which exactly the commands selected by [bad] fail. *)
Definition failing_env (bad : string → bool) (err : string) : Env :=
  {| rtc := λ _ command, if bad command then Failed err else Done "ok";
     host_cpu := host_cpu quiet_env;
     container_cpu := container_cpu quiet_env;
     container_ram := container_ram quiet_env;
     now := now quiet_env;
     disk_write := disk_write quiet_env;
     fmt1 := fmt1 quiet_env |}.

(** User 7 owns one instance and has three slots. *)
Definition one_vps_world : World :=
  run default_config quiet_env fresh_world
    [ CreateVps 1210291131301101618 2 1 10 7;
      PortsAddUser 1210291131301101618 3 7 ].

(** ** Loading (C10) *)

(** What a load makes of a file it could read: the content, or the
    default when the file is missing or does not hold JSON. *)
Definition loaded {A} (dflt : A) (f : file A) : A :=
  match f with
  | Json a => a
  | Missing | Corrupt | Unreadable _ => dflt
  end.

(** Reading the file raises nothing but [FileNotFoundError] or
    [json.JSONDecodeError]. *)
Definition readable {A} (f : file A) : Prop := ∀ e, f ≠ Unreadable e.

(** The three defaults. *)
Definition default_admins (cfg : Config) : admin_table :=
  {| admins := Some [pretty (MAIN_ADMIN_ID cfg)] |}.

Definition default_ports : port_table := {| users := ∅; active_ports := ∅ |}.

(** C10 (claim as stated, refuted). Loading can fail: a file that exists
    but cannot be read as text (here bytes that are not UTF-8) raises an
    exception that none of the three loaders catches, and start-up stops
    with it, also when the other files are fine. *)
Lemma load_raises_on_undecodable_file :
  load_vps_data (Unreadable "UnicodeDecodeError") = Raise "UnicodeDecodeError"
  ∧ load_admin_data default_config (Unreadable "UnicodeDecodeError")
    = Raise "UnicodeDecodeError"
  ∧ load_port_data (Unreadable "UnicodeDecodeError")
    = Raise "UnicodeDecodeError"
  ∧ startup default_config
      {| vps_file := Json ∅; admin_file := Unreadable "UnicodeDecodeError";
         port_file := Missing |}
    = Raise "UnicodeDecodeError".
Proof. repeat split. Qed.

(** C10 (as amended). Start-up fails exactly when one of the three files
    raises an error other than "missing" or "invalid JSON", and then with
    the error of the first such file in the order instances, admins, ports.
    Otherwise it succeeds, and each collection, independently of the other
    two, is the content of its file, or its default when the file is
    missing or holds invalid JSON: no instance records, an admin list
    holding only the main admin, an empty port table.  Loading does not
    touch the files; the first save that succeeds writes the loaded values
    over them, so the records of a corrupted file are lost without an
    error. *)
Theorem load_fails_only_on_other_errors (cfg : Config) (d : Disk) :
  (∀ e, startup cfg d = Raise e
        ↔ vps_file d = Unreadable e
          ∨ (readable (vps_file d) ∧ admin_file d = Unreadable e)
          ∨ (readable (vps_file d) ∧ readable (admin_file d)
             ∧ port_file d = Unreadable e))
  ∧ (readable (vps_file d) → readable (admin_file d) →
     readable (port_file d) →
     startup cfg d
     = Ret {| mem := {| vps_data := loaded ∅ (vps_file d);
                        admin_data := loaded (default_admins cfg) (admin_file d);
                        port_data := loaded default_ports (port_file d);
                        cpu_monitor_active := true |};
              disk := d; trace := []; save_log := [];
              cpu_monitor_task := TaskRunning |})
  ∧ (∀ env w, startup cfg d = Ret w → disk_write env [] = Saved →
       disk (save_data env w).2
       = {| vps_file := Json (loaded ∅ (vps_file d));
            admin_file := Json (loaded (default_admins cfg) (admin_file d));
            port_file := Json (loaded default_ports (port_file d)) |}).
Proof.
  destruct d as [fv fa fp]. unfold readable. cbn [vps_file admin_file port_file].
  split_and!.
  - intros e. unfold startup. cbn [vps_file admin_file port_file].
    destruct fv as [| |ev|v]; cbn;
      (destruct fa as [| |ea|a]; cbn; [| | |]);
      (destruct fp as [| |ep|p]; cbn; [| | |]);
      (split;
       [ intros H; simplify_eq;
         first [ by left
               | right; left; split; [by intros ?|done]
               | right; right; split_and!; [by intros ?|by intros ?|done] ]
       | intros [H|[[H1 H]|(H1 & H2 & H)]]; simplify_eq; try done;
         try (by exfalso; eapply H1); try (by exfalso; eapply H2) ]).
  - intros Hv Ha Hp. unfold startup. cbn [vps_file admin_file port_file].
    destruct fv as [| |ev|v]; [| |by destruct (Hv ev)|];
      (destruct fa as [| |ea|a]; [| |by destruct (Ha ea)|]);
      (destruct fp as [| |ep|p]; [| |by destruct (Hp ep)|]); reflexivity.
  - intros env w Hw Hs. unfold startup in Hw.
    cbn [vps_file admin_file port_file] in Hw.
    destruct fv as [| |ev|v]; cbn in Hw; try done;
      (destruct fa as [| |ea|a]; cbn in Hw; try done);
      (destruct fp as [| |ep|p]; cbn in Hw; try done);
      simplify_eq; unfold save_data; cbn; rewrite Hs; reflexivity.
Qed.

(** The admin file is corrupt, the other two are read: the admin list
    starts as the default and the first save replaces the corrupt file. *)
Example corrupt_admin_file :
  let d := {| vps_file := Json {[ "7" := [] ]}; admin_file := Corrupt;
              port_file := Missing |} in
  ∃ w, startup default_config d = Ret w
       ∧ vps_data (mem w) = {[ "7" := [] ]}
       ∧ admin_data (mem w) = default_admins default_config
       ∧ disk w = d
       ∧ admin_file (disk (save_data quiet_env w).2)
         = Json (default_admins default_config).
Proof. eexists. repeat split. Qed.

(** ** Admin registry (C8) *)

(** [admin_data.get("admins", [])] *)
Definition admin_list (g : Globals) : list string :=
  default [] (admins (admin_data g)).

(** The main admin id is listed among the delegated admins. *)
Definition main_is_listed (cfg : Config) (w : World) : Prop :=
  pretty (MAIN_ADMIN_ID cfg) ∈ admin_list (mem w).

Definition same_main_listing (cfg : Config) : relation World :=
  λ w w', main_is_listed cfg w' ↔ main_is_listed cfg w.

#[global] Instance same_main_listing_preorder cfg :
  PreOrder (same_main_listing cfg).
Proof.
  split; [intros w; unfold same_main_listing; tauto|].
  intros w1 w2 w3. unfold same_main_listing. tauto.
Qed.

Lemma unchanged_admin_same_main cfg w w' :
  unchanged (λ w, admin_data (mem w)) w w' → same_main_listing cfg w w'.
Proof.
  unfold unchanged, same_main_listing, main_is_listed, admin_list.
  intros ->. done.
Qed.

Lemma admin_add_same_main cfg env user w :
  same_main_listing cfg w (admin_add cfg env user w).2.
Proof.
  unfold same_main_listing, main_is_listed, admin_list, admin_add. munfold.
  case_bool_decide as Hmain; [done|].
  case_bool_decide as Hin; [done|].
  destruct (admins (admin_data (mem w))) as [l|] eqn:El; cbn; rewrite ?El; cbn.
  - rewrite elem_of_app, list_elem_of_singleton. intuition congruence.
  - rewrite list_elem_of_singleton. split; [intros; congruence|].
    intros H. by apply elem_of_nil in H.
Qed.

Lemma admin_remove_same_main cfg env user w :
  same_main_listing cfg w (admin_remove cfg env user w).2.
Proof.
  unfold same_main_listing, main_is_listed, admin_list, admin_remove. munfold.
  case_bool_decide as Hmain; [done|].
  case_bool_decide as Hin; [done|].
  destruct (admins (admin_data (mem w))) as [l|] eqn:El; cbn; [|rewrite El; done].
  destruct (list_remove_first (pretty user) l) as [l'|] eqn:Hl; cbn;
    [|rewrite El; done].
  apply (list_remove_first_elem_of_ne _ _ _ _ Hl). congruence.
Qed.

Lemma step_same_main cfg env w r : same_main_listing cfg w (step cfg env w r).
Proof.
  unfold step.
  destruct r; cbn [handle];
    try solve [apply unchanged_admin_same_main,
                 (relates_elim (unchanged (λ w, admin_data (mem w))));
               unfold_handlers; relates_with unchanged_leaf].
  - apply (relates_elim (same_main_listing cfg)), relates_checked;
      solve_preorder; [done|].
    intros w'. apply admin_add_same_main.
  - apply (relates_elim (same_main_listing cfg)), relates_checked;
      solve_preorder; [done|].
    intros w'. apply admin_remove_same_main.
  - apply unchanged_admin_same_main. unfold unchanged, cpu_monitor.
    destruct (cpu_monitor_task w); [|done].
    destruct (cpu_monitor_active (mem w)); [|done].
    apply (relates_elim (unchanged (λ w, admin_data (mem w)))).
    unfold_handlers. relates_with unchanged_leaf.
Qed.

(** C8 (claim as stated, refuted). The state produced by the initial load
    when [admin_data.json] is missing lists the main admin id among the
    delegated admins: [load_admin_data] returns [{"admins": [str(MAIN_ADMIN_ID)]}]. *)
Lemma main_admin_listed_after_default_load :
  ∃ w, startup default_config fresh_disk = Ret w
       ∧ main_is_listed default_config w.
Proof.
  eexists. split; [reflexivity|].
  unfold main_is_listed, admin_list. cbn. apply list_elem_of_singleton. done.
Qed.

(** C8 (as amended). In every state reachable by any sequence of requests
    (admin-add and admin-remove included), the main admin id is listed
    among the delegated admins exactly when it was listed in the initial
    state: admin-add never adds it and admin-remove never removes it.  After
    a load from a missing or corrupt file it is therefore always listed.
    The main admin passes both admin checks in every state, so no operation
    removes the main admin. *)
Theorem main_admin_listing_invariant cfg env w rs :
  let w' := run cfg env w rs in
  (main_is_listed cfg w' ↔ main_is_listed cfg w)
  ∧ is_admin cfg (MAIN_ADMIN_ID cfg) (mem w') = true
  ∧ is_main_admin cfg (MAIN_ADMIN_ID cfg) (mem w') = true
  ∧ (∀ d, admin_file d ∈ [Missing; Corrupt] → startup cfg d = Ret w →
          main_is_listed cfg w').
Proof.
  intros w'.
  assert (Hinv : main_is_listed cfg w' ↔ main_is_listed cfg w).
  { apply (relates_run (same_main_listing cfg)). apply step_same_main. }
  split_and!; [exact Hinv| | |].
  - unfold is_admin. rewrite bool_decide_eq_true_2; done.
  - unfold is_main_admin. rewrite bool_decide_eq_true_2; done.
  - intros d Hd Hstart. apply Hinv.
    unfold startup in Hstart.
    destruct (load_vps_data (vps_file d)); [|done].
    assert (Ha : load_admin_data cfg (admin_file d)
                 = Ret {| admins := Some [pretty (MAIN_ADMIN_ID cfg)] |}).
    { apply elem_of_cons in Hd as [->|Hd]; [done|].
      apply list_elem_of_singleton in Hd as ->. done. }
    rewrite Ha in Hstart. destruct (load_port_data (port_file d)); [|done].
    simplify_eq. unfold main_is_listed, admin_list. cbn.
    apply list_elem_of_singleton. done.
Qed.

(** ** Host guardian (C9) *)

Definition is_host_sample (e : event) : bool :=
  match e with SampleHost => true | _ => false end.

(** How many times the host guardian has sampled the host so far. *)
Definition host_samples (w : World) : nat :=
  length (List.filter is_host_sample (trace w)).

(** Once the monitor task has finished it stays finished and samples no more. *)
Definition monitor_stays_dead : relation World :=
  λ w w', cpu_monitor_task w = TaskFinished →
          cpu_monitor_task w' = TaskFinished ∧ host_samples w' = host_samples w.

#[global] Instance monitor_stays_dead_preorder : PreOrder monitor_stays_dead.
Proof.
  split; [by intros w|].
  intros w1 w2 w3 H12 H23 H1.
  destruct (H12 H1) as [H2 E12]. destruct (H23 H2) as [H3 E23].
  split; [done|congruence].
Qed.

Lemma monitor_stays_dead_emit e :
  is_host_sample e = false → relates monitor_stays_dead (emit e).
Proof.
  intros He w Hw. split; [done|].
  unfold host_samples. cbn. rewrite List.filter_app. cbn. rewrite He.
  by rewrite app_nil_r.
Qed.

Ltac monitor_stays_dead_leaf :=
  first [ apply monitor_stays_dead_emit; reflexivity
        | intros ? ?; split; [assumption|reflexivity] ].

Lemma step_monitor_stays_dead cfg env w r :
  monitor_stays_dead w (step cfg env w r).
Proof.
  unfold step.
  destruct r; cbn [handle];
    try solve [apply (relates_elim monitor_stays_dead);
               unfold_handlers; relates_with monitor_stays_dead_leaf].
  intros Hw. unfold cpu_monitor. rewrite Hw. done.
Qed.

(** While the flag is set, a wake-up of a running task runs the body and
    leaves the task running, whatever the sample and the command do. *)
Lemma cpu_monitor_survives_failures cfg env w :
  cpu_monitor_task w = TaskRunning → cpu_monitor_active (mem w) = true →
  cpu_monitor_task (step cfg env w CpuMonitorWake) = TaskRunning
  ∧ host_samples (step cfg env w CpuMonitorWake) = S (host_samples w)
  ∧ (cpu_monitor cfg env w).1 = Ret tt.
Proof.
  intros Ht Ha. unfold step, handle, cpu_monitor. rewrite Ht, Ha.
  unfold cpu_monitor_body, host_samples. munfold.
  destruct (exceeds _ _); munfold.
  - destruct (rtc env _ _); munfold; cbn;
      rewrite List.filter_app, length_app; cbn;
      rewrite ?List.filter_app, ?length_app; cbn; split_and!; (done || lia).
  - rewrite List.filter_app, length_app; cbn. split_and!; (done || lia).
Qed.

Lemma cpu_monitor_control_disable cfg env w author :
  is_admin cfg author (mem w) = true →
  step cfg env w (CpuMonitorControl author "disable")
  = {| mem := {| vps_data := vps_data (mem w);
                 admin_data := admin_data (mem w);
                 port_data := port_data (mem w);
                 cpu_monitor_active := false |};
       disk := disk w;
       trace := trace w ++ [Send Warning "CPU Monitor Disabled"];
       save_log := save_log w;
       cpu_monitor_task := cpu_monitor_task w |}.
Proof.
  intros Ha. unfold step, handle, cpu_monitor_control. munfold. rewrite Ha.
  reflexivity.
Qed.

Lemma cpu_monitor_control_enable cfg env w author :
  is_admin cfg author (mem w) = true →
  step cfg env w (CpuMonitorControl author "enable")
  = {| mem := {| vps_data := vps_data (mem w);
                 admin_data := admin_data (mem w);
                 port_data := port_data (mem w);
                 cpu_monitor_active := true |};
       disk := disk w;
       trace := trace w ++ [Send Success "CPU Monitor Enabled"];
       save_log := save_log w;
       cpu_monitor_task := cpu_monitor_task w |}.
Proof.
  intros Ha. unfold step, handle, cpu_monitor_control. munfold. rewrite Ha.
  reflexivity.
Qed.

(** C9. The toggle does not bring the host guardian back.  Starting from
    any state in which the monitor task is running: after an admin disables
    the monitor, the task wakes up once, and an admin enables the monitor
    again, the flag reads enabled and the caller was told "CPU Monitor
    Enabled", but the task has returned from its [while] loop; whatever
    requests and wake-ups follow, it stays finished and the host is never
    sampled again. *)
Theorem cpu_monitor_dead_after_disable_enable cfg env w author rs :
  is_admin cfg author (mem w) = true →
  cpu_monitor_task w = TaskRunning →
  let w1 := run cfg env w [CpuMonitorControl author "disable"; CpuMonitorWake;
                           CpuMonitorControl author "enable"] in
  let w2 := run cfg env w1 rs in
  trace w1 = trace w ++ [Send Warning "CPU Monitor Disabled";
                         Send Success "CPU Monitor Enabled"]
  ∧ cpu_monitor_active (mem w1) = true
  ∧ cpu_monitor_task w1 = TaskFinished
  ∧ cpu_monitor_task w2 = TaskFinished
  ∧ host_samples w2 = host_samples w.
Proof.
  intros Ha Ht w1 w2.
  assert (Hw1 : w1 = {| mem := {| vps_data := vps_data (mem w);
                                  admin_data := admin_data (mem w);
                                  port_data := port_data (mem w);
                                  cpu_monitor_active := true |};
                        disk := disk w;
                        trace := trace w ++ [Send Warning "CPU Monitor Disabled";
                                             Send Success "CPU Monitor Enabled"];
                        save_log := save_log w;
                        cpu_monitor_task := TaskFinished |}).
  { unfold w1, run. cbn [foldl].
    rewrite (cpu_monitor_control_disable _ _ _ _ Ha).
    unfold step at 2. cbn [handle]. unfold cpu_monitor. cbn. rewrite Ht. cbn.
    rewrite cpu_monitor_control_enable by exact Ha. cbn.
    by rewrite <- app_assoc. }
  assert (Hs1 : host_samples w1 = host_samples w).
  { rewrite Hw1. unfold host_samples. cbn. rewrite List.filter_app. cbn.
    by rewrite app_nil_r. }
  destruct (relates_run monitor_stays_dead (step cfg env) rs w1
              (step_monitor_stays_dead cfg env)) as [Hfin Hsame].
  { by rewrite Hw1. }
  rewrite Hw1 at 1 2 3. cbn. split_and!; [done..| |].
  - exact Hfin.
  - unfold w2, run. congruence.
Qed.

Lemma cpu_monitor_dead_after_disable_enable_witness :
  let w1 := run default_config quiet_env fresh_world
              [CpuMonitorControl 1210291131301101618 "disable"; CpuMonitorWake;
               CpuMonitorControl 1210291131301101618 "enable"] in
  let w2 := run default_config quiet_env w1 [CpuMonitorWake; CpuMonitorWake] in
  trace w1 = [Send Warning "CPU Monitor Disabled";
              Send Success "CPU Monitor Enabled"]
  ∧ cpu_monitor_active (mem w1) = true
  ∧ cpu_monitor_task w1 = TaskFinished
  ∧ cpu_monitor_task w2 = TaskFinished
  ∧ host_samples w2 = host_samples fresh_world.
Proof.
  apply (cpu_monitor_dead_after_disable_enable default_config quiet_env
           fresh_world 1210291131301101618 [CpuMonitorWake; CpuMonitorWake]);
    vm_compute; reflexivity.
Defined.

(** ** Port allocator (C4) *)

Section Ports.
Implicit Types (ap : gmap string (list port_info)) (pd : port_table).

(** Host port [p] is currently mapped by a forward of some user. *)
Definition mapped ap (p : Z) : Prop :=
  ∃ user_id l f, ap !! user_id = Some l ∧ f ∈ l ∧ host_port f = p.

Definition in_range (p : Z) : Prop := 10000 ≤ p < 20000.

(** The invariant of the allocation table, user by user. *)
Definition ports_ok ap : Prop :=
  (∀ u l, ap !! u = Some l →
          NoDup (host_port <$> l) ∧ ∀ f, f ∈ l → in_range (host_port f))
  ∧ (∀ u1 u2 l1 l2 f1 f2,
       u1 ≠ u2 → ap !! u1 = Some l1 → ap !! u2 = Some l2 →
       f1 ∈ l1 → f2 ∈ l2 → host_port f1 ≠ host_port f2).

Lemma elem_of_add_ports (l : list port_info) (acc : gset Z) p :
  p ∈ foldl (λ used port_info, {[host_port port_info]} ∪ used) acc l
  ↔ p ∈ acc ∨ ∃ f, f ∈ l ∧ host_port f = p.
Proof.
  revert acc. induction l as [|f l IH]; intros acc; simpl.
  - split; [by left|]. intros [?|(f & Hf & _)]; [done|].
    by apply elem_of_nil in Hf.
  - rewrite IH, elem_of_union, elem_of_singleton. split.
    + intros [[->|?]|(f' & Hf' & <-)]; [right|by left|right].
      * exists f. split; [apply elem_of_cons; by left|done].
      * exists f'. split; [apply elem_of_cons; by right|done].
    + intros [?|(f' & Hf' & <-)]; [by left; right|].
      apply elem_of_cons in Hf' as [->|Hf']; [by left; left|].
      right. by exists f'.
Qed.

Lemma elem_of_add_all_ports (ls : list (list port_info)) (acc : gset Z) p :
  p ∈ foldl (λ used user_ports,
               foldl (λ used port_info, {[host_port port_info]} ∪ used)
                     used user_ports) acc ls
  ↔ p ∈ acc ∨ ∃ l f, l ∈ ls ∧ f ∈ l ∧ host_port f = p.
Proof.
  revert acc. induction ls as [|l ls IH]; intros acc; simpl.
  - split; [by left|]. intros [?|(l & f & Hl & _)]; [done|].
    by apply elem_of_nil in Hl.
  - rewrite IH, elem_of_add_ports. split.
    + intros [[?|(f & Hf & <-)]|(l' & f & Hl' & Hf & <-)]; [by left|right..].
      * exists l, f. split_and!; [apply elem_of_cons; by left|done..].
      * exists l', f. split_and!; [apply elem_of_cons; by right|done..].
    + intros [?|(l' & f & Hl' & Hf & <-)]; [by left; left|].
      apply elem_of_cons in Hl' as [->|Hl'].
      * left; right. by exists f.
      * right. by exists l', f.
Qed.

Lemma elem_of_used_ports pd p : p ∈ used_ports pd ↔ mapped (active_ports pd) p.
Proof.
  unfold used_ports, mapped. rewrite elem_of_add_all_ports. split.
  - intros [H|(l & f & Hl & Hf & <-)]; [by apply not_elem_of_empty in H|].
    apply list_elem_of_fmap in Hl as ([u l'] & -> & Hul).
    apply elem_of_map_to_list in Hul. by exists u, l', f.
  - intros (u & l & f & Hu & Hf & <-). right. exists l, f. split_and!; [|done..].
    apply list_elem_of_fmap. exists (u, l). split; [done|].
    by apply elem_of_map_to_list.
Qed.

Lemma find_Some_first {A} (f : A → bool) (l : list A) x :
  find f l = Some x →
  ∃ i, l !! i = Some x ∧ f x = true
       ∧ ∀ j y, l !! j = Some y → (j < i)%nat → f y = false.
Proof.
  induction l as [|y l IH]; simpl; [done|].
  destruct (f y) eqn:Hy.
  - intros [= ->]. exists 0%nat. split_and!; [done..|]. intros; lia.
  - intros Hx. destruct (IH Hx) as (i & Hi & Hfx & Hlt).
    exists (S i). split_and!; [done..|].
    intros [|j] z Hz Hj; simpl in Hz; [by simplify_eq|].
    apply (Hlt j); [done|lia].
Qed.

Lemma find_None_all {A} (f : A → bool) (l : list A) :
  find f l = None ↔ ∀ x, x ∈ l → f x = false.
Proof.
  induction l as [|y l IH]; simpl.
  - split; [|done]. intros _ x Hx. by apply elem_of_nil in Hx.
  - destruct (f y) eqn:Hy.
    + split; [done|]. intros H. specialize (H y). rewrite Hy in H.
      discriminate H. apply elem_of_cons. by left.
    + rewrite IH. split.
      * intros H x Hx. apply elem_of_cons in Hx as [->|Hx]; [done|by apply H].
      * intros H x Hx. apply H, elem_of_cons. by right.
Qed.

(** [get_next_available_port] returns the lowest unmapped port of the range. *)
Lemma get_next_available_port_Some pd p :
  get_next_available_port pd = Some p →
  in_range p ∧ ¬ mapped (active_ports pd) p
  ∧ ∀ q, 10000 ≤ q < p → mapped (active_ports pd) q.
Proof.
  unfold get_next_available_port, in_range. cbv zeta. intros Hfind.
  destruct (find_Some_first _ _ _ Hfind) as (i & Hi & Hp & Hlow).
  apply lookup_seqZ in Hi as [-> Hi]. apply bool_decide_eq_true in Hp.
  rewrite elem_of_used_ports in Hp. split_and!; [lia..|done|].
  intros q Hq. specialize (Hlow (Z.to_nat (q - 10000)) q).
  rewrite lookup_seqZ_lt in Hlow by lia.
  replace (10000 + Z.of_nat (Z.to_nat (q - 10000))) with q in Hlow by lia.
  specialize (Hlow eq_refl). apply bool_decide_eq_false in Hlow; [|lia].
  apply elem_of_used_ports. by apply dec_stable.
Qed.

Lemma get_next_available_port_None pd :
  get_next_available_port pd = None
  ↔ ∀ q, in_range q → mapped (active_ports pd) q.
Proof.
  unfold get_next_available_port, in_range. cbv zeta. rewrite find_None_all.
  split.
  - intros H q Hq. apply elem_of_used_ports, dec_stable.
    specialize (H q). rewrite bool_decide_eq_false in H. apply H.
    apply list_elem_of_lookup. exists (Z.to_nat (q - 10000)).
    apply lookup_seqZ. lia.
  - intros H q Hq. apply bool_decide_eq_false. intros Hn. apply Hn.
    apply elem_of_used_ports, H.
    apply list_elem_of_lookup in Hq as [i Hi]. apply lookup_seqZ in Hi. lia.
Qed.

End Ports.

Lemma ports_ok_empty : ports_ok ∅.
Proof. split; intros *; rewrite ?lookup_empty; done. Qed.

(** Replacing one user's list keeps the invariant when every forward of the
    new list was already in the old one or maps a port nobody uses. *)
Lemma ports_ok_insert (ap : gmap string (list port_info)) user_id l' :
  ports_ok ap →
  NoDup (host_port <$> l') →
  (∀ f, f ∈ l' →
        in_range (host_port f)
        ∧ (f ∈ default [] (ap !! user_id) ∨ ¬ mapped ap (host_port f))) →
  ports_ok (<[user_id := l']> ap).
Proof.
  intros [Huser Hcross] Hnd Hnew.
  assert (Hother : ∀ u l f f', u ≠ user_id → ap !! u = Some l → f ∈ l →
                               f' ∈ l' → host_port f ≠ host_port f').
  { intros u l f f' Hu Hl Hf Hf' Heq.
    destruct (Hnew f' Hf') as [_ [Hold|Hfree]].
    - destruct (ap !! user_id) as [l0|] eqn:E; simpl in Hold;
        [|by apply elem_of_nil in Hold].
      by apply (Hcross u user_id l l0 f f').
    - apply Hfree. exists u, l, f. by rewrite <- Heq. }
  split.
  - intros u l. rewrite lookup_insert. case_decide as Hu.
    + intros [= <-]. split; [done|]. intros f Hf. by apply Hnew.
    + apply Huser.
  - intros u1 u2 l1 l2 f1 f2 Hne. rewrite !lookup_insert.
    repeat case_decide; subst; try done.
    + intros [= <-] H2 Hf1 Hf2 Heq. by apply (Hother u2 l2 f2 f1).
    + intros H1 [= <-] Hf1 Hf2. by apply (Hother u1 l1 f1 f2).
    + by apply Hcross.
Qed.

(** What a call of the add branch can do to the allocation table. *)
Lemma ports_add_active env user_id arg1 arg2 w :
  let ap := active_ports (port_data (mem w)) in
  let ap' := active_ports (port_data (mem (ports_add env user_id arg1 arg2 w).2)) in
  ap' = ap
  ∨ ∃ p c, get_next_available_port (port_data (mem w)) = Some p
           ∧ ap' = <[user_id := default [] (ap !! user_id)
                                 ++ [ {| container := c; internal_port := arg2;
                                         host_port := p |} ] ]> ap.
Proof.
  cbv zeta. unfold ports_add. munfold.
  destruct (_ || _); [by left|].
  destruct (_ !! Z.to_nat _) as [v|]; [|by left].
  destruct (bool_decide (_ >= _)); [by left|].
  destruct (get_next_available_port _) as [p|] eqn:Hp; [|by left].
  destruct (bool_decide (p = 0)); [by left|]. munfold.
  destruct (rtc env _ _); munfold; [|by left].
  destruct (rtc env _ _); munfold; [|by left].
  right. exists p, (container_name v). split; [done|].
  destruct (active_ports (port_data (mem w)) !! user_id) as [l|] eqn:E; munfold.
  - apply map_eq. intros j. rewrite lookup_alter, lookup_insert.
    case_decide; [subst; by rewrite E|done].
  - apply map_eq. intros j. rewrite lookup_alter, !lookup_insert.
    case_decide; [|done]. by rewrite decide_True.
Qed.

(** What a call of the remove branch can do to the allocation table. *)
Lemma ports_remove_active env user_id arg1 w :
  let ap := active_ports (port_data (mem w)) in
  let ap' := active_ports (port_data (mem (ports_remove env user_id arg1 w).2)) in
  ap' = ap
  ∨ ∃ l found l', ap !! user_id = Some l
                  ∧ find (λ p, bool_decide (host_port p = arg1)) l = Some found
                  ∧ list_remove_first found l = Some l'
                  ∧ ap' = <[user_id := l']> ap.
Proof.
  cbv zeta. unfold ports_remove. munfold.
  destruct (find _ _) as [found|] eqn:Hfind; [|by left]. munfold.
  destruct (rtc env _ _); munfold; [|by left].
  destruct (rtc env _ _); munfold; [|by left].
  destruct (active_ports (port_data (mem w)) !! user_id) as [l|] eqn:E;
    simpl in *; [|by left].
  destruct (list_remove_first found l) as [l'|] eqn:Hl'; munfold; [|by left].
  right. by exists l, found, l'.
Qed.

Lemma ports_add_ok env user_id arg1 arg2 w :
  ports_ok (active_ports (port_data (mem w))) →
  ports_ok (active_ports (port_data (mem (ports_add env user_id arg1 arg2 w).2))).
Proof.
  intros Hok.
  destruct (ports_add_active env user_id arg1 arg2 w) as [->|(p & c & Hp & ->)];
    [done|].
  apply get_next_available_port_Some in Hp as (Hrange & Hfree & _).
  apply ports_ok_insert; [done|..].
  - rewrite fmap_app. apply list.NoDup_app. split_and!.
    + destruct (_ !! user_id) as [l|] eqn:E; simpl; [|constructor].
      by apply (proj1 Hok user_id).
    + intros q Hq Hq'. apply list_elem_of_singleton in Hq'. simpl in Hq'. subst q.
      apply list_elem_of_fmap in Hq as (f & Hf & Hin).
      destruct (_ !! user_id) as [l|] eqn:E; simpl in Hin;
        [|by apply elem_of_nil in Hin].
      apply Hfree. by exists user_id, l, f.
    + apply NoDup_singleton.
  - intros f Hf. apply elem_of_app in Hf as [Hf|Hf].
    + split; [|by left].
      destruct (_ !! user_id) as [l|] eqn:E; simpl in Hf;
        [|by apply elem_of_nil in Hf].
      by apply (proj1 Hok user_id l).
    + apply list_elem_of_singleton in Hf as ->. simpl. split; [done|by right].
Qed.

Lemma ports_remove_ok env user_id arg1 w :
  ports_ok (active_ports (port_data (mem w))) →
  ports_ok (active_ports (port_data (mem (ports_remove env user_id arg1 w).2))).
Proof.
  intros Hok.
  destruct (ports_remove_active env user_id arg1 w)
    as [->|(l & found & l' & Hl & _ & Hrm & ->)]; [done|].
  destruct (list_remove_first_Some _ _ _ Hrm) as (l1 & l2 & -> & -> & _).
  destruct (proj1 Hok user_id _ Hl) as [Hnd Hr].
  apply ports_ok_insert; [done|..].
  - rewrite fmap_app in *. simpl in Hnd.
    apply list.NoDup_app in Hnd as (H1 & H12 & H2). apply list.NoDup_cons in H2 as [_ H2].
    apply list.NoDup_app. split_and!; [done| |done].
    intros q Hq Hq'. apply (H12 q Hq). apply elem_of_cons. by right.
  - intros f Hf. rewrite Hl. simpl.
    assert (f ∈ l1 ++ found :: l2).
    { rewrite elem_of_app, elem_of_cons. apply elem_of_app in Hf. tauto. }
    split; [by apply Hr|by left].
Qed.

Lemma step_ports_ok cfg env w r :
  ports_ok (active_ports (port_data (mem w))) →
  ports_ok (active_ports (port_data (mem (step cfg env w r)))).
Proof.
  intros Hok. unfold step.
  destruct r; cbn [handle];
    try solve [
      rewrite (relates_elim (unchanged (λ w, active_ports (port_data (mem w)))));
      [exact Hok|unfold_handlers; relates_with unchanged_leaf] ].
  - unfold ports_command.
    repeat lazymatch goal with
           | |- context [if ?b then _ else _] => destruct b
           | |- context [match ?x with _ => _ end] => destruct x
           end; try exact Hok.
    + by apply ports_add_ok.
    + by apply ports_remove_ok.
  - unfold cpu_monitor.
    destruct (cpu_monitor_task w); [|done].
    destruct (cpu_monitor_active (mem w)); [|done].
    rewrite (relates_elim (unchanged (λ w, active_ports (port_data (mem w)))));
      [exact Hok|unfold_handlers; relates_with unchanged_leaf].
Qed.

Lemma run_ports_ok cfg env w rs :
  ports_ok (active_ports (port_data (mem w))) →
  ports_ok (active_ports (port_data (mem (run cfg env w rs)))).
Proof.
  revert w. induction rs as [|r rs IH]; intros w Hok; simpl; [done|].
  by apply IH, step_ports_ok.
Qed.

(** C4. Start from any state whose allocation table is empty and serve any
    sequence of requests (allocate and release calls of any users among
    them, with any behaviour of the external tool).  In the state reached,
    every mapped host port lies in 10000..19999; no host port is mapped
    twice, neither by two users nor at two positions of one user's list;
    and [get_next_available_port] returns the lowest port of the range that
    no forward of any user maps, and [None] exactly when all 10000 ports of
    the range are mapped. *)
Theorem port_allocation_invariant cfg env w rs :
  active_ports (port_data (mem w)) = ∅ →
  let pd := port_data (mem (run cfg env w rs)) in
  let ap := active_ports pd in
  (∀ p, mapped ap p → 10000 ≤ p < 20000)
  ∧ (∀ u1 u2 l1 l2 i1 i2 f1 f2,
       ap !! u1 = Some l1 → ap !! u2 = Some l2 →
       l1 !! i1 = Some f1 → l2 !! i2 = Some f2 →
       host_port f1 = host_port f2 → u1 = u2 ∧ i1 = i2)
  ∧ (∀ p, get_next_available_port pd = Some p →
          10000 ≤ p < 20000 ∧ ¬ mapped ap p
          ∧ ∀ q, 10000 ≤ q < p → mapped ap q)
  ∧ (get_next_available_port pd = None
     ↔ ∀ q, 10000 ≤ q < 20000 → mapped ap q).
Proof.
  intros Hempty pd ap.
  assert (Hok : ports_ok ap).
  { apply run_ports_ok. rewrite Hempty. apply ports_ok_empty. }
  destruct Hok as [Huser Hcross]. split_and!.
  - intros p (u & l & f & Hl & Hf & <-). by apply (Huser u l).
  - intros u1 u2 l1 l2 i1 i2 f1 f2 H1 H2 Hf1 Hf2 Heq.
    destruct (decide (u1 = u2)) as [->|Hne].
    + split; [done|]. rewrite H1 in H2. injection H2 as <-.
      apply (NoDup_lookup (host_port <$> l1) i1 i2 (host_port f1)).
      * by apply (Huser u2).
      * by rewrite list_lookup_fmap, Hf1.
      * by rewrite list_lookup_fmap, Hf2, Heq.
    + exfalso. apply (Hcross u1 u2 l1 l2 f1 f2); try done.
      * by eapply list_elem_of_lookup_2.
      * by eapply list_elem_of_lookup_2.
  - apply get_next_available_port_Some.
  - apply get_next_available_port_None.
Qed.

(** A session on a fresh deployment: the main admin creates two instances
    for user 7 and grants three slots; user 7 forwards three ports and
    releases the first. *)
Definition port_session : list request :=
  [ CreateVps 1210291131301101618 2 1 10 7;
    CreateVps 1210291131301101618 4 2 20 7;
    PortsAddUser 1210291131301101618 3 7;
    PortsCommand 7 "add" (Some 1) (Some 22);
    PortsCommand 7 "add" (Some 2) (Some 80);
    PortsCommand 7 "add" (Some 2) (Some 443);
    PortsCommand 7 "remove" (Some 10000) None ].

Example port_session_table :
  let w := run default_config quiet_env fresh_world port_session in
  active_ports (port_data (mem w)) !! "7"
  = Some [ {| container := "RathamCloud-vps-7-2"; internal_port := 80;
              host_port := 10001 |};
           {| container := "RathamCloud-vps-7-2"; internal_port := 443;
              host_port := 10002 |} ]
  ∧ get_next_available_port (port_data (mem w)) = Some 10000.
Proof. vm_compute. done. Qed.

Lemma port_allocation_invariant_witness :
  let pd := port_data (mem (run default_config quiet_env fresh_world
                                port_session)) in
  let ap := active_ports pd in
  (∀ p, mapped ap p → 10000 ≤ p < 20000)
  ∧ (∀ u1 u2 l1 l2 i1 i2 f1 f2,
       ap !! u1 = Some l1 → ap !! u2 = Some l2 →
       l1 !! i1 = Some f1 → l2 !! i2 = Some f2 →
       host_port f1 = host_port f2 → u1 = u2 ∧ i1 = i2)
  ∧ (∀ p, get_next_available_port pd = Some p →
          10000 ≤ p < 20000 ∧ ¬ mapped ap p
          ∧ ∀ q, 10000 ≤ q < p → mapped ap q)
  ∧ (get_next_available_port pd = None
     ↔ ∀ q, 10000 ≤ q < 20000 → mapped ap q).
Proof.
  apply (port_allocation_invariant default_config quiet_env fresh_world
           port_session).
  reflexivity.
Defined.

(** ** Port forwards: allocate (C2) *)

(** The commands that succeeded since the trace had length [n]. *)
Definition succeeded_since (n : nat) (w : World) : list string :=
  omap (λ e, match e with Exec c (Done _) => Some c | _ => None end)
       (drop n (trace w)).

(** C2 (claim as stated, refuted). When the TCP rule is added and the UDP
    rule then fails, the call ends with the TCP forward of port 10000 in
    place at the device level (its add command succeeded and no remove
    command was issued) while the allocation table records nothing. *)
Lemma ports_add_leaves_unrecorded_tcp_rule :
  let env := failing_env
               (λ c, bool_decide
                       (c = udp_add_command "RathamCloud-vps-7-1" 10000 22))
               "Error: address already in use" in
  let w' := (ports_add env "7" 1 22 one_vps_world).2 in
  succeeded_since (length (trace one_vps_world)) w'
  = [tcp_add_command "RathamCloud-vps-7-1" 10000 22]
  ∧ active_ports (port_data (mem w')) = ∅
  ∧ drop (length (trace one_vps_world)) (trace w')
    = [ Send Info "Adding Port Forward";
        Exec (tcp_add_command "RathamCloud-vps-7-1" 10000 22) (Done "ok");
        Exec (udp_add_command "RathamCloud-vps-7-1" 10000 22)
             (Failed "Error: address already in use");
        Send Error "Failed" ].
Proof. vm_compute. done. Qed.

(** C2 (as amended). For every call of the add branch that names one of the
    caller's instances: if the caller already holds as many forwards as
    slots (or more), the only effect is the reply "No Slots" and no command
    is run; otherwise, if the range is exhausted, the only effect is the
    reply "System Error"; otherwise the TCP rule and then the UDP rule are
    issued for the lowest free port, and the mapping is appended to the
    caller's list (and saved) only after both succeeded.  If the TCP rule
    fails nothing else happens; if the UDP rule fails the table is left
    unchanged, the reply is "Failed", and no command is issued to take the
    TCP rule back. *)
Theorem ports_add_spec env user_id arg1 arg2 w v :
  1 ≤ arg1 →
  default [] (vps_data (mem w) !! user_id) !! Z.to_nat (arg1 - 1) = Some v →
  let pd := port_data (mem w) in
  let active := default [] (active_ports pd !! user_id) in
  let slots := default 0 (users pd !! user_id) in
  let w' := (ports_add env user_id arg1 arg2 w).2 in
  let tcp p := tcp_add_command (container_name v) p arg2 in
  let udp p := udp_add_command (container_name v) p arg2 in
  (slots ≤ Z.of_nat (length active) →
     mem w' = mem w ∧ save_log w' = save_log w
     ∧ trace w' = trace w ++ [Send Error "No Slots"])
  ∧ (Z.of_nat (length active) < slots →
     match get_next_available_port pd with
     | None =>
       mem w' = mem w ∧ save_log w' = save_log w
       ∧ trace w' = trace w ++ [Send Error "System Error"]
     | Some p =>
       let t0 := trace w ++ [Send Info "Adding Port Forward"] in
       match rtc env t0 (tcp p) with
       | Failed e =>
         mem w' = mem w ∧ save_log w' = save_log w
         ∧ trace w' = t0 ++ [Exec (tcp p) (Failed e); Send Error "Failed"]
       | Done o =>
         let t1 := t0 ++ [Exec (tcp p) (Done o)] in
         match rtc env t1 (udp p) with
         | Failed e =>
           mem w' = mem w ∧ save_log w' = save_log w
           ∧ trace w' = t1 ++ [Exec (udp p) (Failed e); Send Error "Failed"]
         | Done o' =>
           active_ports (port_data (mem w'))
           = <[user_id := active ++ [ {| container := container_name v;
                                         internal_port := arg2;
                                         host_port := p |} ] ]>
               (active_ports pd)
           ∧ users (port_data (mem w')) = users pd
           ∧ vps_data (mem w') = vps_data (mem w)
           ∧ save_log w' = save_log w ++ [disk_write env (save_log w)]
           ∧ trace w' = t1 ++ [Exec (udp p) (Done o');
                               Send Success "Port Forward Added"]
         end
       end
     end).
Proof.
  intros Harg Hv. cbv zeta.
  assert (Hlen : arg1 ≤ Z.of_nat (length (default [] (vps_data (mem w) !! user_id)))).
  { apply lookup_lt_Some in Hv. lia. }
  unfold ports_add. munfold.
  rewrite (bool_decide_eq_false_2 (arg1 < 1)) by lia.
  rewrite (bool_decide_eq_false_2 (arg1 > _)) by lia.
  cbn [orb]. rewrite Hv. split.
  - intros Hq. rewrite bool_decide_eq_true_2 by lia. munfold. trace_eq.
  - intros Hq. rewrite bool_decide_eq_false_2 by lia.
    destruct (get_next_available_port _) as [p|] eqn:Hp;
      [|munfold; trace_eq].
    apply get_next_available_port_Some in Hp as [[Hp _] _].
    rewrite bool_decide_eq_false_2 by lia. munfold.
    destruct (rtc env _ _) as [o|e]; munfold; [|trace_eq].
    rewrite <- !app_assoc. cbn [app].
    destruct (rtc env _ _) as [o'|e']; munfold; [|trace_eq].
    destruct (active_ports (port_data (mem w)) !! user_id) as [l|] eqn:E;
      munfold; (split_and!; [|trace_eq..]); apply map_eq; intros j;
      rewrite lookup_alter, ?lookup_insert; case_decide; subst;
      rewrite ?E, ?decide_True; done.
Qed.

Lemma ports_add_spec_witness :
  let w := one_vps_world in
  let w' := (ports_add quiet_env "7" 1 22 w).2 in
  active_ports (port_data (mem w'))
  = <[ "7" := [ {| container := "RathamCloud-vps-7-1"; internal_port := 22;
                   host_port := 10000 |} ] ]> ∅
  ∧ trace w' = trace w ++ [ Send Info "Adding Port Forward";
                            Exec (tcp_add_command "RathamCloud-vps-7-1" 10000 22)
                                 (Done "ok");
                            Exec (udp_add_command "RathamCloud-vps-7-1" 10000 22)
                                 (Done "ok");
                            Send Success "Port Forward Added" ].
Proof.
  pose proof (ports_add_spec quiet_env "7" 1 22 one_vps_world
                {| container_name := "RathamCloud-vps-7-1"; ram := "2GB";
                   cpu := "1"; storage := "10GB";
                   config := "2GB RAM / 1 CPU / 10GB Disk";
                   status := Some "running"; suspended := Some false;
                   suspension_history := Some [];
                   created_at := "2024-01-01T00:00:00"; shared_with := Some [] |}
                ltac:(lia) ltac:(vm_compute; reflexivity)) as [_ H].
  cbv zeta in H.
  assert (Hnext : get_next_available_port (port_data (mem one_vps_world))
                  = Some 10000) by (vm_compute; reflexivity).
  rewrite Hnext in H. cbn [rtc quiet_env] in H.
  destruct H as (Hap & _ & _ & _ & Htr); [vm_compute; reflexivity|].
  cbv zeta. split.
  - rewrite Hap. vm_compute. reflexivity.
  - rewrite Htr. rewrite <- !app_assoc. reflexivity.
Defined.

(** ** Port forwards: release (C3) *)

(** User 7 holds the forward of host port 10000. *)
Definition one_forward_world : World :=
  run default_config quiet_env one_vps_world
    [ PortsCommand 7 "add" (Some 1) (Some 22) ].

(** C3 (claim as stated, refuted). When the command that removes the TCP
    rule fails, the call replies "Failed" and the record of host port 10000
    is still in the caller's list: the failed release frees no slot. *)
Lemma ports_remove_keeps_record_when_rule_removal_fails :
  let env := failing_env
               (λ c, bool_decide
                       (c = tcp_remove_command "RathamCloud-vps-7-1" 10000))
               "Error: device not found" in
  let w' := (ports_remove env "7" 10000 one_forward_world).2 in
  active_ports (port_data (mem one_forward_world)) !! "7"
  = Some [ {| container := "RathamCloud-vps-7-1"; internal_port := 22;
              host_port := 10000 |} ]
  ∧ active_ports (port_data (mem w')) !! "7"
    = Some [ {| container := "RathamCloud-vps-7-1"; internal_port := 22;
                host_port := 10000 |} ]
  ∧ drop (length (trace one_forward_world)) (trace w')
    = [ Exec (tcp_remove_command "RathamCloud-vps-7-1" 10000)
             (Failed "Error: device not found");
        Send Error "Failed" ].
Proof. vm_compute. done. Qed.

Lemma list_remove_first_find (l : list port_info) arg1 found :
  find (λ p, bool_decide (host_port p = arg1)) l = Some found →
  ∃ l1 l2, l = l1 ++ found :: l2
           ∧ list_remove_first found l = Some (l1 ++ l2)
           ∧ host_port found = arg1
           ∧ ∀ f, f ∈ l1 → host_port f ≠ arg1.
Proof.
  induction l as [|y l IH]; simpl; [done|].
  case_bool_decide as Hy.
  - intros [= ->]. exists [], l. rewrite decide_True by done.
    split_and!; [done..|]. intros f Hf. by apply elem_of_nil in Hf.
  - intros Hfind. destruct (IH Hfind) as (l1 & l2 & -> & Hrm & Hp & Hl1).
    exists (y :: l1), l2. rewrite decide_False by congruence. rewrite Hrm.
    split_and!; [done..|].
    intros f Hf. apply elem_of_cons in Hf as [->|Hf]; [done|by apply Hl1].
Qed.

(** C3 (as amended). For every call of the remove branch on a host port
    found in the caller's list: the TCP rule and then the UDP rule of the
    first forward with that port are removed, and only after both commands
    succeeded is that forward taken out of the list (and the table saved)
    and "Port Forward Removed" replied.  If either command fails, the list
    is left as it was, nothing is saved and the reply is "Failed". *)
Theorem ports_remove_spec env user_id arg1 w l found :
  active_ports (port_data (mem w)) !! user_id = Some l →
  find (λ p, bool_decide (host_port p = arg1)) l = Some found →
  let w' := (ports_remove env user_id arg1 w).2 in
  let tcp := tcp_remove_command (container found) arg1 in
  let udp := udp_remove_command (container found) arg1 in
  match rtc env (trace w) tcp with
  | Failed e =>
    mem w' = mem w ∧ save_log w' = save_log w
    ∧ trace w' = trace w ++ [Exec tcp (Failed e); Send Error "Failed"]
  | Done o =>
    let t1 := trace w ++ [Exec tcp (Done o)] in
    match rtc env t1 udp with
    | Failed e =>
      mem w' = mem w ∧ save_log w' = save_log w
      ∧ trace w' = t1 ++ [Exec udp (Failed e); Send Error "Failed"]
    | Done o' =>
      ∃ l1 l2,
        l = l1 ++ found :: l2
        ∧ host_port found = arg1
        ∧ (∀ f, f ∈ l1 → host_port f ≠ arg1)
        ∧ active_ports (port_data (mem w'))
          = <[user_id := l1 ++ l2]> (active_ports (port_data (mem w)))
        ∧ users (port_data (mem w')) = users (port_data (mem w))
        ∧ vps_data (mem w') = vps_data (mem w)
        ∧ save_log w' = save_log w ++ [disk_write env (save_log w)]
        ∧ trace w' = t1 ++ [Exec udp (Done o');
                            Send Success "Port Forward Removed"]
    end
  end.
Proof.
  intros Hl Hfind. cbv zeta.
  destruct (list_remove_first_find _ _ _ Hfind) as (l1 & l2 & El & Hrm & Hp & Hl1).
  unfold ports_remove. munfold. rewrite Hl. cbn [default from_option id].
  rewrite Hfind.
  munfold.
  destruct (rtc env _ _) as [o|e]; munfold; [|trace_eq].
  destruct (rtc env _ _) as [o'|e']; munfold; [|trace_eq].
  rewrite Hl. cbn [mbind option_bind]. rewrite Hrm. munfold.
  exists l1, l2. split_and!; [done..| |]; trace_eq.
Qed.

Lemma ports_remove_spec_witness :
  let w := one_forward_world in
  let w' := (ports_remove quiet_env "7" 10000 w).2 in
  ∃ l1 l2,
    [ {| container := "RathamCloud-vps-7-1"; internal_port := 22;
         host_port := 10000 |} ]
    = l1 ++ {| container := "RathamCloud-vps-7-1"; internal_port := 22;
               host_port := 10000 |} :: l2
    ∧ active_ports (port_data (mem w'))
      = <["7" := l1 ++ l2]> (active_ports (port_data (mem w)))
    ∧ trace w'
      = trace w ++ [ Exec (tcp_remove_command "RathamCloud-vps-7-1" 10000)
                          (Done "ok");
                     Exec (udp_remove_command "RathamCloud-vps-7-1" 10000)
                          (Done "ok");
                     Send Success "Port Forward Removed" ].
Proof.
  pose proof (ports_remove_spec quiet_env "7" 10000 one_forward_world
                [ {| container := "RathamCloud-vps-7-1"; internal_port := 22;
                     host_port := 10000 |} ]
                {| container := "RathamCloud-vps-7-1"; internal_port := 22;
                   host_port := 10000 |}
                ltac:(vm_compute; reflexivity) ltac:(vm_compute; reflexivity))
    as H.
  cbv zeta in H. cbn [rtc quiet_env] in H.
  destruct H as (l1 & l2 & El & _ & _ & Hap & _ & _ & _ & Htr).
  cbv zeta. exists l1, l2. split_and!; [done..|].
  rewrite Htr, <- app_assoc. reflexivity.
Defined.

(** ** Create (C6) *)

Ltac create_failed E :=
  split_and!;
    [ intros u Hu; by rewrite ?lookup_insert_ne
    | left; rewrite ?lookup_insert_eq;
      try match goal with H : vps_data _ !! _ = _ |- _ => rewrite H end;
      split_and!; [done..|by rewrite last_snoc]
    | intros Hall;
      match type of E with
      | rtc _ ?h ?c = _ => destruct (Hall h c) as [? Ho]; rewrite Ho in E
      end; done ].

(** C6. For every call of create.  If ram, cpu or disk is not positive the
    only effect is the reply "Invalid Specs": nothing is run, recorded or
    saved.  If all three are positive, the call either records nothing for
    the owner (and ends with the reply "Creation Failed"), or appends
    exactly one record to the owner's list, and then the five commands
    init, memory limit, cpu limit, disk size and start were run in this
    order and all succeeded before the record was appended and saved; the
    appended record has status "running", suspended false, an empty
    suspension history and the config string
    "{ram}GB RAM / {cpu} CPU / {disk}GB Disk".  The lists of the other
    owners are untouched, and when no command fails the record is
    appended. *)
Theorem create_vps_spec cfg env ram cpu disk user w :
  let user_id := pretty user in
  let old := default [] (vps_data (mem w) !! user_id) in
  let w' := (create_vps cfg env ram cpu disk user w).2 in
  let new := default [] (vps_data (mem w') !! user_id) in
  let id := derived_container_name user_id old in
  (ram ≤ 0 ∨ cpu ≤ 0 ∨ disk ≤ 0 →
     mem w' = mem w ∧ save_log w' = save_log w
     ∧ trace w' = trace w ++ [Send Error "Invalid Specs"])
  ∧ (0 < ram ∧ 0 < cpu ∧ 0 < disk →
     (∀ u, u ≠ user_id → vps_data (mem w') !! u = vps_data (mem w) !! u)
     ∧ ((new = old ∧ save_log w' = save_log w
         ∧ list.last (trace w') = Some (Send Error "Creation Failed"))
        ∨ ∃ t o1 o2 o3 o4 o5,
            new = old ++ [new_vps_info id ram cpu disk t]
            ∧ save_log w' = save_log w ++ [disk_write env (save_log w)]
            ∧ trace w'
              = trace w
                ++ [ Send Info "Creating RathamCloud VPS";
                     Exec ("RTC init ubuntu:22.04 " +:+ id +:+ " --storage "
                           +:+ DEFAULT_STORAGE_POOL cfg) (Done o1);
                     Exec ("RTC config set " +:+ id +:+ " limits.memory "
                           +:+ pretty (ram * 1024) +:+ "MB") (Done o2);
                     Exec ("RTC config set " +:+ id +:+ " limits.cpu "
                           +:+ pretty cpu) (Done o3);
                     Exec ("RTC config device set " +:+ id +:+ " root size "
                           +:+ pretty disk +:+ "GB") (Done o4);
                     Exec ("RTC start " +:+ id) (Done o5);
                     Clock;
                     Send Success "RathamCloud VPS Created Successfully";
                     Dm user_id ])
     ∧ ((∀ h c, ∃ o, rtc env h c = Done o) →
        ∃ t, new = old ++ [new_vps_info id ram cpu disk t]))
  ∧ (∀ t, let r := new_vps_info id ram cpu disk t in
          container_name r = id
          ∧ status r = Some "running" ∧ suspended r = Some false
          ∧ suspension_history r = Some []
          ∧ config r = pretty ram +:+ "GB RAM / " +:+ pretty cpu +:+ " CPU / "
                       +:+ pretty disk +:+ "GB Disk").
Proof.
  cbv zeta. split_and!; [| |done].
  - intros Hbad. unfold create_vps.
    assert (bool_decide (ram ≤ 0) || bool_decide (cpu ≤ 0)
            || bool_decide (disk ≤ 0) = true) as ->.
    { destruct Hbad as [?|[?|?]];
        repeat (case_bool_decide; simpl; try done); lia. }
    munfold. trace_eq.
  - intros (Hram & Hcpu & Hdisk). unfold create_vps.
    rewrite !bool_decide_eq_false_2 by lia. cbn [orb].
    set (uid := pretty user). munfold.
    destruct (vps_data (mem w) !! uid) as [l|] eqn:E; munfold;
      rewrite ?lookup_insert_eq, ?E; cbn [default from_option id];
      (destruct (rtc env (trace w ++ [_]) _) as [o1|e1] eqn:E1; munfold;
         [|create_failed E1]);
      (destruct (rtc env ((trace w ++ [_]) ++ [_]) _) as [o2|e2] eqn:E2;
         munfold; [|create_failed E2]);
      (destruct (rtc env (((trace w ++ [_]) ++ [_]) ++ [_]) _)
         as [o3|e3] eqn:E3; munfold; [|create_failed E3]);
      (destruct (rtc env ((((trace w ++ [_]) ++ [_]) ++ [_]) ++ [_]) _)
         as [o4|e4] eqn:E4; munfold; [|create_failed E4]);
      (destruct (rtc env (((((trace w ++ [_]) ++ [_]) ++ [_]) ++ [_]) ++ [_]) _)
         as [o5|e5] eqn:E5; munfold; [|create_failed E5]);
      (split_and!;
         [ intros u Hu; by rewrite lookup_alter_ne, ?lookup_insert_ne
         | right; eexists _, o1, o2, o3, o4, o5;
           rewrite lookup_alter_eq, ?lookup_insert_eq, ?E;
           split_and!; [done..|]; trace_eq
         | intros _; eexists;
           by rewrite lookup_alter_eq, ?lookup_insert_eq, ?E ]).
Qed.

Example create_vps_example :
  vps_data (mem (step default_config quiet_env fresh_world
                      (CreateVps 1210291131301101618 2 1 10 7))) !! "7"
  = Some [ {| container_name := "RathamCloud-vps-7-1"; ram := "2GB";
              cpu := "1"; storage := "10GB";
              config := "2GB RAM / 1 CPU / 10GB Disk";
              status := Some "running"; suspended := Some false;
              suspension_history := Some [];
              created_at := "2024-01-01T00:00:00"; shared_with := Some [] |} ].
Proof. vm_compute. reflexivity. Qed.

(** ** Instance ids (C7) *)

(** All instance ids present in the store. *)
Definition instance_ids (g : Globals) : list string :=
  (map_to_list (vps_data g)).*2 ≫= fmap container_name.

(** The main admin creates two instances for user 7, then deletes the first. *)
Definition two_created_one_deleted : World :=
  run default_config quiet_env fresh_world
    [ CreateVps 1210291131301101618 2 1 10 7;
      CreateVps 1210291131301101618 4 2 20 7;
      DeleteVps 1210291131301101618 7 1 ].

(** C7. After two creates and the delete of the owner's first instance, the
    surviving instance is "RathamCloud-vps-7-2" and the id that the next
    create derives for the same owner is "RathamCloud-vps-7-2" again; when
    the tool accepts the commands, the store ends up with two records under
    that one id. *)
Theorem create_after_delete_reuses_id :
  let w := two_created_one_deleted in
  instance_ids (mem w) = ["RathamCloud-vps-7-2"]
  ∧ derived_container_name "7" (default [] (vps_data (mem w) !! "7"))
    = "RathamCloud-vps-7-2"
  ∧ instance_ids
      (mem (step default_config quiet_env w
                 (CreateVps 1210291131301101618 1 1 5 7)))
    = ["RathamCloud-vps-7-2"; "RathamCloud-vps-7-2"].
Proof. vm_compute. done. Qed.

(** ** Instance guardian (C5) *)

(** The record object at index [i] of [vps_data[user_id]]. *)
Definition vps_at (w : World) (user_id : string) (i : nat) : option vps :=
  vps_data (mem w) !! user_id ≫= (.!! i).

(** What a tick may do to one record: nothing, or one automatic suspension
    of a record that was running and not suspended. *)
Definition evolved (v v' : vps) : Prop :=
  v' = v
  ∨ (monitored v = true
     ∧ ∃ entry, by_ entry = "RathamCloud Auto-System"
                ∧ v' = auto_suspend entry v).

(** Event [e] samples or stops container [c]. *)
Definition probes (c : string) (e : event) : Prop :=
  e = SampleCpu c ∨ e = SampleRam c ∨ ∃ r, e = Exec ("RTC stop " +:+ c) r.

(** What a tick does to the world. *)
Definition tick_rel : relation World :=
  λ w w',
    (∀ user_id i,
       match vps_at w user_id i, vps_at w' user_id i with
       | Some v, Some v' => evolved v v'
       | None, None => True
       | _, _ => False
       end)
    ∧ ∃ evs, trace w' = trace w ++ evs
             ∧ ∀ e, e ∈ evs →
                    e = Clock ∨ (∃ u, e = Dm u)
                    ∨ ∃ user_id i v, vps_at w user_id i = Some v
                                     ∧ monitored v = true
                                     ∧ probes (container_name v) e.

Lemma monitored_auto_suspend entry v : monitored (auto_suspend entry v) = false.
Proof. reflexivity. Qed.

Lemma evolved_trans v1 v2 v3 : evolved v1 v2 → evolved v2 v3 → evolved v1 v3.
Proof.
  intros [->|(Hm & e & He & ->)] H23; [done|].
  destruct H23 as [->|(Hm' & _)].
  - right. eauto.
  - by rewrite monitored_auto_suspend in Hm'.
Qed.

Lemma evolved_monitored v v' : evolved v v' → monitored v' = true → v' = v.
Proof.
  intros [->|(_ & e & _ & ->)] Hm; [done|].
  by rewrite monitored_auto_suspend in Hm.
Qed.

#[global] Instance tick_rel_preorder : PreOrder tick_rel.
Proof.
  split.
  - intros w. split.
    + intros u i. destruct (vps_at w u i); [by left|done].
    + exists []. split; [by rewrite app_nil_r|].
      intros e He. by apply elem_of_nil in He.
  - intros w1 w2 w3 [Hp12 (evs12 & Ht12 & He12)] [Hp23 (evs23 & Ht23 & He23)].
    split.
    + intros u i. specialize (Hp12 u i). specialize (Hp23 u i).
      destruct (vps_at w1 u i), (vps_at w2 u i), (vps_at w3 u i); try done.
      by eapply evolved_trans.
    + exists (evs12 ++ evs23). split; [by rewrite Ht23, Ht12, app_assoc|].
      intros e He. apply elem_of_app in He as [He|He]; [by apply He12|].
      destruct (He23 e He) as [?|[?|(u & i & v2 & Hv2 & Hm2 & Hpr)]];
        [by left|by right; left|].
      right; right. specialize (Hp12 u i). rewrite Hv2 in Hp12.
      destruct (vps_at w1 u i) as [v1|] eqn:Hv1; [|done].
      apply evolved_monitored in Hp12; [|done]. subst v2.
      by exists u, i, v1.
Qed.

Lemma vps_at_alter (m : gmap string (list vps)) (f : vps → vps)
  user_id i user_id' i' :
  alter (alter f i) user_id m !! user_id' ≫= (.!! i')
  = if decide (user_id = user_id' ∧ i = i')
    then f <$> (m !! user_id' ≫= (.!! i'))
    else m !! user_id' ≫= (.!! i').
Proof.
  rewrite lookup_alter. destruct (decide (user_id = user_id')) as [->|Hu].
  - destruct (m !! user_id') as [l|]; simpl.
    + rewrite list_lookup_alter.
      destruct (decide (i = i')) as [->|Hi].
      * rewrite decide_True by done. done.
      * rewrite decide_False by tauto. done.
    + by destruct (decide _).
  - rewrite decide_False by tauto. done.
Qed.

(** The loop body on one record, case by case. *)
Lemma monitor_vps_spec cfg env user_id i w v :
  vps_at w user_id i = Some v →
  let w1 := (monitor_vps cfg env user_id i w).2 in
  let c := container_name v in
  if monitored v then
    let cpu := container_cpu env (trace w) c in
    let ram := container_ram env (trace w ++ [SampleCpu c]) c in
    let t0 := trace w ++ [SampleCpu c; SampleRam c] in
    if exceeds cpu (CPU_THRESHOLD cfg) || exceeds ram (RAM_THRESHOLD cfg) then
      match rtc env t0 ("RTC stop " +:+ c) with
      | Done o =>
        let t1 := t0 ++ [Exec ("RTC stop " +:+ c) (Done o)] in
        let entry := {| time := now env t1;
                        reason := suspend_reason cfg env cpu ram;
                        by_ := "RathamCloud Auto-System" |} in
        vps_at w1 user_id i = Some (auto_suspend entry v)
        ∧ (∀ u j, ¬ (user_id = u ∧ i = j) → vps_at w1 u j = vps_at w u j)
        ∧ admin_data (mem w1) = admin_data (mem w)
        ∧ port_data (mem w1) = port_data (mem w)
        ∧ save_log w1 = save_log w ++ [disk_write env (save_log w)]
        ∧ (disk_write env (save_log w) = Saved →
           vps_file (disk w1) = Json (vps_data (mem w1)))
        ∧ trace w1 = t1 ++ [Clock; Dm user_id]
      | Failed e =>
        mem w1 = mem w ∧ save_log w1 = save_log w ∧ disk w1 = disk w
        ∧ trace w1 = t0 ++ [Exec ("RTC stop " +:+ c) (Failed e)]
      end
    else mem w1 = mem w ∧ save_log w1 = save_log w ∧ disk w1 = disk w
         ∧ trace w1 = t0
  else w1 = w.
Proof.
  intros Hv. cbv zeta. unfold monitor_vps. munfold.
  unfold vps_at in Hv. rewrite Hv.
  destruct (monitored v); [|done]. munfold.
  rewrite <- ?app_assoc. cbn [app].
  destruct (exceeds _ _ || exceeds _ _); [|by munfold].
  munfold. rewrite <- ?app_assoc. cbn [app].
  destruct (rtc env _ _) as [o|e]; munfold; [|trace_eq].
  rewrite <- ?app_assoc. cbn [app]. unfold vps_at. cbn [mem vps_data].
  split_and!; try done.
  - rewrite vps_at_alter, decide_True by done. by rewrite Hv.
  - intros u j Hne. by rewrite vps_at_alter, decide_False.
  - by intros ->.
Qed.

Lemma monitor_vps_tick_rel cfg env user_id i :
  relates tick_rel (monitor_vps cfg env user_id i).
Proof.
  intros w. destruct (vps_at w user_id i) as [v|] eqn:Hv.
  2:{ unfold monitor_vps. munfold. unfold vps_at in Hv. rewrite Hv.
      reflexivity. }
  pose proof (monitor_vps_spec cfg env user_id i w v Hv) as H. cbv zeta in H.
  set (w1 := (monitor_vps cfg env user_id i w).2) in *.
  destruct (monitored v) eqn:Hm; [|rewrite H; reflexivity].
  assert (Hsame : mem w1 = mem w → ∀ u j,
    match vps_at w u j, vps_at w1 u j with
    | Some v0, Some v' => evolved v0 v'
    | None, None => True
    | _, _ => False
    end).
  { intros E u j. unfold vps_at. rewrite E.
    destruct (_ ≫= _); [by left|done]. }
  assert (Hev : ∀ e, e = Clock ∨ (∃ u, e = Dm u)
                     ∨ probes (container_name v) e →
    e = Clock ∨ (∃ u, e = Dm u)
    ∨ ∃ u j v0, vps_at w u j = Some v0 ∧ monitored v0 = true
                ∧ probes (container_name v0) e).
  { intros e [?|[?|?]]; [by left|by right; left|].
    right; right. by exists user_id, i, v. }
  destruct (exceeds _ _ || exceeds _ _).
  - destruct (rtc env _ _) as [o|e].
    + destruct H as (Hat & Hother & _ & _ & _ & _ & Htr). split.
      * intros u j. destruct (decide (user_id = u ∧ i = j)) as [[<- <-]|Hne].
        -- rewrite Hv, Hat. right. split; [done|].
           eexists. split; [|reflexivity]. reflexivity.
        -- rewrite (Hother u j Hne). destruct (vps_at w u j); [by left|done].
      * eexists. split; [rewrite Htr, <- !app_assoc; reflexivity|].
        intros e He. apply Hev. cbn [app] in He. unfold probes.
        repeat (apply elem_of_cons in He as [->|He]); eauto 6.
        by apply elem_of_nil in He.
    + destruct H as (Hmem & _ & _ & Htr). split; [by apply Hsame|].
      eexists. split; [rewrite Htr, <- !app_assoc; reflexivity|].
      intros e' He. apply Hev. cbn [app] in He. unfold probes.
      repeat (apply elem_of_cons in He as [->|He]); eauto 6.
      by apply elem_of_nil in He.
  - destruct H as (Hmem & _ & _ & Htr). split; [by apply Hsame|].
    eexists. split; [exact Htr|].
    intros e He. apply Hev. unfold probes.
    repeat (apply elem_of_cons in He as [->|He]); eauto 6.
    by apply elem_of_nil in He.
Qed.

Lemma vps_monitor_tick_rel cfg env : relates tick_rel (vps_monitor cfg env).
Proof.
  unfold vps_monitor.
  relates_with ltac:(apply monitor_vps_tick_rel).
Qed.

(** The scenario of the specification: instance [web-1] of user 7 is
    running; inside it CPU is at 92% and RAM at 40%; thresholds are 90/90. *)
Definition web1 : vps :=
  {| container_name := "web-1"; ram := "4GB"; cpu := "2"; storage := "20GB";
     config := "4GB RAM / 2 CPU / 20GB Disk"; status := Some "running";
     suspended := Some false; suspension_history := Some [];
     created_at := "2024-01-01T00:00:00"; shared_with := Some [] |}.

Definition web_world : World :=
  {| mem := {| vps_data := {[ "7" := [web1] ]};
               admin_data := admin_data (mem fresh_world);
               port_data := port_data (mem fresh_world);
               cpu_monitor_active := true |};
     disk := fresh_disk; trace := []; save_log := [];
     cpu_monitor_task := TaskRunning |}.

(** [f"{x:.1f}"] on whole numbers. *)
Definition fmt1_whole (x : Qc) : string :=
  pretty (Qnum x `div` Z.pos (Qden x)) +:+ ".0".

Definition hot_env (stop : exec_result) : Env :=
  {| rtc := λ _ _, stop;
     host_cpu := λ _, Q2Qc 0;
     container_cpu := λ _ _, Q2Qc 92;
     container_ram := λ _ _, Q2Qc 40;
     now := λ _, "2024-01-01T00:10:00";
     disk_write := λ _, Saved;
     fmt1 := fmt1_whole |}.

Example vps_monitor_scenario :
  let w' := step default_config (hot_env (Done "ok")) web_world VpsMonitorWake in
  vps_at w' "7" 0
  = Some {| container_name := "web-1"; ram := "4GB"; cpu := "2";
            storage := "20GB"; config := "4GB RAM / 2 CPU / 20GB Disk";
            status := Some "suspended"; suspended := Some true;
            suspension_history :=
              Some [ {| time := "2024-01-01T00:10:00";
                        reason := "High resource usage: CPU 92.0%, RAM 40.0% (threshold: 90% CPU / 90% RAM)";
                        by_ := "RathamCloud Auto-System" |} ];
            created_at := "2024-01-01T00:00:00"; shared_with := Some [] |}
  ∧ trace w' = [ SampleCpu "web-1"; SampleRam "web-1";
                 Exec "RTC stop web-1" (Done "ok"); Clock; Dm "7" ]
  ∧ vps_file (disk w') = Json (vps_data (mem w')).
Proof. vm_compute. done. Qed.

(** C5 (claim as stated, refuted). [web-1] is sampled above the CPU
    threshold, but the stop command fails: the guardian leaves the record
    as it was (status "running", not suspended, no history entry) and
    saves nothing. *)
Lemma breach_without_suspension_when_stop_fails :
  let env := hot_env (Failed "Error: timed out") in
  let w' := step default_config env web_world VpsMonitorWake in
  exceeds (container_cpu env [] "web-1") (CPU_THRESHOLD default_config) = true
  ∧ vps_at w' "7" 0 = Some web1
  ∧ trace w' = [ SampleCpu "web-1"; SampleRam "web-1";
                 Exec "RTC stop web-1" (Failed "Error: timed out") ]
  ∧ save_log w' = [].
Proof. vm_compute. done. Qed.

(** C5 (as amended). On every Instance Guardian tick: every record stays
    at its place and is either unchanged or was running and not suspended
    and has received exactly one automatic suspension (status "suspended",
    suspended true, one more history entry whose actor is
    "RathamCloud Auto-System"); so a record that is not running, or is
    already suspended, is never changed and a record gets at most one entry
    per tick.  Every sample and every stop command of the tick concerns the
    container of a record that was running and not suspended.  For a
    sampled record: if neither percentage exceeds its threshold nothing is
    changed; if one does, the stop command is issued, and if it succeeds
    the record is suspended with an entry holding the current time, the
    reason string built from both samples and both thresholds and that
    actor, [save_data] is called (after which, unless the write fails, the
    file holds the store) and the owner is notified; if the stop command
    fails the record is left unchanged and nothing is saved. *)
Theorem vps_monitor_spec cfg env w :
  let w' := step cfg env w VpsMonitorWake in
  tick_rel w w'
  ∧ (∀ user_id i v v',
       vps_at w user_id i = Some v → vps_at w' user_id i = Some v' →
       (monitored v = false → v' = v)
       ∧ (v' ≠ v →
          status v = Some "running" ∧ default false (suspended v) = false
          ∧ status v' = Some "suspended" ∧ suspended v' = Some true
          ∧ ∃ entry, by_ entry = "RathamCloud Auto-System"
                     ∧ suspension_history v'
                       = Some (default [] (suspension_history v) ++ [entry])))
  ∧ (∀ user_id i v,
       vps_at w user_id i = Some v →
       let w1 := (monitor_vps cfg env user_id i w).2 in
       let c := container_name v in
       if monitored v then
         let cpu := container_cpu env (trace w) c in
         let ram := container_ram env (trace w ++ [SampleCpu c]) c in
         let t0 := trace w ++ [SampleCpu c; SampleRam c] in
         if exceeds cpu (CPU_THRESHOLD cfg) || exceeds ram (RAM_THRESHOLD cfg)
         then
           match rtc env t0 ("RTC stop " +:+ c) with
           | Done o =>
             let t1 := t0 ++ [Exec ("RTC stop " +:+ c) (Done o)] in
             let entry := {| time := now env t1;
                             reason := suspend_reason cfg env cpu ram;
                             by_ := "RathamCloud Auto-System" |} in
             vps_at w1 user_id i = Some (auto_suspend entry v)
             ∧ (∀ u j, ¬ (user_id = u ∧ i = j) → vps_at w1 u j = vps_at w u j)
             ∧ admin_data (mem w1) = admin_data (mem w)
             ∧ port_data (mem w1) = port_data (mem w)
             ∧ save_log w1 = save_log w ++ [disk_write env (save_log w)]
             ∧ (disk_write env (save_log w) = Saved →
                vps_file (disk w1) = Json (vps_data (mem w1)))
             ∧ trace w1 = t1 ++ [Clock; Dm user_id]
           | Failed e =>
             mem w1 = mem w ∧ save_log w1 = save_log w ∧ disk w1 = disk w
             ∧ trace w1 = t0 ++ [Exec ("RTC stop " +:+ c) (Failed e)]
           end
         else mem w1 = mem w ∧ save_log w1 = save_log w ∧ disk w1 = disk w
              ∧ trace w1 = t0
       else w1 = w).
Proof.
  cbv zeta.
  assert (Htick : tick_rel w (step cfg env w VpsMonitorWake))
    by apply vps_monitor_tick_rel.
  split_and!; [exact Htick| |].
  - intros user_id i v v' Hv Hv'. destruct Htick as [Hrec _].
    specialize (Hrec user_id i). rewrite Hv, Hv' in Hrec.
    destruct Hrec as [->|(Hm & entry & Hby & ->)].
    + split; [done|]. intros Hne. by destruct Hne.
    + split; [intros Hf; by rewrite Hm in Hf|]. intros _.
      unfold monitored in Hm. apply andb_true_iff in Hm as [Hs Hn].
      apply bool_decide_eq_true in Hs. apply negb_true_iff in Hn.
      split_and!; [done..|]. by exists entry.
  - intros user_id i v Hv. apply (monitor_vps_spec cfg env user_id i w v Hv).
Qed.

(** ** Persistence failures (C1) *)

(** The same outside world, except for what happens to the file writes. *)
Definition with_disk_write (env : Env)
  (dw : list save_outcome → save_outcome) : Env :=
  {| rtc := rtc env; host_cpu := host_cpu env;
     container_cpu := container_cpu env; container_ram := container_ram env;
     now := now env; disk_write := dw; fmt1 := fmt1 env |}.

(** Two worlds that differ at most in the files and the history of writes. *)
Definition same_visible : relation World :=
  λ w1 w2, mem w1 = mem w2 ∧ trace w1 = trace w2
           ∧ cpu_monitor_task w1 = cpu_monitor_task w2.

(** Two computations that cannot be told apart by their result, the
    globals or the trace. *)
Definition sim {A} (m1 m2 : M A) : Prop :=
  ∀ w1 w2, same_visible w1 w2 →
           (m1 w1).1 = (m2 w2).1 ∧ same_visible (m1 w1).2 (m2 w2).2.

Section Sim.

Lemma sim_ret {A} (a : A) : sim (ret a) (ret a).
Proof. by intros w1 w2 H. Qed.

Lemma sim_raise {A} (e : string) : sim (@raise A e) (raise e).
Proof. by intros w1 w2 H. Qed.

Lemma sim_get : sim get get.
Proof. intros w1 w2 H. split; [|done]. simpl. f_equal. apply H. Qed.

Lemma sim_history : sim history history.
Proof. intros w1 w2 H. split; [|done]. simpl. f_equal. apply H. Qed.

Lemma sim_put g : sim (put g) (put g).
Proof. intros w1 w2 (Hm & Ht & Hk). repeat split; done. Qed.

Lemma sim_emit e : sim (emit e) (emit e).
Proof.
  intros w1 w2 (Hm & Ht & Hk). repeat split; simpl; [done| |done].
  by rewrite Ht.
Qed.

Lemma sim_save_data env1 env2 : sim (save_data env1) (save_data env2).
Proof. intros w1 w2 (Hm & Ht & Hk). repeat split; done. Qed.

Lemma sim_bind {A B} (m1 m2 : M A) (k1 k2 : A → M B) :
  sim m1 m2 → (∀ a, sim (k1 a) (k2 a)) → sim (bind m1 k1) (bind m2 k2).
Proof.
  intros Hm Hk w1 w2 Hw. unfold bind. destruct (Hm w1 w2 Hw) as [Hr Hw'].
  destruct (m1 w1) as [[a1|e1] w1'], (m2 w2) as [[a2|e2] w2'];
    simpl in *; simplify_eq; [by apply Hk|done].
Qed.

Lemma sim_try {A} (m1 m2 : M A) (h1 h2 : string → M A) :
  sim m1 m2 → (∀ e, sim (h1 e) (h2 e)) →
  sim (try_except m1 h1) (try_except m2 h2).
Proof.
  intros Hm Hh w1 w2 Hw. unfold try_except.
  destruct (Hm w1 w2 Hw) as [Hr Hw'].
  destruct (m1 w1) as [[a1|e1] w1'], (m2 w2) as [[a2|e2] w2'];
    simpl in *; simplify_eq; [done|by apply Hh].
Qed.

Lemma sim_for_each {A} (l : list A) (b1 b2 : A → M unit) :
  (∀ x, sim (b1 x) (b2 x)) → sim (for_each l b1) (for_each l b2).
Proof.
  intros Hb. induction l as [|x l IH]; simpl; [apply sim_ret|].
  apply sim_bind; [apply Hb|intros _; exact IH].
Qed.

Lemma sim_checked (check : Globals → bool) (b1 b2 : M unit) :
  sim b1 b2 → sim (checked check b1) (checked check b2).
Proof.
  intros Hb. unfold checked. apply sim_bind; [apply sim_get|].
  intros g. destruct (check g); [exact Hb|apply sim_emit].
Qed.

End Sim.

Ltac sim_go :=
  repeat lazymatch goal with
    | |- sim (ret _) (ret _) => apply sim_ret
    | |- sim (raise _) (raise _) => apply sim_raise
    | |- sim get get => apply sim_get
    | |- sim history history => apply sim_history
    | |- sim (put _) (put _) => apply sim_put
    | |- sim (emit _) (emit _) => apply sim_emit
    | |- sim (save_data _) (save_data _) => apply sim_save_data
    | |- sim (bind _ _) (bind _ _) => apply sim_bind; [|intros ?]
    | |- sim (try_except _ _) (try_except _ _) => apply sim_try; [|intros ?]
    | |- sim (for_each _ _) (for_each _ _) => apply sim_for_each; intros ?
    | |- sim (checked _ _) (checked _ _) => apply sim_checked
    | |- sim (if ?b then _ else _) (if ?b then _ else _) => destruct b
    | |- sim (match ?x with _ => _ end) (match ?x with _ => _ end) =>
        destruct x
    | |- sim (let _ := _ in _) _ => cbv zeta
    end.

Ltac sim_unfold :=
  unfold_handlers;
  unfold suspend_reason, set_vps_data, set_admin_data, set_users,
    set_active_ports, set_port_data, set_cpu_monitor_active;
  cbn [rtc host_cpu container_cpu container_ram now fmt1 with_disk_write].

Lemma cpu_monitor_sim cfg env dw :
  sim (cpu_monitor cfg env) (cpu_monitor cfg (with_disk_write env dw)).
Proof.
  intros w1 w2 Hw. pose proof Hw as (Hm & Ht & Hk).
  unfold cpu_monitor. rewrite Hk, Hm.
  destruct (cpu_monitor_task w2); [|done].
  destruct (cpu_monitor_active (mem w2)); [|by repeat split].
  revert w1 w2 Hw Hm Ht Hk.
  assert (Hb : sim (cpu_monitor_body cfg env)
                   (cpu_monitor_body cfg (with_disk_write env dw))).
  { sim_unfold. sim_go. }
  intros w1 w2 Hw _ _ _. by apply Hb.
Qed.

Lemma handle_sim cfg env dw r :
  sim (handle cfg env r) (handle cfg (with_disk_write env dw) r).
Proof.
  destruct r; cbn [handle]; try apply cpu_monitor_sim; sim_unfold; sim_go.
Qed.

(** C1 (claim as stated, refuted). Every write of [save_data] fails while
    the main admin adds user 42 as admin: nothing reaches the disk, the
    in-memory list has the new admin, and the caller is told
    "Admin Added". *)
Lemma admin_add_reports_success_when_save_fails :
  let env := with_disk_write quiet_env (λ _, FailVps) in
  let w' := step default_config env fresh_world
              (AdminAdd 1210291131301101618 42) in
  save_log w' = [FailVps]
  ∧ disk w' = fresh_disk
  ∧ admins (admin_data (mem w')) = Some ["1210291131301101618"; "42"]
  ∧ trace w' = [Send Success "Admin Added"; Dm "42"].
Proof. vm_compute. done. Qed.

(** C1 (as amended). A failure of the save step is not fatal and is not
    surfaced: [save_data] catches whatever a write raises and returns
    normally, leaving the globals as they are (no rollback) and the files
    of the dumps that were not reached as they were.  Consequently, for
    every request (lifecycle, admin, port mutation, guardian wake-up), the
    result of the handler, the globals afterwards and everything sent to
    the caller or run on the tool are the same whatever happens to the
    writes: an operation reports success after a failed save exactly as
    after a successful one. *)
Theorem save_failure_is_swallowed cfg env dw w r :
  let env' := with_disk_write env dw in
  (handle cfg env r w).1 = (handle cfg env' r w).1
  ∧ mem (step cfg env w r) = mem (step cfg env' w r)
  ∧ trace (step cfg env w r) = trace (step cfg env' w r)
  ∧ cpu_monitor_task (step cfg env w r) = cpu_monitor_task (step cfg env' w r)
  ∧ (save_data env w).1 = Ret tt
  ∧ mem (save_data env w).2 = mem w
  ∧ trace (save_data env w).2 = trace w
  ∧ save_log (save_data env w).2 = save_log w ++ [disk_write env (save_log w)]
  ∧ disk (save_data env w).2
    = match disk_write env (save_log w) with
      | Saved => {| vps_file := Json (vps_data (mem w));
                    admin_file := Json (admin_data (mem w));
                    port_file := Json (port_data (mem w)) |}
      | FailVps => disk w
      | FailAdmin => {| vps_file := Json (vps_data (mem w));
                        admin_file := admin_file (disk w);
                        port_file := port_file (disk w) |}
      | FailPort => {| vps_file := Json (vps_data (mem w));
                       admin_file := Json (admin_data (mem w));
                       port_file := port_file (disk w) |}
      end.
Proof.
  cbv zeta.
  destruct (handle_sim cfg env dw r w w) as (Hr & Hm & Ht & Hk); [done|].
  split_and!; done.
Qed.

(** * Further operations *)

(** ** The text helper *)

(** A Python [str] is the sequence of its code points: [len] counts them
    and a slice cuts between them.  A text is the list of its code points;
    ["..."] is three times code point 46. *)
Definition dots : list N := [46; 46; 46]%N.

(** [text[:stop]] *)
Definition slice_to (stop : Z) (text : list N) : list N :=
  let n := Z.of_nat (length text) in
  let stop := if bool_decide (stop < 0) then Z.max 0 (n + stop)
              else Z.min stop n in
  take (Z.to_nat stop) text.

(** [truncate_text(text, max_length)] *)
Definition truncate_text (text : list N) (max_length : Z) : list N :=
  if bool_decide (text = []) then text
  else if bool_decide (Z.of_nat (length text) ≤ max_length) then text
  else slice_to (max_length - 3) text ++ dots.

(** ** Assignments to one key of a record *)

Definition set_status (s : string) (v : vps) : vps :=
  {| container_name := container_name v; ram := ram v; cpu := cpu v;
     storage := storage v; config := config v; status := Some s;
     suspended := suspended v; suspension_history := suspension_history v;
     created_at := created_at v; shared_with := shared_with v |}.

Definition set_suspended (b : bool) (v : vps) : vps :=
  {| container_name := container_name v; ram := ram v; cpu := cpu v;
     storage := storage v; config := config v; status := status v;
     suspended := Some b; suspension_history := suspension_history v;
     created_at := created_at v; shared_with := shared_with v |}.

(** [vps["shared_with"] = l] *)
Definition set_shared_with (l : list string) (v : vps) : vps :=
  {| container_name := container_name v; ram := ram v; cpu := cpu v;
     storage := storage v; config := config v; status := status v;
     suspended := suspended v; suspension_history := suspension_history v;
     created_at := created_at v; shared_with := Some l |}.

(** [vps['status'] = 'running'; vps['suspended'] = False] *)
Definition mark_running (v : vps) : vps :=
  set_suspended false (set_status "running" v).

(** ** Search of the store by container name *)

(** The first record of [lst] named [name], with its index: where
    [for vps in lst: if vps['container_name'] == name: ...] enters its body
    when every path of the body leaves the loop. *)
Definition first_named (name : string) (lst : list vps) : option (nat * vps) :=
  list_find (λ v, container_name v = name) lst.

(** How the body of the search ends: the inner loop is left with [found]
    still false ([Next]), with [found] set ([Found]), or the command
    returns ([Return]). *)
Inductive flow := Next | Found | Return.

(** [for uid, lst in vps_data.items(): for vps in lst: if ...: <body>] with
    [if found: break] after the inner loop. *)
Fixpoint scan (name : string) (items : list (string * list vps))
  (body : string → nat → vps → M flow) : M flow :=
  match items with
  | [] => ret Next
  | (uid, lst) :: rest =>
    match first_named name lst with
    | None => scan name rest body
    | Some (i, v) =>
      let* f := body uid i v in
      match f with
      | Next => scan name rest body
      | Found | Return => ret f
      end
    end
  end.

(** The first record named [name] in iteration order, with its owner:
    what the search of [clone_vps] leaves in [user_id] and [found_vps]. *)
Fixpoint find_named (name : string) (items : list (string * list vps))
  : option (string * vps) :=
  match items with
  | [] => None
  | (uid, vps_list) :: rest =>
    match first_named name vps_list with
    | Some (_, v) => Some (uid, v)
    | None => find_named name rest
    end
  end.

(** The record that [clone_vps] builds from the one it found. *)
Definition new_vps (found_vps : vps) (new_name t : string) : vps :=
  {| container_name := new_name; ram := ram found_vps; cpu := cpu found_vps;
     storage := storage found_vps; config := config found_vps;
     status := Some "running"; suspended := Some false;
     suspension_history := Some []; created_at := t; shared_with := Some [] |}.

(** The name of the copy: the one given, or one made from the time when
    none (or an empty one) is given. *)
Definition clone_name (name : string) (new_name : option string)
  (timestamp : string) : string :=
  let generated := "RathamCloud-" +:+ name +:+ "-clone-" +:+ timestamp in
  match new_name with
  | None => generated
  | Some n => if bool_decide (String.length n = 0%nat) then generated else n
  end.

Section Operations.
Context (env : Env).

(** ** Sharing *)

(** [share_user(ctx, shared_user, vps_number)] *)
Definition share_user (author shared_user vps_number : Z) : M unit :=
  let user_id := pretty author in
  let shared_user_id := pretty shared_user in
  let* g := get in
  match vps_data g !! user_id with
  | None => send Error "Invalid VPS"
  | Some vps_list =>
    if bool_decide (vps_number < 1)
       || bool_decide (vps_number > Z.of_nat (length vps_list))
    then send Error "Invalid VPS"
    else
      let i := Z.to_nat (vps_number - 1) in
      match vps_list !! i with
      | None => raise "IndexError"
      | Some v =>
        (* if "shared_with" not in vps: vps["shared_with"] = [] *)
        match shared_with v with
        | None => set_vps_data (alter (alter (set_shared_with []) i) user_id
                                      (vps_data g))
        | Some _ => ret tt
        end >>
        let shared := default [] (shared_with v) in
        if bool_decide (shared_user_id ∈ shared) then
          send Error "Already Shared"
        else
          let* g := get in
          set_vps_data
            (alter (alter (set_shared_with (shared ++ [shared_user_id])) i)
                   user_id (vps_data g)) >>
          save_data env >>
          send Success "VPS Shared" >>
          emit (Dm shared_user_id)
      end
  end.

(** [revoke_share(ctx, shared_user, vps_number)] *)
Definition revoke_share (author shared_user vps_number : Z) : M unit :=
  let user_id := pretty author in
  let shared_user_id := pretty shared_user in
  let* g := get in
  match vps_data g !! user_id with
  | None => send Error "Invalid VPS"
  | Some vps_list =>
    if bool_decide (vps_number < 1)
       || bool_decide (vps_number > Z.of_nat (length vps_list))
    then send Error "Invalid VPS"
    else
      let i := Z.to_nat (vps_number - 1) in
      match vps_list !! i with
      | None => raise "IndexError"
      | Some v =>
        (* if "shared_with" not in vps: vps["shared_with"] = [] *)
        match shared_with v with
        | None => set_vps_data (alter (alter (set_shared_with []) i) user_id
                                      (vps_data g))
        | Some _ => ret tt
        end >>
        let shared := default [] (shared_with v) in
        if bool_decide (shared_user_id ∉ shared) then
          send Error "Not Shared"
        else
          match list_remove_first shared_user_id shared with
          | None => raise "ValueError"
          | Some l =>
            let* g := get in
            set_vps_data (alter (alter (set_shared_with l) i) user_id
                                (vps_data g))
          end >>
          save_data env >>
          send Success "Access Revoked" >>
          emit (Dm shared_user_id)
      end
  end.

(** ** Suspension by an admin *)

(** [suspend_vps(ctx, container_name, reason)]; [author_name] is
    [ctx.author.name]. *)
Definition suspend_vps (author_name : string) (author : Z)
  (name reason : string) : M unit :=
  let* g := get in
  let* f :=
    scan name (map_to_list (vps_data g))
      (λ uid i v,
         if bool_decide (status v ≠ Some "running") then
           send Error "Cannot Suspend" >> ret Return
         else
           let* r :=
             try_except
               (execute_RTC env ("RTC stop " +:+ name) >>
                let* t := datetime_now env in
                let entry :=
                  {| time := t; reason := reason;
                     by_ := author_name +:+ " (" +:+ pretty author +:+ ")" |} in
                let* g := get in
                set_vps_data (alter (alter (auto_suspend entry) i) uid
                                    (vps_data g)) >>
                save_data env >>
                ret Found)
               (λ e, send Error "Suspend Failed" >> ret Return) in
           match r with
           | Found =>
             emit (Dm uid) >> send Success "VPS Suspended" >> ret Found
           | _ => ret r
           end) in
  match f with
  | Next => send Error "Not Found"
  | Found | Return => ret tt
  end.

(** [unsuspend_vps(ctx, container_name)] *)
Definition unsuspend_vps (name : string) : M unit :=
  let* g := get in
  let* f :=
    scan name (map_to_list (vps_data g))
      (λ uid i v,
         if negb (default false (suspended v)) then
           send Error "Not Suspended" >> ret Return
         else
           try_except
             (let* g := get in
              set_vps_data (alter (alter mark_running i) uid (vps_data g)) >>
              execute_RTC env ("RTC start " +:+ name) >>
              save_data env >>
              send Success "VPS Unsuspended" >>
              ret Found)
             (λ e, send Error "Start Failed" >> ret Next)) in
  match f with
  | Next => send Error "Not Found"
  | Found | Return => ret tt
  end.

(** ** Restart and migration *)

(** The loop that [restart_vps] and [migrate_vps] run after their commands:
    in every owner's list the first record of that name is marked running,
    and the store is saved once for each. *)
Definition mark_restarted (name : string) : M unit :=
  let* g := get in
  for_each (map_to_list (vps_data g))
    (λ '(user_id, vps_list),
       match first_named name vps_list with
       | None => ret tt
       | Some (i, _) =>
         let* g := get in
         set_vps_data (alter (alter mark_running i) user_id (vps_data g)) >>
         save_data env
       end).

(** [restart_vps(ctx, container_name)] *)
Definition restart_vps (name : string) : M unit :=
  send Info "Restarting VPS" >>
  try_except
    (execute_RTC env ("RTC restart " +:+ name) >>
     mark_restarted name >>
     send Success "VPS Restarted")
    (λ e, send Error "Restart Failed").

(** [migrate_vps(ctx, container_name, target_pool)]; [time_time] is the
    reading of [int(time.time())]. *)
Definition migrate_vps (name target_pool : string) (time_time : Z) : M unit :=
  send Info "Migrating VPS" >>
  try_except
    (execute_RTC env ("RTC stop " +:+ name) >>
     let temp_name :=
       "RathamCloud-" +:+ name +:+ "-temp-" +:+ pretty time_time in
     execute_RTC env ("RTC copy " +:+ name +:+ " " +:+ temp_name
                      +:+ " --storage " +:+ target_pool) >>
     execute_RTC env ("RTC delete " +:+ name +:+ " --force") >>
     execute_RTC env ("RTC rename " +:+ temp_name +:+ " " +:+ name) >>
     execute_RTC env ("RTC start " +:+ name) >>
     mark_restarted name >>
     send Success "VPS Migrated")
    (λ e, send Error "Migration Failed").

(** ** Clone *)

(** [clone_vps(ctx, container_name, new_name)]; [timestamp] is the reading
    of [datetime.now().strftime('%Y%m%d-%H%M%S')] used when no name is
    given. *)
Definition clone_vps (name : string) (new_name : option string)
  (timestamp : string) : M unit :=
  let new_name := clone_name name new_name timestamp in
  send Info "Cloning VPS" >>
  try_except
    (let* g := get in
     match find_named name (map_to_list (vps_data g)) with
     | None => send Error "VPS Not Found"
     | Some (user_id, found_vps) =>
       execute_RTC env ("RTC copy " +:+ name +:+ " " +:+ new_name) >>
       execute_RTC env ("RTC start " +:+ new_name) >>
       let* g := get in
       match vps_data g !! user_id with
       | None => set_vps_data (<[user_id := []]> (vps_data g))
       | Some _ => ret tt
       end >>
       let* t := datetime_now env in
       let* g := get in
       set_vps_data (alter (λ vps_list, vps_list ++ [new_vps found_vps new_name t])
                           user_id (vps_data g)) >>
       save_data env >>
       send Success "VPS Cloned"
     end)
    (λ e, send Error "Clone Failed").

End Operations.

(** * Further properties of the operations *)

(** ** Delete *)



(** ** Host guardian: the forced stop *)

Lemma vps_at_fmap (f : vps → vps) w w' :
  vps_data (mem w') = (λ l : list vps, f <$> l) <$> vps_data (mem w) →
  ∀ user_id i, vps_at w' user_id i = f <$> vps_at w user_id i.
Proof.
  intros E user_id i. unfold vps_at. rewrite E, lookup_fmap.
  destruct (vps_data (mem w) !! user_id) as [l|]; simpl; [|done].
  by rewrite list_lookup_fmap.
Qed.

Lemma stop_if_running_status v : status (stop_if_running v) ≠ Some "running".
Proof. unfold stop_if_running. case_bool_decide; [done|done]. Qed.



(** X2. One wake-up of the host guardian while the monitor is enabled and its
    task alive.  If the host sample does not exceed the threshold nothing
    but the sample happens.  If it does, one force-stop-all command is
    issued; when it succeeds every record whose status was "running" gets
    status "stopped" and nothing else of it changes (its suspended flag
    included), every other record is left as it is, so no record is
    "running" afterwards, and the store is saved; when the command fails
    no record is changed and nothing is saved. *)
Theorem cpu_monitor_forced_stop cfg env w :
  cpu_monitor_task w = TaskRunning → cpu_monitor_active (mem w) = true →
  let w' := step cfg env w CpuMonitorWake in
  let t0 := trace w ++ [SampleHost] in
  if exceeds (host_cpu env (trace w)) (CPU_THRESHOLD cfg) then
    match rtc env t0 "RTC stop --all --force" with
    | Done o =>
      (∀ user_id i, vps_at w' user_id i = stop_if_running <$> vps_at w user_id i)
      ∧ (∀ user_id i v, vps_at w' user_id i = Some v → status v ≠ Some "running")
      ∧ (∀ user_id i v, vps_at w user_id i = Some v →
                        status v ≠ Some "running" → vps_at w' user_id i = Some v)
      ∧ (∀ user_id i v v', vps_at w user_id i = Some v →
                           vps_at w' user_id i = Some v' →
                           suspended v' = suspended v
                           ∧ suspension_history v' = suspension_history v
                           ∧ container_name v' = container_name v)
      ∧ admin_data (mem w') = admin_data (mem w)
      ∧ port_data (mem w') = port_data (mem w)
      ∧ save_log w' = save_log w ++ [disk_write env (save_log w)]
      ∧ trace w' = t0 ++ [Exec "RTC stop --all --force" (Done o)]
    | Failed e =>
      mem w' = mem w ∧ save_log w' = save_log w
      ∧ trace w' = t0 ++ [Exec "RTC stop --all --force" (Failed e)]
    end
  else mem w' = mem w ∧ save_log w' = save_log w ∧ trace w' = t0.
Proof.
  intros Ht Ha. cbv zeta. unfold step, handle, cpu_monitor. rewrite Ht, Ha.
  unfold cpu_monitor_body. munfold.
  destruct (exceeds _ _); [|munfold; trace_eq]. munfold.
  destruct (rtc env _ _) as [o|e]; munfold; [|trace_eq].
  set (w' := {| mem := _; disk := _; trace := _; save_log := _;
                cpu_monitor_task := _ |}).
  assert (Hat : ∀ user_id i,
             vps_at w' user_id i = stop_if_running <$> vps_at w user_id i)
    by (by apply vps_at_fmap).
  split_and!; try done.
  - intros u i v. rewrite Hat. destruct (vps_at w u i) as [v0|]; [|done].
    intros [= <-]. apply stop_if_running_status.
  - intros u i v Hv Hs. rewrite Hat, Hv. simpl. unfold stop_if_running.
    by rewrite bool_decide_eq_false_2.
  - intros u i v v' Hv. rewrite Hat, Hv. intros [= <-].
    unfold stop_if_running. by case_bool_decide.
Qed.

(** The host is sampled at 95% and every command succeeds. *)
Definition busy_host_env : Env :=
  {| rtc := λ _ _, Done "ok";
     host_cpu := λ _, Q2Qc 95;
     container_cpu := λ _ _, Q2Qc 0;
     container_ram := λ _ _, Q2Qc 0;
     now := λ _, "2024-01-01T00:01:00";
     disk_write := λ _, Saved;
     fmt1 := fmt1_whole |}.

Lemma cpu_monitor_forced_stop_witness :
  let cfg := default_config in
  let env := busy_host_env in
  let w := web_world in
  let w' := step cfg env w CpuMonitorWake in
  let t0 := trace w ++ [SampleHost] in
  if exceeds (host_cpu env (trace w)) (CPU_THRESHOLD cfg) then
    match rtc env t0 "RTC stop --all --force" with
    | Done o =>
      (∀ user_id i, vps_at w' user_id i = stop_if_running <$> vps_at w user_id i)
      ∧ (∀ user_id i v, vps_at w' user_id i = Some v → status v ≠ Some "running")
      ∧ (∀ user_id i v, vps_at w user_id i = Some v →
                        status v ≠ Some "running" → vps_at w' user_id i = Some v)
      ∧ (∀ user_id i v v', vps_at w user_id i = Some v →
                           vps_at w' user_id i = Some v' →
                           suspended v' = suspended v
                           ∧ suspension_history v' = suspension_history v
                           ∧ container_name v' = container_name v)
      ∧ admin_data (mem w') = admin_data (mem w)
      ∧ port_data (mem w') = port_data (mem w)
      ∧ save_log w' = save_log w ++ [disk_write env (save_log w)]
      ∧ trace w' = t0 ++ [Exec "RTC stop --all --force" (Done o)]
    | Failed e =>
      mem w' = mem w ∧ save_log w' = save_log w
      ∧ trace w' = t0 ++ [Exec "RTC stop --all --force" (Failed e)]
    end
  else mem w' = mem w ∧ save_log w' = save_log w ∧ trace w' = t0.
Proof.
  apply (cpu_monitor_forced_stop default_config busy_host_env web_world);
    reflexivity.
Defined.

Example busy_host_scenario :
  let w' := step default_config busy_host_env web_world CpuMonitorWake in
  (status <$> vps_at w' "7" 0) = Some (Some "stopped")
  ∧ trace w' = [SampleHost; Exec "RTC stop --all --force" (Done "ok")].
Proof. vm_compute. done. Qed.

(** ** The two guardians together *)

Lemma for_each_idle {A} (l : list A) (body : A → M unit) w :
  (∀ x, x ∈ l → body x w = (Ret tt, w)) → for_each l body w = (Ret tt, w).
Proof.
  induction l as [|x l IH]; intros Hb; simpl; [done|].
  unfold bind. rewrite Hb by (apply elem_of_cons; by left).
  apply IH. intros y Hy. apply Hb, elem_of_cons. by right.
Qed.

Lemma monitor_vps_idle cfg env user_id i w :
  (∀ v, vps_at w user_id i = Some v → monitored v = false) →
  monitor_vps cfg env user_id i w = (Ret tt, w).
Proof.
  intros Hidle. unfold monitor_vps. munfold. unfold vps_at in Hidle.
  destruct (vps_data (mem w) !! user_id ≫= _) as [v|]; [|done].
  by rewrite (Hidle v eq_refl).
Qed.


(** X3. A tick of the instance guardian over a store in which no record is
    both running and not suspended does nothing at all: no sample, no
    command, no change, no save. *)
Theorem vps_monitor_idle cfg env w :
  (∀ user_id i v, vps_at w user_id i = Some v → monitored v = false) →
  vps_monitor cfg env w = (Ret tt, w).
Proof.
  intros Hidle. unfold vps_monitor, try_except, bind, get. cbv beta iota.
  rewrite for_each_idle; [done|].
  intros [u l] _. apply for_each_idle. intros i _.
  apply monitor_vps_idle. intros v. apply Hidle.
Qed.

(** Two instances the guardian must leave alone: one stopped, one
    suspended by an admin. *)
Definition parked_world : World :=
  {| mem := {| vps_data :=
                 {[ "7" := [ {| container_name := "web-1"; ram := "4GB";
                                cpu := "2"; storage := "20GB";
                                config := "4GB RAM / 2 CPU / 20GB Disk";
                                status := Some "stopped";
                                suspended := Some false;
                                suspension_history := Some [];
                                created_at := "2024-01-01T00:00:00";
                                shared_with := Some [] |};
                             {| container_name := "web-2"; ram := "4GB";
                                cpu := "2"; storage := "20GB";
                                config := "4GB RAM / 2 CPU / 20GB Disk";
                                status := Some "running";
                                suspended := Some true;
                                suspension_history :=
                                  Some [ {| time := "2024-01-01T00:05:00";
                                            reason := "maintenance";
                                            by_ := "root (1)" |} ];
                                created_at := "2024-01-01T00:00:00";
                                shared_with := Some [] |} ] ]};
               admin_data := admin_data (mem fresh_world);
               port_data := port_data (mem fresh_world);
               cpu_monitor_active := true |};
     disk := fresh_disk; trace := []; save_log := [];
     cpu_monitor_task := TaskRunning |}.

(** Neither is sampled, although a sample would read 92% CPU. *)
Lemma vps_monitor_idle_witness :
  vps_monitor default_config (hot_env (Done "ok")) parked_world
  = (Ret tt, parked_world).
Proof.
  apply (vps_monitor_idle default_config (hot_env (Done "ok")) parked_world).
  intros u i v Hv. unfold vps_at in Hv. cbn [parked_world mem vps_data] in Hv.
  destruct (decide (u = "7")) as [->|Hne].
  - rewrite lookup_singleton_eq in Hv. cbn in Hv.
    destruct i as [|[|i]]; cbn in Hv; simplify_eq; reflexivity.
  - rewrite lookup_singleton_ne in Hv by done. done.
Defined.

Lemma forced_stop_none_running cfg env w o :
  cpu_monitor_task w = TaskRunning → cpu_monitor_active (mem w) = true →
  exceeds (host_cpu env (trace w)) (CPU_THRESHOLD cfg) = true →
  rtc env (trace w ++ [SampleHost]) "RTC stop --all --force" = Done o →
  ∀ user_id i v,
    vps_at (step cfg env w CpuMonitorWake) user_id i = Some v →
    status v ≠ Some "running".
Proof.
  intros Ht Ha Hx Hr u i v.
  unfold step, handle, cpu_monitor. rewrite Ht, Ha.
  unfold cpu_monitor_body. munfold. rewrite Hx. munfold. rewrite Hr. munfold.
  set (w' := {| mem := _; disk := _; trace := _; save_log := _;
                cpu_monitor_task := _ |}).
  rewrite (vps_at_fmap stop_if_running w w') by done.
  destruct (vps_at w u i) as [v0|]; [|done].
  intros [= <-]. apply stop_if_running_status.
Qed.

(** X4. After a forced stop by the host guardian, the next tick of the instance
    guardian finds nothing to sample and leaves the world as it is. *)
Theorem vps_monitor_after_forced_stop cfg env w o :
  cpu_monitor_task w = TaskRunning → cpu_monitor_active (mem w) = true →
  exceeds (host_cpu env (trace w)) (CPU_THRESHOLD cfg) = true →
  rtc env (trace w ++ [SampleHost]) "RTC stop --all --force" = Done o →
  let w' := step cfg env w CpuMonitorWake in
  step cfg env w' VpsMonitorWake = w'.
Proof.
  intros Ht Ha Hx Hr w'.
  pose proof (forced_stop_none_running cfg env w o Ht Ha Hx Hr) as Hnot.
  unfold step at 1. cbn [handle].
  unfold vps_monitor, try_except, bind, get. cbv beta iota.
  rewrite for_each_idle; [done|].
  intros [u l] _. apply for_each_idle. intros i _.
  apply monitor_vps_idle. intros v Hv. unfold monitored.
  rewrite bool_decide_eq_false_2; [done|]. by apply (Hnot u i).
Qed.

Lemma vps_monitor_after_forced_stop_witness :
  let w' := step default_config busy_host_env web_world CpuMonitorWake in
  step default_config busy_host_env w' VpsMonitorWake = w'.
Proof.
  apply (vps_monitor_after_forced_stop default_config busy_host_env web_world
           "ok"); reflexivity.
Defined.

(** ** Port quota *)

(** No user holds more forwards than slots. *)
Definition within_quota (pd : port_table) : Prop :=
  ∀ u l, active_ports pd !! u = Some l →
         Z.of_nat (length l) ≤ default 0 (users pd !! u).

(** A request that does not take slots away. *)
Definition grant_nonneg (r : request) : Prop :=
  match r with
  | PortsAddUser _ amount _ => 0 ≤ amount
  | _ => True
  end.

(** What a call of the add branch can do to the port table. *)
Lemma ports_add_table env user_id arg1 arg2 w :
  let pd := port_data (mem w) in
  let pd' := port_data (mem (ports_add env user_id arg1 arg2 w).2) in
  let active := default [] (active_ports pd !! user_id) in
  pd' = pd
  ∨ ∃ p c,
      Z.of_nat (length active) < default 0 (users pd !! user_id)
      ∧ get_next_available_port pd = Some p
      ∧ pd' = {| users := users pd;
                 active_ports :=
                   <[user_id := active ++ [ {| container := c;
                                               internal_port := arg2;
                                               host_port := p |} ] ]>
                     (active_ports pd) |}.
Proof.
  cbv zeta. unfold ports_add. munfold.
  destruct (_ || _); [by left|].
  destruct (_ !! Z.to_nat _) as [v|]; [|by left].
  case_bool_decide as Hq; [by left|].
  destruct (get_next_available_port _) as [p|] eqn:Hp; [|by left].
  destruct (bool_decide (p = 0)); [by left|]. munfold.
  destruct (rtc env (trace w ++ [_]) _); munfold; [|by left].
  destruct (rtc env ((trace w ++ [_]) ++ [_]) _); munfold; [|by left].
  right. exists p, (container_name v). split_and!; [lia|done|].
  destruct (active_ports (port_data (mem w)) !! user_id) as [l|] eqn:E; munfold;
    f_equal; apply map_eq; intros j;
    rewrite lookup_alter, ?lookup_insert; case_decide; subst;
    rewrite ?E, ?decide_True; done.
Qed.

(** What a call of the remove branch can do to the port table. *)
Lemma ports_remove_table env user_id arg1 w :
  let pd := port_data (mem w) in
  let pd' := port_data (mem (ports_remove env user_id arg1 w).2) in
  pd' = pd
  ∨ ∃ l l1 found l2,
      active_ports pd !! user_id = Some l
      ∧ l = l1 ++ found :: l2
      ∧ host_port found = arg1
      ∧ (∀ f, f ∈ l1 → host_port f ≠ arg1)
      ∧ pd' = {| users := users pd;
                 active_ports := <[user_id := l1 ++ l2]> (active_ports pd) |}.
Proof.
  cbv zeta. unfold ports_remove. munfold.
  destruct (find _ _) as [found|] eqn:Hfind; [|by left]. munfold.
  destruct (rtc env (trace w) _); munfold; [|by left].
  destruct (rtc env (trace w ++ [_]) _); munfold; [|by left].
  destruct (active_ports (port_data (mem w)) !! user_id) as [l|] eqn:E;
    cbn [default from_option id] in Hfind; [|done].
  destruct (list_remove_first_find _ _ _ Hfind) as (l1 & l2 & -> & Hrm & Hp & Hl1).
  cbn [mbind option_bind]. rewrite Hrm. munfold.
  right. by exists (l1 ++ found :: l2), l1, found, l2.
Qed.

Lemma ports_command_table env author action arg1 arg2 w :
  let pd := port_data (mem w) in
  let pd' := port_data (mem (ports_command env author action arg1 arg2 w).2) in
  pd' = pd
  ∨ (∃ ar1 ar2, pd' = port_data (mem (ports_add env (pretty author) ar1 ar2 w).2))
  ∨ (∃ ar1, pd' = port_data (mem (ports_remove env (pretty author) ar1 w).2)).
Proof.
  cbv zeta. unfold ports_command.
  repeat lazymatch goal with
         | |- context [if ?b then _ else _] => destruct b
         | |- context [match ?x with _ => _ end] => destruct x
         end; eauto.
Qed.

Lemma ports_add_within_quota env user_id arg1 arg2 w :
  within_quota (port_data (mem w)) →
  within_quota (port_data (mem (ports_add env user_id arg1 arg2 w).2)).
Proof.
  intros Hq.
  destruct (ports_add_table env user_id arg1 arg2 w)
    as [->|(p & c & Hlt & _ & ->)]; [done|].
  intros u l. cbn. rewrite lookup_insert. case_decide as Hu.
  - subst u. intros [= <-]. rewrite length_app. cbn. lia.
  - apply Hq.
Qed.

Lemma ports_remove_within_quota env user_id arg1 w :
  within_quota (port_data (mem w)) →
  within_quota (port_data (mem (ports_remove env user_id arg1 w).2)).
Proof.
  intros Hq.
  destruct (ports_remove_table env user_id arg1 w)
    as [->|(l & l1 & found & l2 & Hl & -> & _ & _ & ->)]; [done|].
  intros u k. cbn. rewrite lookup_insert. case_decide as Hu.
  - subst u. intros [= <-]. specialize (Hq _ _ Hl).
    rewrite length_app in *. cbn in Hq. lia.
  - apply Hq.
Qed.

Lemma step_within_quota cfg env w r :
  grant_nonneg r →
  within_quota (port_data (mem w)) →
  within_quota (port_data (mem (step cfg env w r))).
Proof.
  intros Hr Hq. unfold step.
  destruct r; cbn [handle];
    try solve [
      rewrite (relates_elim (unchanged (λ w, port_data (mem w))));
      [exact Hq|unfold_handlers; relates_with unchanged_leaf] ].
  - destruct (ports_command_table env author action arg1 arg2 w)
      as [->|[(a1 & a2 & ->)|(a1 & ->)]]; [done|..].
    + by apply ports_add_within_quota.
    + by apply ports_remove_within_quota.
  - unfold checked, ports_add_user. munfold.
    destruct (is_admin cfg author (mem w)); [|exact Hq]. munfold.
    intros u l Hl. cbn in *. specialize (Hq u l Hl).
    rewrite lookup_insert. case_decide; [subst; cbn; lia|done].
  - unfold cpu_monitor.
    destruct (cpu_monitor_task w); [|done].
    destruct (cpu_monitor_active (mem w)); [|done].
    rewrite (relates_elim (unchanged (λ w, port_data (mem w))));
      [exact Hq|unfold_handlers; relates_with unchanged_leaf].
Qed.

(** X5. While no request takes slots away, no user ever holds more forwards
    than slots: the property holds after every sequence of requests whose
    slot grants are non-negative, from any state in which it holds. *)
Theorem quota_respected cfg env w rs :
  within_quota (port_data (mem w)) →
  Forall grant_nonneg rs →
  within_quota (port_data (mem (run cfg env w rs))).
Proof.
  intros Hq Hrs. revert w Hq.
  induction Hrs as [|r rs Hr _ IH]; intros w Hq; simpl; [done|].
  by apply IH, step_within_quota.
Qed.

Lemma quota_respected_witness :
  within_quota (port_data (mem (run default_config quiet_env fresh_world
                                    port_session))).
Proof.
  apply (quota_respected default_config quiet_env fresh_world port_session).
  - intros u l Hl. cbn in Hl. by rewrite lookup_empty in Hl.
  - unfold port_session.
    repeat (constructor; [first [exact I|cbn; lia]|]). constructor.
Defined.

(** A negative grant is accepted as it is and can leave a user above quota:
    user 7 holds two forwards and the main admin takes three slots away. *)
Example negative_grant_breaks_quota :
  let w := run default_config quiet_env fresh_world
             (port_session ++ [PortsAddUser 1210291131301101618 (-3) 7]) in
  length <$> (active_ports (port_data (mem w)) !! "7") = Some 2%nat
  ∧ users (port_data (mem w)) !! "7" = Some 0.
Proof. vm_compute. done. Qed.

(** ** Release and reuse of a port *)

(** A release whose two commands succeed. *)
Lemma ports_remove_done env user_id arg1 w l found o o' :
  active_ports (port_data (mem w)) !! user_id = Some l →
  find (λ p, bool_decide (host_port p = arg1)) l = Some found →
  rtc env (trace w) (tcp_remove_command (container found) arg1) = Done o →
  rtc env (trace w ++ [Exec (tcp_remove_command (container found) arg1) (Done o)])
      (udp_remove_command (container found) arg1) = Done o' →
  ∃ l1 l2,
    l = l1 ++ found :: l2 ∧ host_port found = arg1
    ∧ (∀ f, f ∈ l1 → host_port f ≠ arg1)
    ∧ port_data (mem (ports_remove env user_id arg1 w).2)
      = {| users := users (port_data (mem w));
           active_ports := <[user_id := l1 ++ l2]>
                             (active_ports (port_data (mem w))) |}.
Proof.
  intros Hl Hfind H1 H2.
  destruct (list_remove_first_find _ _ _ Hfind) as (l1 & l2 & El & Hrm & Hp & Hl1).
  unfold ports_remove. munfold. rewrite Hl. cbn [default from_option id].
  rewrite Hfind. munfold. rewrite H1. munfold. rewrite H2. munfold.
  rewrite Hl. cbn [mbind option_bind]. rewrite Hrm. munfold.
  by exists l1, l2.
Qed.

(** X6. In a table that satisfies the allocation invariant, a release whose two
    device commands succeed leaves the released host port unmapped for
    every user, so the next allocation gets that port or a lower one. *)
Theorem released_port_is_free env user_id arg1 w l found o o' :
  ports_ok (active_ports (port_data (mem w))) →
  active_ports (port_data (mem w)) !! user_id = Some l →
  find (λ p, bool_decide (host_port p = arg1)) l = Some found →
  rtc env (trace w) (tcp_remove_command (container found) arg1) = Done o →
  rtc env (trace w ++ [Exec (tcp_remove_command (container found) arg1) (Done o)])
      (udp_remove_command (container found) arg1) = Done o' →
  let pd' := port_data (mem (ports_remove env user_id arg1 w).2) in
  ¬ mapped (active_ports pd') arg1
  ∧ ∃ q, get_next_available_port pd' = Some q ∧ q ≤ arg1.
Proof.
  intros [Huser Hcross] Hl Hfind H1 H2. cbv zeta.
  destruct (ports_remove_done env user_id arg1 w l found o o' Hl Hfind H1 H2)
    as (l1 & l2 & -> & Hp & Hl1 & ->). cbn [active_ports].
  destruct (Huser _ _ Hl) as [Hnd Hrange].
  assert (Hfree : ¬ mapped (<[user_id := l1 ++ l2]>
                              (active_ports (port_data (mem w)))) arg1).
  { intros (u & k & f & Hk & Hf & Hpf). rewrite lookup_insert in Hk.
    case_decide as Hu.
    - injection Hk as <-. apply elem_of_app in Hf as [Hf|Hf].
      + by apply (Hl1 f).
      + rewrite fmap_app in Hnd. cbn in Hnd.
        apply list.NoDup_app in Hnd as (_ & _ & Hnd).
        apply list.NoDup_cons in Hnd as [Hnot _]. apply Hnot.
        rewrite Hp, <- Hpf. apply list_elem_of_fmap. by exists f.
    - apply (Hcross user_id u (l1 ++ found :: l2) k found f);
        [done|done|done| |done|congruence].
      rewrite elem_of_app, elem_of_cons. tauto. }
  split; [exact Hfree|].
  assert (Hin : in_range arg1).
  { rewrite <- Hp. apply Hrange. rewrite elem_of_app, elem_of_cons. tauto. }
  destruct (get_next_available_port _) as [q|] eqn:Hq.
  - exists q. split; [done|].
    apply get_next_available_port_Some in Hq as (_ & _ & Hlow).
    destruct (decide (q ≤ arg1)) as [|Hgt]; [done|]. exfalso.
    apply Hfree. cbn [active_ports] in Hlow. apply Hlow.
    unfold in_range in Hin. lia.
  - exfalso. apply Hfree.
    rewrite get_next_available_port_None in Hq. by apply Hq.
Qed.

Lemma released_port_is_free_witness :
  let pd' := port_data (mem (ports_remove quiet_env "7" 10000
                                          one_forward_world).2) in
  ¬ mapped (active_ports pd') 10000
  ∧ ∃ q, get_next_available_port pd' = Some q ∧ q ≤ 10000.
Proof.
  apply (released_port_is_free quiet_env "7" 10000 one_forward_world
           [ {| container := "RathamCloud-vps-7-1"; internal_port := 22;
                host_port := 10000 |} ]
           {| container := "RathamCloud-vps-7-1"; internal_port := 22;
              host_port := 10000 |} "ok" "ok");
    try (vm_compute; reflexivity).
  apply (run_ports_ok default_config quiet_env fresh_world
           [ CreateVps 1210291131301101618 2 1 10 7;
             PortsAddUser 1210291131301101618 3 7;
             PortsCommand 7 "add" (Some 1) (Some 22) ]).
  apply ports_ok_empty.
Defined.

(** An allocation whose two commands succeed. *)
Lemma ports_add_done env user_id arg1 arg2 w v p o o' :
  1 ≤ arg1 →
  default [] (vps_data (mem w) !! user_id) !! Z.to_nat (arg1 - 1) = Some v →
  Z.of_nat (length (default [] (active_ports (port_data (mem w)) !! user_id)))
  < default 0 (users (port_data (mem w)) !! user_id) →
  get_next_available_port (port_data (mem w)) = Some p →
  rtc env (trace w ++ [Send Info "Adding Port Forward"])
      (tcp_add_command (container_name v) p arg2) = Done o →
  rtc env (trace w ++ [Send Info "Adding Port Forward";
                       Exec (tcp_add_command (container_name v) p arg2) (Done o)])
      (udp_add_command (container_name v) p arg2) = Done o' →
  let w' := (ports_add env user_id arg1 arg2 w).2 in
  port_data (mem w')
  = {| users := users (port_data (mem w));
       active_ports :=
         <[user_id := default [] (active_ports (port_data (mem w)) !! user_id)
                      ++ [ {| container := container_name v;
                              internal_port := arg2; host_port := p |} ] ]>
           (active_ports (port_data (mem w))) |}
  ∧ vps_data (mem w') = vps_data (mem w)
  ∧ trace w' = trace w ++ [ Send Info "Adding Port Forward";
                            Exec (tcp_add_command (container_name v) p arg2) (Done o);
                            Exec (udp_add_command (container_name v) p arg2) (Done o');
                            Send Success "Port Forward Added" ].
Proof.
  intros Harg Hv Hq Hp H1 H2. cbv zeta.
  assert (Hlen : arg1 ≤ Z.of_nat (length (default [] (vps_data (mem w) !! user_id)))).
  { apply lookup_lt_Some in Hv. lia. }
  unfold ports_add. munfold.
  rewrite (bool_decide_eq_false_2 (arg1 < 1)) by lia.
  rewrite (bool_decide_eq_false_2 (arg1 > _)) by lia.
  cbn [orb]. rewrite Hv. rewrite bool_decide_eq_false_2 by lia. rewrite Hp.
  apply get_next_available_port_Some in Hp as [[Hp _] _].
  rewrite bool_decide_eq_false_2 by lia. munfold. rewrite H1. munfold.
  rewrite <- !app_assoc. cbn [app]. rewrite H2. munfold.
  destruct (active_ports (port_data (mem w)) !! user_id) as [l|] eqn:E;
    munfold; (split_and!; [|trace_eq..]); f_equal; apply map_eq; intros j;
    rewrite lookup_alter, ?lookup_insert; case_decide; subst;
    rewrite ?E, ?decide_True; done.
Qed.

Lemma list_remove_first_snoc {A} `{EqDecision A} (x : A) l :
  x ∉ l → list_remove_first x (l ++ [x]) = Some l.
Proof.
  induction l as [|y l IH]; intros Hx; simpl.
  - by rewrite decide_True.
  - apply not_elem_of_cons in Hx as [Hne Hx].
    rewrite decide_False by done. by rewrite IH.
Qed.

Lemma find_snoc_first (l : list port_info) r :
  (∀ f, f ∈ l → host_port f ≠ host_port r) →
  find (λ p, bool_decide (host_port p = host_port r)) (l ++ [r]) = Some r.
Proof.
  induction l as [|y l IH]; intros Hl; simpl.
  - by rewrite bool_decide_eq_true_2.
  - rewrite bool_decide_eq_false_2.
    + apply IH. intros f Hf. apply Hl, elem_of_cons. by right.
    + apply Hl, elem_of_cons. by left.
Qed.

Lemma mapped_insert_default (ap : gmap string (list port_info)) u x :
  mapped (<[u := default [] (ap !! u)]> ap) x ↔ mapped ap x.
Proof.
  unfold mapped. split.
  - intros (u' & k & f & Hk & Hf & Hx). rewrite lookup_insert in Hk.
    case_decide as Hu; [|by exists u', k, f]. subst u'. injection Hk as <-.
    destruct (ap !! u) as [k|] eqn:E; cbn in Hf; [|by apply elem_of_nil in Hf].
    by exists u, k, f.
  - intros (u' & k & f & Hk & Hf & Hx).
    destruct (decide (u = u')) as [<-|Hu].
    + exists u, k, f. by rewrite lookup_insert_eq, Hk.
    + exists u', k, f. by rewrite lookup_insert_ne.
Qed.

(** X7. Allocate, then release the port just allocated: when the four device
    commands succeed, the caller's list of forwards is what it was before
    the allocation, the lists of the other users and the quotas are
    untouched, and the port handed out is the next one to be handed out
    again. *)
Theorem allocate_release_round_trip env user_id arg1 arg2 w v p :
  (∀ h c, ∃ o, rtc env h c = Done o) →
  1 ≤ arg1 →
  default [] (vps_data (mem w) !! user_id) !! Z.to_nat (arg1 - 1) = Some v →
  Z.of_nat (length (default [] (active_ports (port_data (mem w)) !! user_id)))
  < default 0 (users (port_data (mem w)) !! user_id) →
  get_next_available_port (port_data (mem w)) = Some p →
  let w1 := (ports_add env user_id arg1 arg2 w).2 in
  let w2 := (ports_remove env user_id p w1).2 in
  default [] (active_ports (port_data (mem w2)) !! user_id)
  = default [] (active_ports (port_data (mem w)) !! user_id)
  ∧ (∀ u, u ≠ user_id → active_ports (port_data (mem w2)) !! u
                        = active_ports (port_data (mem w)) !! u)
  ∧ users (port_data (mem w2)) = users (port_data (mem w))
  ∧ get_next_available_port (port_data (mem w2)) = Some p.
Proof.
  intros Hall Harg Hv Hq Hp. cbv zeta.
  destruct (Hall (trace w ++ [Send Info "Adding Port Forward"])
              (tcp_add_command (container_name v) p arg2)) as [o H1].
  destruct (Hall (trace w ++ [Send Info "Adding Port Forward";
                              Exec (tcp_add_command (container_name v) p arg2) (Done o)])
              (udp_add_command (container_name v) p arg2)) as [o' H2].
  destruct (ports_add_done env user_id arg1 arg2 w v p o o' Harg Hv Hq Hp H1 H2)
    as (Hpd1 & _ & _).
  set (w1 := (ports_add env user_id arg1 arg2 w).2) in *.
  set (l := default [] (active_ports (port_data (mem w)) !! user_id)) in *.
  set (r := {| container := container_name v; internal_port := arg2;
               host_port := p |}) in *.
  pose proof (get_next_available_port_Some _ _ Hp) as (_ & Hfree & Hlow).
  assert (Hl : ∀ f, f ∈ l → host_port f ≠ host_port r).
  { intros f Hf Heq. apply Hfree. unfold l in Hf.
    destruct (active_ports (port_data (mem w)) !! user_id) as [k|] eqn:E;
      cbn in Hf; [|by apply elem_of_nil in Hf].
    by exists user_id, k, f. }
  assert (Hl1 : active_ports (port_data (mem w1)) !! user_id = Some (l ++ [r])).
  { rewrite Hpd1. cbn. by rewrite lookup_insert_eq. }
  destruct (Hall (trace w1) (tcp_remove_command (container r) p)) as [o3 H3].
  destruct (Hall (trace w1 ++ [Exec (tcp_remove_command (container r) p) (Done o3)])
              (udp_remove_command (container r) p)) as [o4 H4].
  pose proof (find_snoc_first l r Hl) as Hfind. cbn [host_port r] in Hfind.
  destruct (ports_remove_done env user_id p w1 (l ++ [r]) r o3 o4 Hl1 Hfind H3 H4)
    as (l1 & l2 & Hsplit & _ & Hl1' & Hpd2).
  assert (l1 = l ∧ l2 = []) as [-> ->].
  { destruct l2 as [|x l2].
    - apply app_inj_tail in Hsplit as [-> _]. done.
    - exfalso. change (l1 ++ r :: x :: l2) with (l1 ++ [r] ++ x :: l2) in Hsplit.
      assert (Hr : r ∈ l1).
      { assert (Hlast : list.last (l ++ [r]) = list.last (l1 ++ [r] ++ x :: l2))
          by (by rewrite Hsplit).
        assert (r ∈ l).
        { assert (Hlen : length (l ++ [r]) = length (l1 ++ [r] ++ x :: l2))
            by (by rewrite Hsplit).
          rewrite !length_app in Hlen. cbn in Hlen.
          assert (Hlk : (l ++ [r]) !! length l1 = Some r).
          { rewrite Hsplit. by rewrite lookup_app_r, Nat.sub_diag by lia. }
          rewrite lookup_app_l in Hlk by lia.
          by eapply list_elem_of_lookup_2. }
        exfalso. by apply (Hl r). }
      by apply (Hl1' r). }
  rewrite app_nil_r in Hpd2. rewrite Hpd2, Hpd1. cbn.
  rewrite insert_insert_eq. split_and!.
  - by rewrite lookup_insert_eq.
  - intros u Hu. by rewrite lookup_insert_ne.
  - done.
  - assert (Hsame : ∀ x, mapped (<[user_id := l]>
                                 (active_ports (port_data (mem w)))) x
                       ↔ mapped (active_ports (port_data (mem w))) x)
      by apply mapped_insert_default.
    pose proof (get_next_available_port_Some _ _ Hp) as (Hr & _).
    destruct (get_next_available_port
                {| users := _; active_ports := <[_ := _]> _ |})
      as [q|] eqn:Hq2.
    + f_equal.
      pose proof (get_next_available_port_Some _ _ Hq2) as (Hr2 & Hfree2 & Hlow2).
      cbn [active_ports] in *.
      destruct (Z.lt_trichotomy q p) as [Hlt|[->|Hgt]]; [|done|].
      * exfalso. apply Hfree2, Hsame, Hlow. unfold in_range in Hr2. lia.
      * exfalso. apply Hfree, Hsame, Hlow2. unfold in_range in Hr. lia.
    + exfalso. rewrite get_next_available_port_None in Hq2.
      apply Hfree, Hsame. by apply Hq2.
Qed.

Lemma allocate_release_round_trip_witness :
  let w1 := (ports_add quiet_env "7" 1 22 one_vps_world).2 in
  let w2 := (ports_remove quiet_env "7" 10000 w1).2 in
  default [] (active_ports (port_data (mem w2)) !! "7")
  = default [] (active_ports (port_data (mem one_vps_world)) !! "7")
  ∧ (∀ u, u ≠ "7" → active_ports (port_data (mem w2)) !! u
                    = active_ports (port_data (mem one_vps_world)) !! u)
  ∧ users (port_data (mem w2)) = users (port_data (mem one_vps_world))
  ∧ get_next_available_port (port_data (mem w2)) = Some 10000.
Proof.
  eapply (allocate_release_round_trip quiet_env "7" 1 22 one_vps_world _ 10000).
  - intros h c. by exists "ok".
  - lia.
  - vm_compute. reflexivity.
  - vm_compute. reflexivity.
  - vm_compute. reflexivity.
Defined.

(** ** The port allocator *)

(** X8. [get_next_available_port] returns the lowest port of 10000..19999 that
    no user's forward maps, and [None] exactly when all of them are
    mapped. *)
Theorem get_next_available_port_spec pd :
  match get_next_available_port pd with
  | Some p =>
    in_range p ∧ ¬ mapped (active_ports pd) p
    ∧ ∀ q, 10000 ≤ q < p → mapped (active_ports pd) q
  | None => ∀ q, in_range q → mapped (active_ports pd) q
  end.
Proof.
  destruct (get_next_available_port pd) as [p|] eqn:Hp.
  - by apply get_next_available_port_Some.
  - by apply get_next_available_port_None.
Qed.

(** ** The admin registry *)

Lemma admin_add_listed cfg env user w :
  pretty user = pretty (MAIN_ADMIN_ID cfg)
  ∨ pretty user ∈ admin_list (mem (admin_add cfg env user w).2).
Proof.
  unfold admin_list, admin_add. munfold.
  case_bool_decide as Hmain; munfold; [by left|right].
  case_bool_decide as Hin; munfold; [done|].
  destruct (admins (admin_data (mem w))) as [l|] eqn:El; munfold;
    rewrite ?El; cbn.
  - apply elem_of_app. right. by apply list_elem_of_singleton.
  - by apply list_elem_of_singleton.
Qed.

(** X9. [admin-add] always leaves its target an admin: either the target was
    one already (the main admin, or listed), or the id is appended to the
    list, whatever becomes of the write to disk. *)
Theorem admin_add_grants cfg env user w :
  is_admin cfg user (mem (admin_add cfg env user w).2) = true.
Proof.
  unfold is_admin. apply orb_true_iff.
  destruct (admin_add_listed cfg env user w) as [H|H]; [left|right];
    by apply bool_decide_eq_true_2.
Qed.

Definition nodup_admins : relation World :=
  λ w w', NoDup (admin_list (mem w)) → NoDup (admin_list (mem w')).

#[global] Instance nodup_admins_preorder : PreOrder nodup_admins.
Proof.
  split; [intros w; unfold nodup_admins; tauto|].
  intros w1 w2 w3. unfold nodup_admins. tauto.
Qed.

Lemma unchanged_admin_nodup w w' :
  unchanged (λ w, admin_data (mem w)) w w' → nodup_admins w w'.
Proof. unfold unchanged, nodup_admins, admin_list. by intros ->. Qed.

Lemma admin_add_nodup cfg env user w :
  nodup_admins w (admin_add cfg env user w).2.
Proof.
  unfold nodup_admins, admin_list, admin_add. munfold.
  case_bool_decide as Hmain; [done|].
  case_bool_decide as Hin; [done|].
  destruct (admins (admin_data (mem w))) as [l|] eqn:El; cbn; rewrite ?El; cbn.
  - intros Hnd. apply list.NoDup_app. split_and!; [done| |apply NoDup_singleton].
    intros x Hx ->%list_elem_of_singleton. by apply Hin.
  - intros _. apply NoDup_singleton.
Qed.

Lemma admin_remove_nodup cfg env user w :
  nodup_admins w (admin_remove cfg env user w).2.
Proof.
  unfold nodup_admins, admin_list, admin_remove. munfold.
  case_bool_decide as Hmain; [done|].
  case_bool_decide as Hin; [done|].
  destruct (admins (admin_data (mem w))) as [l|] eqn:El; cbn; [|by rewrite ?El].
  destruct (list_remove_first (pretty user) l) as [l'|] eqn:Hl; cbn;
    [|by rewrite ?El].
  destruct (list_remove_first_Some _ _ _ Hl) as (l1 & l2 & -> & -> & _).
  intros Hnd. apply list.NoDup_app in Hnd as (H1 & H12 & H2).
  apply list.NoDup_cons in H2 as [_ H2].
  apply list.NoDup_app. split_and!; [done| |done].
  intros x Hx Hx2. apply (H12 x Hx). by right.
Qed.

Lemma step_nodup_admins cfg env w r : nodup_admins w (step cfg env w r).
Proof.
  unfold step.
  destruct r; cbn [handle];
    try solve [apply unchanged_admin_nodup,
                 (relates_elim (unchanged (λ w, admin_data (mem w))));
               unfold_handlers; relates_with unchanged_leaf].
  - apply (relates_elim nodup_admins), relates_checked;
      solve_preorder; [intros ?; by unfold nodup_admins|].
    intros w'. apply admin_add_nodup.
  - apply (relates_elim nodup_admins), relates_checked;
      solve_preorder; [intros ?; by unfold nodup_admins|].
    intros w'. apply admin_remove_nodup.
  - apply unchanged_admin_nodup. unfold unchanged, cpu_monitor.
    destruct (cpu_monitor_task w); [|done].
    destruct (cpu_monitor_active (mem w)); [|done].
    apply (relates_elim (unchanged (λ w, admin_data (mem w)))).
    unfold_handlers. relates_with unchanged_leaf.
Qed.

Lemma list_remove_first_None {A} `{EqDecision A} (x : A) l :
  list_remove_first x l = None → x ∉ l.
Proof.
  induction l as [|y l IH]; simpl; [intros _; apply not_elem_of_nil|].
  case_decide; [done|].
  destruct (list_remove_first x l); [done|].
  intros _. apply not_elem_of_cons. split; [congruence|by apply IH].
Qed.

Lemma admin_remove_not_listed cfg env user w :
  user ≠ MAIN_ADMIN_ID cfg →
  NoDup (admin_list (mem w)) →
  pretty user ∉ admin_list (mem (admin_remove cfg env user w).2).
Proof.
  intros Hne. unfold admin_list, admin_remove. munfold.
  rewrite bool_decide_eq_false_2 by (intros H; by apply (inj pretty) in H).
  case_bool_decide as Hin; munfold.
  { intros _ Hx. by apply Hin. }
  destruct (admins (admin_data (mem w))) as [l|] eqn:El; cbn;
    [|intros _ Hx; rewrite ?El in Hx; by apply elem_of_nil in Hx].
  destruct (list_remove_first (pretty user) l) as [l'|] eqn:Hl; cbn;
    [|intros _; rewrite ?El; by apply list_remove_first_None].
  destruct (list_remove_first_Some _ _ _ Hl) as (l1 & l2 & -> & -> & Hl1).
  intros Hnd Hx. apply list.NoDup_app in Hnd as (H1 & H12 & H2).
  apply list.NoDup_cons in H2 as [Hn2 _].
  apply elem_of_app in Hx as [Hx|Hx]; [|done].
  apply (H12 _ Hx). by left.
Qed.

(** X10. In a state reached from a duplicate-free admin list by any sequence of
    requests, [admin-remove] of anyone but the main admin leaves its target
    without admin rights: the one [list.remove] takes out the only
    occurrence. *)
Theorem admin_remove_revokes cfg env w0 rs user :
  NoDup (admin_list (mem w0)) →
  user ≠ MAIN_ADMIN_ID cfg →
  let w := run cfg env w0 rs in
  is_admin cfg user (mem (admin_remove cfg env user w).2) = false.
Proof.
  intros Hnd Hne w.
  assert (Hw : NoDup (admin_list (mem w))).
  { revert Hnd. apply (relates_run nodup_admins), step_nodup_admins. }
  pose proof (admin_remove_not_listed cfg env user w Hne Hw) as Hout.
  unfold is_admin. rewrite !bool_decide_eq_false_2; [done|exact Hout|].
  intros H. by apply (inj pretty) in H.
Qed.

Lemma admin_remove_revokes_witness :
  let w := run default_config quiet_env fresh_world
             [ AdminAdd 1210291131301101618 42;
               AdminAdd 1210291131301101618 43;
               AdminAdd 1210291131301101618 42 ] in
  is_admin default_config 42
    (mem (admin_remove default_config quiet_env 42 w).2) = false.
Proof.
  apply (admin_remove_revokes default_config quiet_env fresh_world
           [ AdminAdd 1210291131301101618 42;
             AdminAdd 1210291131301101618 43;
             AdminAdd 1210291131301101618 42 ] 42).
  - vm_compute. apply NoDup_singleton.
  - done.
Defined.

(** Without the hypothesis on the list the conclusion fails: an id that a
    loaded file lists twice is still an admin after one removal. *)
Example admin_remove_leaves_duplicate :
  let w := {| mem := {| vps_data := ∅;
                        admin_data := {| admins := Some ["42"; "42"] |};
                        port_data := port_data (mem fresh_world);
                        cpu_monitor_active := true |};
              disk := disk fresh_world; trace := []; save_log := [];
              cpu_monitor_task := TaskRunning |} in
  is_admin default_config 42
    (mem (admin_remove default_config quiet_env 42 w).2) = true.
Proof. vm_compute. reflexivity. Qed.

(** ** Create, then delete *)

(** Resolves the outcome of the next command to be run when every command
    succeeds. *)
Ltac next_command_done Hall :=
  match goal with
  | |- context [rtc ?env ?h ?c] =>
      lazymatch h with
      | context [rtc] => fail
      | _ => let o := fresh "o" in
             let Ho := fresh "Ho" in
             destruct (Hall h c) as [o Ho]; rewrite Ho; clear Ho
      end
  end.

(** A delete of an existing instance when every command succeeds. *)
Lemma delete_vps_done env user vps_number w vps_list v :
  (∀ h c, ∃ o, rtc env h c = Done o) →
  vps_data (mem w) !! pretty user = Some vps_list →
  1 ≤ vps_number →
  vps_list !! Z.to_nat (vps_number - 1) = Some v →
  let w' := (delete_vps env user vps_number w).2 in
  let rest := delete (Z.to_nat (vps_number - 1)) vps_list in
  vps_data (mem w')
  = (if decide (rest = []) then delete (pretty user) (vps_data (mem w))
     else <[pretty user := rest]> (vps_data (mem w)))
  ∧ admin_data (mem w') = admin_data (mem w)
  ∧ port_data (mem w') = port_data (mem w).
Proof.
  intros Hall El Hlo Ev. cbv zeta. unfold delete_vps. munfold. rewrite El.
  apply lookup_lt_Some in Ev as Hlen.
  rewrite (bool_decide_eq_false_2 (vps_number < 1)) by lia.
  rewrite (bool_decide_eq_false_2 (vps_number > _)) by lia.
  cbn [orb]. rewrite Ev. munfold.
  do 2 (next_command_done Hall; munfold).
  rewrite ?lookup_alter_eq, ?El. cbn [fmap option_fmap option_map].
  destruct (delete (Z.to_nat (vps_number - 1)) vps_list) as [|x rest] eqn:Ed;
    [rewrite decide_True by done|rewrite decide_False by done];
    munfold; (split_and!; [|done..]);
    apply map_eq; intros j;
    rewrite ?lookup_delete, ?lookup_insert, lookup_alter;
    repeat case_decide; subst; rewrite ?El; cbn; rewrite ?Ed; done.
Qed.

Lemma create_vps_done cfg env ram cpu disk user w :
  (∀ h c, ∃ o, rtc env h c = Done o) →
  0 < ram → 0 < cpu → 0 < disk →
  let user_id := pretty user in
  let old := default [] (vps_data (mem w) !! user_id) in
  let w' := (create_vps cfg env ram cpu disk user w).2 in
  ∃ t,
    vps_data (mem w')
    = <[user_id := old ++ [new_vps_info (derived_container_name user_id old)
                                        ram cpu disk t]]> (vps_data (mem w))
    ∧ admin_data (mem w') = admin_data (mem w)
    ∧ port_data (mem w') = port_data (mem w).
Proof.
  intros Hall Hram Hcpu Hdisk. cbv zeta. unfold create_vps.
  rewrite !bool_decide_eq_false_2 by lia. cbn [orb].
  set (uid := pretty user). munfold.
  destruct (vps_data (mem w) !! uid) as [l|] eqn:E; munfold;
    rewrite ?lookup_insert_eq, ?E; cbn [default from_option id];
    do 5 (next_command_done Hall; munfold);
    eexists; (split_and!; [|reflexivity..]);
    apply map_eq; intros j; rewrite lookup_alter, ?lookup_insert;
    repeat case_decide; subst; rewrite ?E, ?lookup_insert_eq; try done.
Qed.

Lemma delete_snoc_last {A} (l : list A) x : delete (length l) (l ++ [x]) = l.
Proof. induction l as [|y l IH]; simpl; [done|by rewrite IH]. Qed.

(** X11. Create an instance, then delete the instance just created (it is the
    last of the owner's list): when every command succeeds, the store is
    what it was before the two calls, except that an owner who had an empty
    list before has no entry after.  The admin registry and the port table
    are untouched. *)
Theorem create_delete_round_trip cfg env ram cpu disk user w :
  (∀ h c, ∃ o, rtc env h c = Done o) →
  0 < ram → 0 < cpu → 0 < disk →
  let user_id := pretty user in
  let old := default [] (vps_data (mem w) !! user_id) in
  let w1 := (create_vps cfg env ram cpu disk user w).2 in
  let w2 := (delete_vps env user (Z.of_nat (length old) + 1) w1).2 in
  vps_data (mem w2)
  = (if decide (old = []) then delete user_id (vps_data (mem w))
     else vps_data (mem w))
  ∧ admin_data (mem w2) = admin_data (mem w)
  ∧ port_data (mem w2) = port_data (mem w).
Proof.
  intros Hall Hram Hcpu Hdisk. cbv zeta.
  destruct (create_vps_done cfg env ram cpu disk user w Hall Hram Hcpu Hdisk)
    as (t & Hv & Ha & Hp).
  set (w1 := (create_vps cfg env ram cpu disk user w).2) in *.
  set (old := default [] (vps_data (mem w) !! pretty user)) in *.
  destruct (delete_vps_done env user (Z.of_nat (length old) + 1) w1
              (old ++ [new_vps_info (derived_container_name (pretty user) old)
                                    ram cpu disk t])
              (new_vps_info (derived_container_name (pretty user) old)
                            ram cpu disk t) Hall)
    as (Hv2 & Ha2 & Hp2).
  { by rewrite Hv, lookup_insert_eq. }
  { lia. }
  { replace (Z.to_nat (Z.of_nat (length old) + 1 - 1)) with (length old) by lia.
    by rewrite lookup_app_r, Nat.sub_diag by lia. }
  cbv zeta in Hv2.
  replace (Z.to_nat (Z.of_nat (length old) + 1 - 1)) with (length old)
    in Hv2 by lia.
  rewrite Hv2, Ha2, Hp2, Ha, Hp, Hv. split_and!; [|done..].
  rewrite delete_snoc_last.
  apply map_eq. intros j. repeat case_decide;
    rewrite ?lookup_delete, ?lookup_insert; repeat case_decide; try done.
  all: subst; unfold old in *;
    destruct (vps_data (mem w) !! pretty user); done.
Qed.

Lemma create_delete_round_trip_witness :
  let old := default [] (vps_data (mem one_vps_world) !! "7") in
  let w1 := (create_vps default_config quiet_env 4 2 20 7 one_vps_world).2 in
  let w2 := (delete_vps quiet_env 7 (Z.of_nat (length old) + 1) w1).2 in
  vps_data (mem w2)
  = (if decide (old = []) then delete "7" (vps_data (mem one_vps_world))
     else vps_data (mem one_vps_world))
  ∧ admin_data (mem w2) = admin_data (mem one_vps_world)
  ∧ port_data (mem w2) = port_data (mem one_vps_world).
Proof.
  apply (create_delete_round_trip default_config quiet_env 4 2 20 7
           one_vps_world); [|lia..].
  intros h c. by exists "ok".
Defined.

(** ** The admin checks *)

(** The author of a chat command; the two wake-ups have none. *)
Definition sent_by (r : request) : option Z :=
  match r with
  | CreateVps author _ _ _ _ | DeleteVps author _ _ | AdminAdd author _
  | AdminRemove author _ | PortsCommand author _ _ _
  | PortsAddUser author _ _ | CpuMonitorControl author _ => Some author
  | CpuMonitorWake | VpsMonitorWake => None
  end.

(** The commands that carry [@is_admin()] or [@is_main_admin()]. *)
Definition admin_only (r : request) : bool :=
  match r with
  | CreateVps _ _ _ _ _ | DeleteVps _ _ _ | AdminAdd _ _ | AdminRemove _ _
  | PortsAddUser _ _ _ | CpuMonitorControl _ _ => true
  | PortsCommand _ _ _ _ | CpuMonitorWake | VpsMonitorWake => false
  end.

(** A command sent by someone who is not an admin in [g]. *)
Definition outsider (cfg : Config) (g : Globals) (r : request) : Prop :=
  ∃ author, sent_by r = Some author ∧ is_admin cfg author g = false.

(** Everything but the table of active forwards and the log. *)
Definition protected (w : World)
  : gmap string (list vps) * admin_table * gmap string Z * bool * task_state :=
  (vps_data (mem w), admin_data (mem w), users (port_data (mem w)),
   cpu_monitor_active (mem w), cpu_monitor_task w).

(** The world after one more reply. *)
Definition replied (w : World) (evs : list event) : World :=
  {| mem := mem w; disk := disk w; trace := trace w ++ evs;
     save_log := save_log w; cpu_monitor_task := cpu_monitor_task w |}.

Lemma is_admin_protected cfg a w w' :
  protected w' = protected w → is_admin cfg a (mem w') = is_admin cfg a (mem w).
Proof. unfold protected, is_admin. intros [= _ -> _ _ _]. done. Qed.

Lemma step_denied cfg env w r :
  outsider cfg (mem w) r → admin_only r = true →
  step cfg env w r = replied w [Send Error "Access Denied"].
Proof.
  intros (a & Ha & Hno) Hr. unfold step.
  assert (Hmain : is_main_admin cfg a (mem w) = false).
  { unfold is_admin in Hno. apply orb_false_iff in Hno as [Hno _]. exact Hno. }
  destruct r; cbn [handle sent_by admin_only] in *; simplify_eq;
    unfold checked; munfold; rewrite ?Hno, ?Hmain; reflexivity.
Qed.

Lemma step_outsider cfg env w r :
  outsider cfg (mem w) r → protected (step cfg env w r) = protected w.
Proof.
  intros Hout. destruct (admin_only r) eqn:Hr.
  { by rewrite step_denied. }
  destruct Hout as (a & Ha & Hno). unfold step.
  destruct r; cbn [handle sent_by admin_only] in *; simplify_eq.
  apply (relates_elim (unchanged protected)).
  by unfold_handlers; relates_with unchanged_leaf.
Qed.

Lemma run_denied cfg env rs : ∀ w,
  Forall (outsider cfg (mem w)) rs →
  Forall (λ r, admin_only r = true) rs →
  run cfg env w rs
  = replied w ((λ _ : request, Send Error "Access Denied") <$> rs).
Proof.
  induction rs as [|r rs IH]; intros w Hout Hadm.
  { destruct w. unfold replied. cbn. by rewrite app_nil_r. }
  apply list.Forall_cons in Hout as [Hr Hout].
  apply list.Forall_cons in Hadm as [Ha Hadm].
  cbn [run foldl]. rewrite (step_denied cfg env w r Hr Ha).
  change (foldl (step cfg env) ?w0 rs) with (run cfg env w0 rs).
  rewrite IH by done. unfold replied. cbn. by rewrite <- app_assoc.
Qed.

(** X12. The six commands behind an admin check (create, delete-vps,
    ports-add-user and cpu-monitor behind [is_admin], admin-add and
    admin-remove behind [is_main_admin]) and the ports command, sent in any
    number and order by users who are not admins.  Each of the six is
    answered "Access Denied" and does nothing else: no command is run, no
    table changes, nothing is saved.  The ports commands among them can
    change the table of active forwards and nothing else: the instance
    store, the admin list, the port quotas and the state of the host
    monitor are as before.  Commands without an admin check (share-user,
    share-ruser, manage) are not among the seven. *)
Theorem admin_checks_hold cfg env w rs :
  Forall (outsider cfg (mem w)) rs →
  let w' := run cfg env w rs in
  protected w' = protected w
  ∧ (Forall (λ r, admin_only r = true) rs →
     w' = replied w ((λ _ : request, Send Error "Access Denied") <$> rs)).
Proof.
  intros Hrs. cbv zeta. split; [|by apply run_denied].
  revert w Hrs. induction rs as [|r rs IH]; intros w Hrs; [done|].
  apply list.Forall_cons in Hrs as [Hr Hrs]. cbn [run foldl].
  pose proof (step_outsider cfg env w r Hr) as Hs.
  etrans; [|exact Hs]. apply IH.
  eapply list.Forall_impl; [exact Hrs|].
  intros r' (a & Ha & Hno). exists a. split; [done|].
  by rewrite (is_admin_protected cfg a w (step cfg env w r)).
Qed.

Lemma admin_checks_hold_witness :
  let rs := [ CreateVps 7 64 32 500 7;
              AdminAdd 7 7;
              PortsAddUser 7 100 7;
              DeleteVps 8 7 1;
              CpuMonitorControl 8 "disable" ] in
  let w' := run default_config quiet_env one_vps_world rs in
  protected w' = protected one_vps_world
  ∧ (Forall (λ r, admin_only r = true) rs →
     w' = replied one_vps_world
            ((λ _ : request, Send Error "Access Denied") <$> rs)).
Proof.
  apply (admin_checks_hold default_config quiet_env one_vps_world).
  repeat (constructor; [eexists; split; [reflexivity|vm_compute; reflexivity]|]).
  constructor.
Defined.

(** User 7, who is no admin, is refused five times and adds one forward. *)
Example refused_but_forwarding :
  let w' := run default_config quiet_env one_vps_world
              [ CreateVps 7 64 32 500 7;
                PortsCommand 7 "add" (Some 1) (Some 22);
                AdminAdd 7 7 ] in
  protected w' = protected one_vps_world
  ∧ length <$> active_ports (port_data (mem w')) !! "7" = Some 1%nat
  ∧ list.last (trace w') = Some (Send Error "Access Denied").
Proof. vm_compute. done. Qed.

(** [share-user] carries no admin check: the same user changes the
    instance store with it. *)
Example share_user_needs_no_admin :
  is_admin default_config 7 (mem web_world) = false
  ∧ shared_with
      <$> vps_at (share_user quiet_env 7 8 1 web_world).2 "7" 0
    = Some (Some ["8"])
  ∧ shared_with <$> vps_at web_world "7" 0 = Some (Some []).
Proof. vm_compute. done. Qed.

(** ** What only create and delete can change *)











(** ** The search by name *)

(** The name [name] is held by the record at index [i] of [uid]'s list, which
    is the first of that name there, and by no record of another owner. *)
Definition held_at (vd : gmap string (list vps)) (name uid : string)
  (i : nat) (v : vps) : Prop :=
  vd !! uid ≫= first_named name = Some (i, v)
  ∧ map_Forall (λ u l, u ≠ uid → first_named name l = None) vd.

Lemma scan_skip name items body :
  Forall (λ '(_, l), first_named name l = None) items →
  scan name items body = ret Next.
Proof.
  induction items as [|[u l] items IH]; intros H; [done|].
  apply list.Forall_cons in H as [Hl H]. cbn. rewrite Hl. by apply IH.
Qed.

Lemma scan_split name l1 uid lst l2 i v body w :
  Forall (λ '(_, l), first_named name l = None) l1 →
  Forall (λ '(_, l), first_named name l = None) l2 →
  first_named name lst = Some (i, v) →
  scan name (l1 ++ (uid, lst) :: l2) body w = body uid i v w.
Proof.
  intros H1 H2 Hv. induction l1 as [|[u l] l1 IH].
  - cbn. rewrite Hv, (scan_skip _ _ _ H2). unfold bind, ret.
    destruct (body uid i v w) as [[[]|e] w']; done.
  - apply list.Forall_cons in H1 as [Hl H1]. cbn. rewrite Hl. by apply IH.
Qed.

Lemma held_at_split vd name uid i v :
  held_at vd name uid i v →
  ∃ l1 lst l2,
    map_to_list vd = l1 ++ (uid, lst) :: l2
    ∧ vd !! uid = Some lst
    ∧ first_named name lst = Some (i, v)
    ∧ Forall (λ '(_, l), first_named name l = None) l1
    ∧ Forall (λ '(_, l), first_named name l = None) l2.
Proof.
  intros [Hv Hothers].
  destruct (vd !! uid) as [lst|] eqn:Hlst; [cbn in Hv|done].
  pose proof (NoDup_fst_map_to_list vd) as Hnd.
  assert (Hin : (uid, lst) ∈ map_to_list vd) by by apply elem_of_map_to_list.
  apply list_elem_of_split in Hin as (l1 & l2 & Hsplit).
  rewrite Hsplit in Hnd.
  assert (Hall : ∀ u l, (u, l) ∈ l1 ++ l2 → first_named name l = None).
  { intros u l Hul. apply (Hothers u l).
    - apply elem_of_map_to_list. rewrite Hsplit.
      rewrite elem_of_app, elem_of_cons. rewrite elem_of_app in Hul. tauto.
    - intros ->. rewrite fmap_app, fmap_cons in Hnd. cbn in Hnd.
      apply list.NoDup_app in Hnd as (_ & H12 & H2).
      apply list.NoDup_cons in H2 as [Hn2 _].
      apply elem_of_app in Hul as [Hul|Hul].
      + apply (H12 uid); [|by left].
        apply list_elem_of_fmap. by exists (uid, l).
      + apply Hn2. apply list_elem_of_fmap. by exists (uid, l). }
  exists l1, lst, l2. split_and!; [done..| |];
    apply list.Forall_forall; intros [u l] Hul;
    apply (Hall u l), elem_of_app; auto.
Qed.

Lemma scan_held vd name uid i v body w :
  held_at vd name uid i v →
  scan name (map_to_list vd) body w = body uid i v w.
Proof.
  intros (l1 & lst & l2 & -> & _ & Hv & H1 & H2)%held_at_split.
  by apply scan_split.
Qed.

Lemma find_named_held vd name uid i v :
  held_at vd name uid i v → find_named name (map_to_list vd) = Some (uid, v).
Proof.
  intros (l1 & lst & l2 & -> & _ & Hv & H1 & _)%held_at_split.
  induction l1 as [|[u l] l1 IH]; cbn.
  - by rewrite Hv.
  - apply list.Forall_cons in H1 as [Hl H1]. rewrite Hl. by apply IH.
Qed.

Lemma find_named_absent vd name :
  map_Forall (λ _ l, first_named name l = None) vd →
  find_named name (map_to_list vd) = None.
Proof.
  intros H.
  assert (Hall : Forall (λ '(_, l), first_named name l = None) (map_to_list vd)).
  { apply list.Forall_forall. intros [u l] Hul.
    apply elem_of_map_to_list in Hul. by apply (H u l). }
  induction Hall as [|[u l] items Hl _ IH]; cbn; [done|]. by rewrite Hl.
Qed.

Lemma scan_absent vd name body :
  map_Forall (λ _ l, first_named name l = None) vd →
  scan name (map_to_list vd) body = ret Next.
Proof.
  intros H. apply scan_skip, list.Forall_forall. intros [u l] Hul.
  apply elem_of_map_to_list in Hul. by apply (H u l).
Qed.

Lemma scan_store_held {A} name body (k : flow → M A) w uid i v :
  held_at (vps_data (mem w)) name uid i v →
  (let* g := get in
   let* f := scan name (map_to_list (vps_data g)) body in k f) w
  = (let* f := body uid i v in k f) w.
Proof. intros H. unfold bind, get. by rewrite (scan_held _ _ _ _ _ _ _ H). Qed.

Lemma scan_store_absent {A} name body (k : flow → M A) w :
  map_Forall (λ _ l, first_named name l = None) (vps_data (mem w)) →
  (let* g := get in
   let* f := scan name (map_to_list (vps_data g)) body in k f) w
  = k Next w.
Proof. intros H. unfold bind, get. by rewrite (scan_absent _ _ _ H). Qed.

(** ** Suspension by an admin *)


(** X14. For a name held by one record.  A record that is not running is left
    alone with the reply "Cannot Suspend" and no command.  Otherwise the
    stop command is run; if it fails the reply is "Suspend Failed" and
    nothing is changed or saved; if it succeeds the record gets status
    "suspended", the suspended flag, and one more history entry that carries
    the given reason and the admin's name and id, the store is saved, and
    the owner is notified before the reply "VPS Suspended".  No other record
    and no other table is touched. *)
Theorem suspend_vps_spec env author_name author name reason w uid i v :
  held_at (vps_data (mem w)) name uid i v →
  let w' := (suspend_vps env author_name author name reason w).2 in
  let stop := "RTC stop " +:+ name in
  if bool_decide (status v = Some "running") then
    match rtc env (trace w) stop with
    | Done o =>
      let t1 := trace w ++ [Exec stop (Done o)] in
      let entry := {| time := now env t1; reason := reason;
                      by_ := author_name +:+ " (" +:+ pretty author +:+ ")" |} in
      vps_data (mem w')
      = alter (alter (auto_suspend entry) i) uid (vps_data (mem w))
      ∧ admin_data (mem w') = admin_data (mem w)
      ∧ port_data (mem w') = port_data (mem w)
      ∧ save_log w' = save_log w ++ [disk_write env (save_log w)]
      ∧ trace w' = t1 ++ [Clock; Dm uid; Send Success "VPS Suspended"]
    | Failed e =>
      mem w' = mem w ∧ save_log w' = save_log w
      ∧ trace w' = trace w ++ [Exec stop (Failed e);
                               Send Error "Suspend Failed"]
    end
  else
    mem w' = mem w ∧ save_log w' = save_log w
    ∧ trace w' = trace w ++ [Send Error "Cannot Suspend"].
Proof.
  intros Hheld. cbv zeta. unfold suspend_vps.
  rewrite (scan_store_held _ _ _ _ _ _ _ Hheld).
  case_bool_decide as Hrun.
  - rewrite bool_decide_eq_false_2 by (by intros H).
    munfold. destruct (rtc env (trace w) _) as [o|e]; munfold; trace_eq.
  - rewrite bool_decide_eq_true_2 by done. munfold. trace_eq.
Qed.

Lemma web1_held : held_at (vps_data (mem web_world)) "web-1" "7" 0 web1.
Proof.
  split; [reflexivity|]. cbn. apply map_Forall_singleton. by intros [].
Qed.



Lemma suspend_vps_spec_witness :
  let w' := (suspend_vps quiet_env "root" 1210291131301101618 "web-1"
                         "maintenance" web_world).2 in
  let stop := "RTC stop " +:+ "web-1" in
  if bool_decide (status web1 = Some "running") then
    match rtc quiet_env (trace web_world) stop with
    | Done o =>
      let t1 := trace web_world ++ [Exec stop (Done o)] in
      let entry := {| time := now quiet_env t1; reason := "maintenance";
                      by_ := "root" +:+ " (" +:+ pretty 1210291131301101618
                             +:+ ")" |} in
      vps_data (mem w')
      = alter (alter (auto_suspend entry) 0%nat) "7" (vps_data (mem web_world))
      ∧ admin_data (mem w') = admin_data (mem web_world)
      ∧ port_data (mem w') = port_data (mem web_world)
      ∧ save_log w' = save_log web_world
                      ++ [disk_write quiet_env (save_log web_world)]
      ∧ trace w' = t1 ++ [Clock; Dm "7"; Send Success "VPS Suspended"]
    | Failed e =>
      mem w' = mem web_world ∧ save_log w' = save_log web_world
      ∧ trace w' = trace web_world ++ [Exec stop (Failed e);
                                       Send Error "Suspend Failed"]
    end
  else
    mem w' = mem web_world ∧ save_log w' = save_log web_world
    ∧ trace w' = trace web_world ++ [Send Error "Cannot Suspend"].
Proof.
  exact (suspend_vps_spec quiet_env "root" 1210291131301101618 "web-1"
           "maintenance" web_world "7" 0%nat web1 web1_held).
Defined.

(** X15. For a name held by one record.  A record whose suspended flag is not
    set is left alone with the reply "Not Suspended".  Otherwise the record
    is marked running and not suspended before the start command is run,
    and stays so whatever the outcome; its history is not touched.  If the
    start succeeds the store is saved and the reply is "VPS Unsuspended".  If
    the start fails nothing is saved, and the replies are "Start Failed"
    followed by "Not Found". *)
Theorem unsuspend_vps_spec env name w uid i v :
  held_at (vps_data (mem w)) name uid i v →
  let w' := (unsuspend_vps env name w).2 in
  let start := "RTC start " +:+ name in
  if default false (suspended v) then
    vps_data (mem w') = alter (alter mark_running i) uid (vps_data (mem w))
    ∧ admin_data (mem w') = admin_data (mem w)
    ∧ port_data (mem w') = port_data (mem w)
    ∧ match rtc env (trace w) start with
      | Done o =>
        save_log w' = save_log w ++ [disk_write env (save_log w)]
        ∧ trace w' = trace w ++ [Exec start (Done o);
                                 Send Success "VPS Unsuspended"]
      | Failed e =>
        save_log w' = save_log w ∧ disk w' = disk w
        ∧ trace w' = trace w ++ [Exec start (Failed e);
                                 Send Error "Start Failed";
                                 Send Error "Not Found"]
      end
  else
    mem w' = mem w ∧ save_log w' = save_log w
    ∧ trace w' = trace w ++ [Send Error "Not Suspended"].
Proof.
  intros Hheld. cbv zeta. unfold unsuspend_vps.
  rewrite (scan_store_held _ _ _ _ _ _ _ Hheld).
  destruct (default false (suspended v)); cbn [negb]; munfold; [|trace_eq].
  destruct (rtc env (trace w) _) as [o|e]; munfold; trace_eq.
Qed.

(** [web-1] after its suspension by the guardian. *)
Definition suspended_world : World :=
  step default_config (hot_env (Done "ok")) web_world VpsMonitorWake.

Definition web1_suspended : vps :=
  auto_suspend
    {| time := "2024-01-01T00:10:00";
       reason := "High resource usage: CPU 92.0%, RAM 40.0% (threshold: 90% CPU / 90% RAM)";
       by_ := "RathamCloud Auto-System" |} web1.

Lemma web1_suspended_held :
  held_at (vps_data (mem suspended_world)) "web-1" "7" 0 web1_suspended.
Proof.
  split; [vm_compute; reflexivity|].
  replace (vps_data (mem suspended_world)) with
    ({[ "7" := [web1_suspended] ]} : gmap string (list vps))
    by (apply map_eq; intros j; vm_compute; reflexivity).
  apply map_Forall_singleton. by intros [].
Qed.

Lemma unsuspend_vps_spec_witness :
  let env := failing_env (λ _, true) "Error: not found" in
  let w' := (unsuspend_vps env "web-1" suspended_world).2 in
  let start := "RTC start " +:+ "web-1" in
  if default false (suspended web1_suspended) then
    vps_data (mem w')
    = alter (alter mark_running 0%nat) "7" (vps_data (mem suspended_world))
    ∧ admin_data (mem w') = admin_data (mem suspended_world)
    ∧ port_data (mem w') = port_data (mem suspended_world)
    ∧ match rtc env (trace suspended_world) start with
      | Done o =>
        save_log w' = save_log suspended_world
                      ++ [disk_write env (save_log suspended_world)]
        ∧ trace w' = trace suspended_world
                     ++ [Exec start (Done o); Send Success "VPS Unsuspended"]
      | Failed e =>
        save_log w' = save_log suspended_world
        ∧ disk w' = disk suspended_world
        ∧ trace w' = trace suspended_world
                     ++ [Exec start (Failed e); Send Error "Start Failed";
                         Send Error "Not Found"]
      end
  else
    mem w' = mem suspended_world ∧ save_log w' = save_log suspended_world
    ∧ trace w' = trace suspended_world ++ [Send Error "Not Suspended"].
Proof.
  exact (unsuspend_vps_spec (failing_env (λ _, true) "Error: not found")
           "web-1" suspended_world "7" 0%nat web1_suspended
           web1_suspended_held).
Defined.

(** The failure case on the scenario: the container did not start, yet the
    record in memory reads running and not suspended, while the file still
    holds the suspended record. *)
Example unsuspend_start_failure :
  let env := failing_env (λ _, true) "Error: not found" in
  let w' := (unsuspend_vps env "web-1" suspended_world).2 in
  vps_at w' "7" 0 = Some (mark_running web1_suspended)
  ∧ monitored (mark_running web1_suspended) = true
  ∧ vps_file (disk w') = Json {[ "7" := [web1_suspended] ]}.
Proof. vm_compute. done. Qed.

(** X16. A name that no record holds: both commands only reply "Not Found". *)
Theorem unknown_name_is_rejected env author_name author name reason w :
  map_Forall (λ _ l, first_named name l = None) (vps_data (mem w)) →
  let not_found :=
    {| mem := mem w; disk := disk w;
       trace := trace w ++ [Send Error "Not Found"];
       save_log := save_log w; cpu_monitor_task := cpu_monitor_task w |} in
  (suspend_vps env author_name author name reason w).2 = not_found
  ∧ (unsuspend_vps env name w).2 = not_found.
Proof.
  intros Habs. cbv zeta. unfold suspend_vps, unsuspend_vps.
  rewrite !(scan_store_absent _ _ _ _ Habs). done.
Qed.

Lemma unknown_name_is_rejected_witness :
  let w := web_world in
  let not_found :=
    {| mem := mem w; disk := disk w;
       trace := trace w ++ [Send Error "Not Found"];
       save_log := save_log w; cpu_monitor_task := cpu_monitor_task w |} in
  (suspend_vps quiet_env "root" 1 "web-2" "maintenance" w).2 = not_found
  ∧ (unsuspend_vps quiet_env "web-2" w).2 = not_found.
Proof.
  apply (unknown_name_is_rejected quiet_env "root" 1 "web-2" "maintenance"
           web_world).
  cbn. apply map_Forall_singleton. reflexivity.
Defined.

(** ** Suspend, then unsuspend *)

Lemma first_named_alter name f i lst v :
  (∀ x, container_name (f x) = container_name x) →
  first_named name lst = Some (i, v) →
  first_named name (alter f i lst) = Some (i, f v).
Proof.
  intros Hf. unfold first_named. rewrite !list_find_Some.
  intros (Hi & Hv & Hlt). split_and!.
  - rewrite list_lookup_alter, decide_True by done. by rewrite Hi.
  - by rewrite Hf.
  - intros j y Hj Hji. rewrite list_lookup_alter, decide_False in Hj by lia.
    by apply (Hlt j y).
Qed.

Lemma held_at_alter vd name uid i v f :
  (∀ x, container_name (f x) = container_name x) →
  held_at vd name uid i v →
  held_at (alter (alter f i) uid vd) name uid i (f v).
Proof.
  intros Hf [Hv Hothers]. split.
  - rewrite lookup_alter_eq. destruct (vd !! uid) as [lst|]; [cbn in *|done].
    by apply first_named_alter.
  - intros u l Hl Hne. rewrite lookup_alter_ne in Hl by done.
    by apply (Hothers u l).
Qed.

Lemma suspend_vps_done env author_name author name why w uid i v o :
  held_at (vps_data (mem w)) name uid i v →
  status v = Some "running" →
  rtc env (trace w) ("RTC stop " +:+ name) = Done o →
  let entry :=
    {| time := now env (trace w ++ [Exec ("RTC stop " +:+ name) (Done o)]);
       reason := why;
       by_ := author_name +:+ " (" +:+ pretty author +:+ ")" |} in
  vps_data (mem (suspend_vps env author_name author name why w).2)
  = alter (alter (auto_suspend entry) i) uid (vps_data (mem w)).
Proof.
  intros Hheld Hrun Ho. cbv zeta. unfold suspend_vps.
  rewrite (scan_store_held _ _ _ _ _ _ _ Hheld).
  rewrite bool_decide_eq_false_2 by (by intros H).
  munfold. rewrite Ho. by munfold.
Qed.

Lemma unsuspend_vps_store env name w uid i v :
  held_at (vps_data (mem w)) name uid i v →
  default false (suspended v) = true →
  vps_data (mem (unsuspend_vps env name w).2)
  = alter (alter mark_running i) uid (vps_data (mem w)).
Proof.
  intros Hheld Hs. unfold unsuspend_vps.
  rewrite (scan_store_held _ _ _ _ _ _ _ Hheld).
  rewrite Hs. cbn [negb]. munfold.
  by destruct (rtc env (trace w) _); munfold.
Qed.

(** X17. A suspension by an admin followed by an unsuspension of the same
    instance, when both commands succeed: the record is as it was before,
    running and not suspended, except that its history holds one more
    entry, the one of the suspension; every other record is as before. *)
Theorem suspend_unsuspend_round_trip env author_name author name why
    w uid i v :
  (∀ h c, ∃ o, rtc env h c = Done o) →
  held_at (vps_data (mem w)) name uid i v →
  status v = Some "running" →
  let w1 := (suspend_vps env author_name author name why w).2 in
  let w2 := (unsuspend_vps env name w1).2 in
  ∃ entry,
    reason entry = why
    ∧ by_ entry = author_name +:+ " (" +:+ pretty author +:+ ")"
    ∧ vps_data (mem w2)
      = alter (alter (λ v, mark_running (auto_suspend entry v)) i) uid
              (vps_data (mem w))
    ∧ mark_running (auto_suspend entry v)
      = {| container_name := container_name v; ram := ram v; cpu := cpu v;
           storage := storage v; config := config v;
           status := Some "running"; suspended := Some false;
           suspension_history :=
             Some (default [] (suspension_history v) ++ [entry]);
           created_at := created_at v; shared_with := shared_with v |}.
Proof.
  intros Hall Hheld Hrun. cbv zeta.
  destruct (Hall (trace w) ("RTC stop " +:+ name)) as [o Ho].
  pose proof (suspend_vps_done env author_name author name why w uid i v o
                Hheld Hrun Ho) as Hv1.
  cbv zeta in Hv1.
  set (w1 := (suspend_vps env author_name author name why w).2) in *.
  set (entry := {| time := _; reason := why; by_ := _ |}) in Hv1.
  assert (Hheld1 : held_at (vps_data (mem w1)) name uid i (auto_suspend entry v)).
  { rewrite Hv1. by apply held_at_alter. }
  pose proof (unsuspend_vps_store env name w1 uid i _ Hheld1 eq_refl) as Hv2.
  exists entry. split_and!; [done|done| |done].
  rewrite Hv2, Hv1, alter_alter_eq.
  apply map_eq. intros j. rewrite !lookup_alter.
  destruct (decide (uid = j)); [|done].
  destruct (vps_data (mem w) !! uid) as [l|]; [cbn|done].
  f_equal. apply list_alter_alter_eq.
Qed.

Lemma suspend_unsuspend_round_trip_witness :
  let w1 := (suspend_vps quiet_env "root" 1210291131301101618 "web-1"
                         "maintenance" web_world).2 in
  let w2 := (unsuspend_vps quiet_env "web-1" w1).2 in
  ∃ entry,
    reason entry = "maintenance"
    ∧ by_ entry = "root" +:+ " (" +:+ pretty 1210291131301101618 +:+ ")"
    ∧ vps_data (mem w2)
      = alter (alter (λ v, mark_running (auto_suspend entry v)) 0%nat) "7"
              (vps_data (mem web_world))
    ∧ mark_running (auto_suspend entry web1)
      = {| container_name := container_name web1; ram := ram web1;
           cpu := cpu web1; storage := storage web1; config := config web1;
           status := Some "running"; suspended := Some false;
           suspension_history :=
             Some (default [] (suspension_history web1) ++ [entry]);
           created_at := created_at web1; shared_with := shared_with web1 |}.
Proof.
  apply (suspend_unsuspend_round_trip quiet_env "root" 1210291131301101618
           "web-1" "maintenance" web_world "7" 0%nat web1).
  - intros h c. by exists "ok".
  - exact web1_held.
  - reflexivity.
Defined.

(** ** Restart and migration *)

(** What the loop of [restart_vps] and [migrate_vps] does to one list. *)
Definition restart_first (name : string) (lst : list vps) : list vps :=
  match first_named name lst with
  | None => lst
  | Some (i, _) => alter mark_running i lst
  end.

Lemma mark_loop env name items w :
  NoDup items.*1 →
  (∀ u l, (u, l) ∈ items → vps_data (mem w) !! u = Some l) →
  let r :=
    for_each items
      (λ '(user_id, vps_list),
         match first_named name vps_list with
         | None => ret tt
         | Some (i, _) =>
           let* g := get in
           set_vps_data (alter (alter mark_running i) user_id (vps_data g)) >>
           save_data env
         end) w in
  r.1 = Ret tt
  ∧ (∀ u, vps_data (mem r.2) !! u
          = if decide (u ∈ items.*1)
            then restart_first name <$> vps_data (mem w) !! u
            else vps_data (mem w) !! u)
  ∧ admin_data (mem r.2) = admin_data (mem w)
  ∧ port_data (mem r.2) = port_data (mem w)
  ∧ trace r.2 = trace w
  ∧ cpu_monitor_task r.2 = cpu_monitor_task w.
Proof.
  revert w. induction items as [|[u0 l0] items IH]; intros w Hnd Hin; cbv zeta.
  { cbn. split_and!; done. }
  rewrite fmap_cons in Hnd. cbn [fst] in Hnd.
  apply list.NoDup_cons in Hnd as [Hu0 Hnd].
  assert (Hl0 : vps_data (mem w) !! u0 = Some l0) by (apply Hin; by left).
  cbn [for_each].
  destruct (first_named name l0) as [[i v]|] eqn:Hf.
  - munfold.
    match goal with
    | |- context [for_each items ?body ?w1] =>
        specialize (IH w1 Hnd)
    end.
    cbv zeta in IH. destruct IH as (Hr & Hv & Ha & Hp & Ht & Hc).
    { intros u l Hul. cbn.
      assert (u0 ≠ u).
      { intros <-. apply Hu0. apply list_elem_of_fmap. by exists (u0, l). }
      rewrite lookup_alter_ne by done. apply Hin. by right. }
    split_and!; try done. intros u. rewrite Hv. cbn [mem vps_data].
    destruct (decide (u = u0)) as [->|Hne].
    + rewrite decide_False by done. rewrite (decide_True (P := u0 ∈ _)) by by left.
      rewrite lookup_alter_eq, Hl0. cbn. unfold restart_first. by rewrite Hf.
    + rewrite lookup_alter_ne by done.
      destruct (decide (u ∈ items.*1)) as [Hu|Hu].
      * rewrite decide_True; [done|by right].
      * rewrite decide_False; [done|]. by apply not_elem_of_cons.
  - munfold.
    match goal with
    | |- context [for_each items ?body ?w1] =>
        specialize (IH w1 Hnd)
    end.
    cbv zeta in IH. destruct IH as (Hr & Hv & Ha & Hp & Ht & Hc).
    { intros u l Hul. apply Hin. by right. }
    split_and!; try done. intros u. rewrite Hv.
    destruct (decide (u = u0)) as [->|Hne].
    + rewrite decide_False by done. rewrite (decide_True (P := u0 ∈ _)) by by left.
      rewrite Hl0. cbn. unfold restart_first. by rewrite Hf.
    + destruct (decide (u ∈ items.*1)) as [Hu|Hu].
      * rewrite decide_True; [done|by right].
      * rewrite decide_False; [done|]. by apply not_elem_of_cons.
Qed.

Lemma mark_restarted_spec env name w :
  let r := mark_restarted env name w in
  r.1 = Ret tt
  ∧ vps_data (mem r.2) = restart_first name <$> vps_data (mem w)
  ∧ admin_data (mem r.2) = admin_data (mem w)
  ∧ port_data (mem r.2) = port_data (mem w)
  ∧ trace r.2 = trace w
  ∧ cpu_monitor_task r.2 = cpu_monitor_task w.
Proof.
  cbv zeta. unfold mark_restarted. unfold bind at 1, get at 1.
  unfold bind at 1, get at 1.
  destruct (mark_loop env name (map_to_list (vps_data (mem w))) w)
    as (Hr & Hv & Hrest).
  { apply NoDup_fst_map_to_list. }
  { intros u l. apply elem_of_map_to_list. }
  split_and!; try tauto.
  apply map_eq. intros u. rewrite Hv, lookup_fmap.
  case_decide as Hu; [done|].
  destruct (vps_data (mem w) !! u) as [l|] eqn:Hl; [|done].
  exfalso. apply Hu. apply list_elem_of_fmap. exists (u, l).
  split; [done|]. by apply elem_of_map_to_list.
Qed.

Ltac after_mark_restarted env name :=
  match goal with
  | |- context [mark_restarted env name ?w1] =>
      let H := fresh "Hmark" in
      pose proof (mark_restarted_spec env name w1) as H; cbv zeta in H;
      destruct (mark_restarted env name w1) as [[[]|?] ?];
      cbn [fst snd mem vps_data admin_data port_data trace cpu_monitor_task]
        in H;
      destruct H as (? & ? & ? & ? & ? & ?); [|done]
  end.


(** X18. For every call of restart.  The restart command is run for the given
    name, whether or not the store knows it.  If it fails the reply is
    "Restart Failed" and nothing changes.  If it succeeds, in every owner's
    list the first record of that name gets status "running" and loses its
    suspended flag, and nothing else changes: a suspension is lifted this
    way without a trace in the record's history. *)
Theorem restart_vps_spec env name w :
  let w' := (restart_vps env name w).2 in
  let cmd := "RTC restart " +:+ name in
  let t0 := trace w ++ [Send Info "Restarting VPS"] in
  match rtc env t0 cmd with
  | Done o =>
    vps_data (mem w') = restart_first name <$> vps_data (mem w)
    ∧ admin_data (mem w') = admin_data (mem w)
    ∧ port_data (mem w') = port_data (mem w)
    ∧ trace w' = t0 ++ [Exec cmd (Done o); Send Success "VPS Restarted"]
  | Failed e =>
    mem w' = mem w ∧ save_log w' = save_log w
    ∧ trace w' = t0 ++ [Exec cmd (Failed e); Send Error "Restart Failed"]
  end
  ∧ ∀ v, suspension_history (mark_running v) = suspension_history v
         ∧ monitored (mark_running v) = true.
Proof.
  split; [|done]. cbv zeta. unfold restart_vps. munfold.
  destruct (rtc env _ _) as [o|e]; munfold; [|trace_eq].
  after_mark_restarted env name. munfold.
  split_and!; try done.
  match goal with H : trace _ = _ |- _ => rewrite H end.
  rewrite <- ?app_assoc. reflexivity.
Qed.

(** The five commands of a migration, in the order they are run. *)
Definition migration_commands (name target_pool : string) (time_time : Z)
  : list string :=
  let temp_name := "RathamCloud-" +:+ name +:+ "-temp-" +:+ pretty time_time in
  [ "RTC stop " +:+ name;
    "RTC copy " +:+ name +:+ " " +:+ temp_name +:+ " --storage " +:+ target_pool;
    "RTC delete " +:+ name +:+ " --force";
    "RTC rename " +:+ temp_name +:+ " " +:+ name;
    "RTC start " +:+ name ].


(** X19. For every call of migrate.  The commands stop, copy to a temporary
    name in the target pool, force-delete of the original, rename of the
    copy, and start are run in this order, each only if all the earlier
    ones succeeded; in particular the original is deleted only after the
    copy succeeded.  If one fails, no later command is run, the reply is
    "Migration Failed" and the store is neither changed nor saved, whatever
    was done to the containers so far.  If all five succeed, in every owner's
    list the first record of that name is marked running and not suspended,
    and the reply is "VPS Migrated". *)
Theorem migrate_vps_spec env name target_pool time_time w :
  let w' := (migrate_vps env name target_pool time_time w).2 in
  let t0 := trace w ++ [Send Info "Migrating VPS"] in
  ∃ (outs : list string) (r : exec_result),
    (length outs < 5)%nat
    ∧ match r with
      | Failed e =>
        mem w' = mem w ∧ save_log w' = save_log w
        ∧ trace w'
          = t0 ++ zip_with Exec (migration_commands name target_pool time_time)
                     ((Done <$> outs) ++ [r])
               ++ [Send Error "Migration Failed"]
      | Done o =>
        length outs = 4%nat
        ∧ vps_data (mem w') = restart_first name <$> vps_data (mem w)
        ∧ admin_data (mem w') = admin_data (mem w)
        ∧ port_data (mem w') = port_data (mem w)
        ∧ trace w'
          = t0 ++ zip_with Exec (migration_commands name target_pool time_time)
                     ((Done <$> outs) ++ [r])
               ++ [Send Success "VPS Migrated"]
      end.
Proof.
  cbv zeta. unfold migrate_vps. munfold.
  destruct (rtc env (trace w ++ [_]) _) as [o1|e1] eqn:E1; munfold;
    [|exists [], (Failed e1); cbn; split; [lia|trace_eq]].
  destruct (rtc env ((trace w ++ [_]) ++ [_]) _) as [o2|e2] eqn:E2; munfold;
    [|exists [o1], (Failed e2); cbn; split; [lia|trace_eq]].
  destruct (rtc env (((trace w ++ [_]) ++ [_]) ++ [_]) _) as [o3|e3] eqn:E3;
    munfold; [|exists [o1; o2], (Failed e3); cbn; split; [lia|trace_eq]].
  destruct (rtc env ((((trace w ++ [_]) ++ [_]) ++ [_]) ++ [_]) _)
    as [o4|e4] eqn:E4;
    munfold; [|exists [o1; o2; o3], (Failed e4); cbn; split; [lia|trace_eq]].
  destruct (rtc env (((((trace w ++ [_]) ++ [_]) ++ [_]) ++ [_]) ++ [_]) _)
    as [o5|e5] eqn:E5;
    munfold; [|exists [o1; o2; o3; o4], (Failed e5); cbn; split; [lia|trace_eq]].
  clear E1 E2 E3 E4 E5.
  after_mark_restarted env name. munfold.
  exists [o1; o2; o3; o4], (Done o5). cbn. split; [lia|].
  split_and!; try done.
  match goal with H : trace _ = _ |- _ => rewrite H end.
  rewrite <- ?app_assoc. reflexivity.
Qed.

(** The rename fails after the original was deleted: the instance is gone
    under its name, and the store still lists it as it was. *)
Example migrate_rename_fails :
  let env := failing_env (String.prefix "RTC rename") "Error: exists" in
  let w' := (migrate_vps env "web-1" "fast" 1700000000 web_world).2 in
  trace w'
  = [ Send Info "Migrating VPS";
      Exec "RTC stop web-1" (Done "ok");
      Exec "RTC copy web-1 RathamCloud-web-1-temp-1700000000 --storage fast"
           (Done "ok");
      Exec "RTC delete web-1 --force" (Done "ok");
      Exec "RTC rename RathamCloud-web-1-temp-1700000000 web-1"
           (Failed "Error: exists");
      Send Error "Migration Failed" ]
  ∧ mem w' = mem web_world.
Proof. vm_compute. done. Qed.

(** ** Sharing *)

(** The record after [if "shared_with" not in vps: vps["shared_with"] = []]:
    the same record when it has the key. *)
Definition with_sharing_key (v : vps) : vps :=
  set_shared_with (default [] (shared_with v)) v.

Lemma with_sharing_key_present v l :
  shared_with v = Some l → with_sharing_key v = v.
Proof. unfold with_sharing_key. destruct v. cbn. by intros ->. Qed.

Lemma alter_alter_as_insert (vd : gmap string (list vps)) u lst i v f :
  vd !! u = Some lst → lst !! i = Some v →
  alter (alter f i) u vd = <[u := <[i := f v]> lst]> vd.
Proof.
  intros Hlst Hv. apply map_eq. intros j. rewrite lookup_alter, lookup_insert.
  case_decide; [subst j|done]. rewrite Hlst. cbn. f_equal.
  apply list_eq. intros k. rewrite list_lookup_alter, list_lookup_insert.
  apply lookup_lt_Some in Hv as Hlen.
  destruct (decide (i = k)) as [<-|].
  - rewrite Hv. by rewrite decide_True.
  - rewrite decide_False; [done|tauto].
Qed.

Lemma alter_alter_twice (vd : gmap string (list vps)) u lst i v f g :
  vd !! u = Some lst → lst !! i = Some v →
  alter (alter f i) u (alter (alter g i) u vd)
  = <[u := <[i := f (g v)]> lst]> vd.
Proof.
  intros Hlst Hv. apply lookup_lt_Some in Hv as Hlen.
  rewrite (alter_alter_as_insert vd u lst i v g) by done.
  rewrite (alter_alter_as_insert _ u (<[i := g v]> lst) i (g v) f).
  - by rewrite insert_insert_eq, list_insert_insert_eq.
  - by rewrite lookup_insert_eq.
  - by rewrite list_lookup_insert_eq.
Qed.

Ltac valid_number Hlst Hv :=
  let Hlen := fresh "Hlen" in
  rewrite Hlst; apply lookup_lt_Some in Hv as Hlen;
  rewrite (bool_decide_eq_false_2 (_ < 1)) by lia;
  rewrite (bool_decide_eq_false_2 (_ > _)) by lia;
  cbn [orb]; rewrite Hv.

Lemma share_user_done env author shared_user vps_number w lst v :
  vps_data (mem w) !! pretty author = Some lst →
  1 ≤ vps_number →
  lst !! Z.to_nat (vps_number - 1) = Some v →
  pretty shared_user ∉ default [] (shared_with v) →
  let w' := (share_user env author shared_user vps_number w).2 in
  vps_data (mem w')
  = <[pretty author :=
        <[Z.to_nat (vps_number - 1) :=
            set_shared_with (default [] (shared_with v) ++ [pretty shared_user])
                            v]> lst]>
      (vps_data (mem w))
  ∧ admin_data (mem w') = admin_data (mem w)
  ∧ port_data (mem w') = port_data (mem w)
  ∧ save_log w' = save_log w ++ [disk_write env (save_log w)]
  ∧ trace w' = trace w ++ [Send Success "VPS Shared"; Dm (pretty shared_user)].
Proof.
  intros Hlst Hlo Hv Hnew. cbv zeta. unfold share_user. munfold.
  valid_number Hlst Hv.
  destruct (shared_with v) as [l|] eqn:Hl; cbn [default from_option id] in *;
    munfold; rewrite bool_decide_eq_false_2 by done; munfold;
    (split_and!; [|trace_eq..]).
  - by apply alter_alter_as_insert.
  - by apply (alter_alter_twice _ _ lst _ v).
Qed.

Lemma share_user_refused env author shared_user vps_number w lst v :
  vps_data (mem w) !! pretty author = Some lst →
  1 ≤ vps_number →
  lst !! Z.to_nat (vps_number - 1) = Some v →
  pretty shared_user ∈ default [] (shared_with v) →
  mem (share_user env author shared_user vps_number w).2 = mem w.
Proof.
  intros Hlst Hlo Hv Hin. unfold share_user. munfold.
  valid_number Hlst Hv.
  destruct (shared_with v) as [l|] eqn:Hl; cbn [default from_option id] in *;
    [|by apply elem_of_nil in Hin].
  munfold. rewrite bool_decide_eq_true_2 by done. by munfold.
Qed.

Lemma revoke_share_done env author shared_user vps_number w lst v l' :
  vps_data (mem w) !! pretty author = Some lst →
  1 ≤ vps_number →
  lst !! Z.to_nat (vps_number - 1) = Some v →
  list_remove_first (pretty shared_user) (default [] (shared_with v))
  = Some l' →
  let w' := (revoke_share env author shared_user vps_number w).2 in
  vps_data (mem w')
  = <[pretty author :=
        <[Z.to_nat (vps_number - 1) := set_shared_with l' v]> lst]>
      (vps_data (mem w))
  ∧ admin_data (mem w') = admin_data (mem w)
  ∧ port_data (mem w') = port_data (mem w)
  ∧ save_log w' = save_log w ++ [disk_write env (save_log w)]
  ∧ trace w' = trace w ++ [Send Success "Access Revoked";
                           Dm (pretty shared_user)].
Proof.
  intros Hlst Hlo Hv Hrm. cbv zeta. unfold revoke_share. munfold.
  valid_number Hlst Hv.
  destruct (shared_with v) as [l|] eqn:Hl; cbn [default from_option id] in *;
    [|done].
  munfold. rewrite bool_decide_eq_false_2.
  2:{ intros Hnot. apply Hnot.
      destruct (list_remove_first_Some _ _ _ Hrm) as (l1 & l2 & -> & _).
      rewrite elem_of_app, elem_of_cons. tauto. }
  rewrite Hrm. munfold. split_and!; [|trace_eq..].
  by apply alter_alter_as_insert.
Qed.

(** A revocation for a user who is not on the list: only the missing key
    is created, in memory. *)
Lemma revoke_share_refused env author shared_user vps_number w lst v :
  vps_data (mem w) !! pretty author = Some lst →
  1 ≤ vps_number →
  lst !! Z.to_nat (vps_number - 1) = Some v →
  pretty shared_user ∉ default [] (shared_with v) →
  vps_data (mem (revoke_share env author shared_user vps_number w).2)
  = <[pretty author := <[Z.to_nat (vps_number - 1) := with_sharing_key v]> lst]>
      (vps_data (mem w)).
Proof.
  intros Hlst Hlo Hv Hout. unfold revoke_share. munfold.
  valid_number Hlst Hv. unfold with_sharing_key.
  destruct (shared_with v) as [l|] eqn:Hl; cbn [default from_option id] in *;
    munfold; rewrite bool_decide_eq_true_2 by done; munfold.
  - replace (set_shared_with l v) with v
      by (destruct v; cbn in *; by subst).
    by rewrite list_insert_id, insert_id.
  - by apply alter_alter_as_insert.
Qed.

(** X20. Share an instance with a user who had no access, then revoke that
    access: the store is what it was before the two calls, except that a
    record that had no ["shared_with"] key now has it, with an empty list.
    The admin list and the port table are as before. *)
Theorem share_revoke_round_trip env author shared_user vps_number w lst v :
  vps_data (mem w) !! pretty author = Some lst →
  1 ≤ vps_number →
  lst !! Z.to_nat (vps_number - 1) = Some v →
  pretty shared_user ∉ default [] (shared_with v) →
  let w1 := (share_user env author shared_user vps_number w).2 in
  let w2 := (revoke_share env author shared_user vps_number w1).2 in
  vps_data (mem w2)
  = <[pretty author := <[Z.to_nat (vps_number - 1) := with_sharing_key v]> lst]>
      (vps_data (mem w))
  ∧ (shared_with v ≠ None → vps_data (mem w2) = vps_data (mem w))
  ∧ admin_data (mem w2) = admin_data (mem w)
  ∧ port_data (mem w2) = port_data (mem w).
Proof.
  intros Hlst Hlo Hv Hnew. cbv zeta.
  destruct (share_user_done env author shared_user vps_number w lst v
              Hlst Hlo Hv Hnew) as (Hv1 & Ha1 & Hp1 & _).
  set (w1 := (share_user env author shared_user vps_number w).2) in *.
  set (i := Z.to_nat (vps_number - 1)) in *.
  set (shared := default [] (shared_with v)) in *.
  set (v1 := set_shared_with (shared ++ [pretty shared_user]) v) in *.
  apply lookup_lt_Some in Hv as Hlen.
  destruct (revoke_share_done env author shared_user vps_number w1
              (<[i := v1]> lst) v1 shared) as (Hv2 & Ha2 & Hp2 & _).
  - by rewrite Hv1, lookup_insert_eq.
  - done.
  - fold i. by rewrite list_lookup_insert_eq.
  - cbn. by apply list_remove_first_snoc.
  - fold i in Hv2.
    assert (Hstore : vps_data (mem (revoke_share env author shared_user
                                                 vps_number w1).2)
                     = <[pretty author := <[i := with_sharing_key v]> lst]>
                         (vps_data (mem w))).
    { rewrite Hv2, Hv1, insert_insert_eq, list_insert_insert_eq. done. }
    rewrite Hstore, Ha2, Hp2. split_and!; [done| |done..].
    intros Hkey. destruct (shared_with v) as [l|] eqn:Hl; [|done].
    rewrite (with_sharing_key_present v l Hl).
    by rewrite list_insert_id, insert_id.
Qed.

Lemma share_revoke_round_trip_witness :
  let w1 := (share_user quiet_env 7 8 1 web_world).2 in
  let w2 := (revoke_share quiet_env 7 8 1 w1).2 in
  vps_data (mem w2)
  = <[pretty 7 := <[Z.to_nat (1 - 1) := with_sharing_key web1]> [web1]]>
      (vps_data (mem web_world))
  ∧ (shared_with web1 ≠ None → vps_data (mem w2) = vps_data (mem web_world))
  ∧ admin_data (mem w2) = admin_data (mem web_world)
  ∧ port_data (mem w2) = port_data (mem web_world).
Proof.
  apply (share_revoke_round_trip quiet_env 7 8 1 web_world [web1] web1).
  - reflexivity.
  - lia.
  - reflexivity.
  - apply not_elem_of_nil.
Defined.

(** A record as an older file may hold it, without the ["shared_with"]
    key: after the round trip the key is there. *)
Example share_revoke_creates_key :
  let old := {| container_name := "web-1"; ram := "4GB"; cpu := "2";
                storage := "20GB"; config := "4GB RAM / 2 CPU / 20GB Disk";
                status := Some "running"; suspended := Some false;
                suspension_history := Some [];
                created_at := "2024-01-01T00:00:00"; shared_with := None |} in
  let w := {| mem := {| vps_data := {[ "7" := [old] ]};
                        admin_data := admin_data (mem fresh_world);
                        port_data := port_data (mem fresh_world);
                        cpu_monitor_active := true |};
              disk := fresh_disk; trace := []; save_log := [];
              cpu_monitor_task := TaskRunning |} in
  let w2 := (revoke_share quiet_env 7 8 1 (share_user quiet_env 7 8 1 w).2).2 in
  shared_with <$> vps_at w "7" 0 = Some None
  ∧ shared_with <$> vps_at w2 "7" 0 = Some (Some []).
Proof. vm_compute. done. Qed.

(** X21. After [share-user] on one of the author's instances the named user
    is on the instance's sharing list, everyone who was on it still is, and
    a list without duplicates stays so: a user who already has access is
    refused, not added twice. *)
Theorem share_user_grants env author shared_user vps_number w lst v :
  vps_data (mem w) !! pretty author = Some lst →
  1 ≤ vps_number →
  lst !! Z.to_nat (vps_number - 1) = Some v →
  let w' := (share_user env author shared_user vps_number w).2 in
  ∃ v', vps_at w' (pretty author) (Z.to_nat (vps_number - 1)) = Some v'
        ∧ pretty shared_user ∈ default [] (shared_with v')
        ∧ (∀ x, x ∈ default [] (shared_with v) →
                x ∈ default [] (shared_with v'))
        ∧ (NoDup (default [] (shared_with v)) →
           NoDup (default [] (shared_with v'))).
Proof.
  intros Hlst Hlo Hv. cbv zeta.
  destruct (decide (pretty shared_user ∈ default [] (shared_with v)))
    as [Hin|Hnew].
  - exists v. split_and!; try done. unfold vps_at.
    rewrite (share_user_refused env author shared_user vps_number w lst v)
      by done.
    by rewrite Hlst.
  - destruct (share_user_done env author shared_user vps_number w lst v
                Hlst Hlo Hv Hnew) as (Hv1 & _).
    eexists. unfold vps_at. rewrite Hv1, lookup_insert_eq. cbn.
    apply lookup_lt_Some in Hv as Hlen.
    rewrite list_lookup_insert_eq by done. split_and!; [done|..]; cbn.
    + apply elem_of_app. right. by apply list_elem_of_singleton.
    + intros x Hx. apply elem_of_app. by left.
    + intros Hnd. apply list.NoDup_app. split_and!; [done| |apply NoDup_singleton].
      by intros x Hx ->%list_elem_of_singleton.
Qed.

Lemma share_user_grants_witness :
  let w' := (share_user quiet_env 7 8 1 web_world).2 in
  ∃ v', vps_at w' (pretty 7) (Z.to_nat (1 - 1)) = Some v'
        ∧ pretty 8 ∈ default [] (shared_with v')
        ∧ (∀ x, x ∈ default [] (shared_with web1) →
                x ∈ default [] (shared_with v'))
        ∧ (NoDup (default [] (shared_with web1)) →
           NoDup (default [] (shared_with v'))).
Proof.
  apply (share_user_grants quiet_env 7 8 1 web_world [web1] web1).
  - reflexivity.
  - lia.
  - reflexivity.
Defined.

(** X22. After [share-ruser] on an instance whose sharing list has no
    duplicate, the named user is not on the list, and nobody else's access
    changed. *)
Theorem revoke_share_revokes env author shared_user vps_number w lst v :
  vps_data (mem w) !! pretty author = Some lst →
  1 ≤ vps_number →
  lst !! Z.to_nat (vps_number - 1) = Some v →
  NoDup (default [] (shared_with v)) →
  let w' := (revoke_share env author shared_user vps_number w).2 in
  ∃ v', vps_at w' (pretty author) (Z.to_nat (vps_number - 1)) = Some v'
        ∧ (pretty shared_user ∉ default [] (shared_with v'))
        ∧ (∀ x, x ≠ pretty shared_user →
                (x ∈ default [] (shared_with v')
                 ↔ x ∈ default [] (shared_with v))).
Proof.
  intros Hlst Hlo Hv Hnd. cbv zeta.
  apply lookup_lt_Some in Hv as Hlen.
  destruct (list_remove_first (pretty shared_user) (default [] (shared_with v)))
    as [l'|] eqn:Hrm.
  - destruct (revoke_share_done env author shared_user vps_number w lst v l'
                Hlst Hlo Hv Hrm) as (Hv1 & _).
    eexists. unfold vps_at. rewrite Hv1, lookup_insert_eq. cbn.
    rewrite list_lookup_insert_eq by done. split_and!; [done|..]; cbn.
    + destruct (list_remove_first_Some _ _ _ Hrm) as (l1 & l2 & E & -> & _).
      rewrite E in Hnd. apply list.NoDup_app in Hnd as (_ & H12 & H2).
      apply list.NoDup_cons in H2 as [Hn2 _].
      intros [Hx|Hx]%elem_of_app; [|done]. apply (H12 _ Hx). by left.
    + intros x Hx. by apply (list_remove_first_elem_of_ne _ _ _ _ Hrm).
  - apply list_remove_first_None in Hrm.
    exists (with_sharing_key v). unfold vps_at.
    rewrite (revoke_share_refused env author shared_user vps_number w lst v)
      by done.
    rewrite lookup_insert_eq. cbn. rewrite list_lookup_insert_eq by done.
    split_and!; done.
Qed.

Lemma revoke_share_revokes_witness :
  let w := (share_user quiet_env 7 8 1 web_world).2 in
  let w' := (revoke_share quiet_env 7 8 1 w).2 in
  ∃ v', vps_at w' (pretty 7) (Z.to_nat (1 - 1)) = Some v'
        ∧ (pretty 8 ∉ default [] (shared_with v'))
        ∧ (∀ x, x ≠ pretty 8 →
                (x ∈ default [] (shared_with v')
                 ↔ x ∈ default [] (shared_with (set_shared_with ["8"] web1)))).
Proof.
  apply (revoke_share_revokes quiet_env 7 8 1
           (share_user quiet_env 7 8 1 web_world).2
           [set_shared_with ["8"] web1] (set_shared_with ["8"] web1)).
  - reflexivity.
  - lia.
  - reflexivity.
  - apply NoDup_singleton.
Defined.

(** ** Clone *)


(** X23. For a name held by one record.  The name of the copy is the one given,
    or "RathamCloud-{name}-clone-{time}" when none is given.  The copy and the
    start of the copy are run in this order; if either fails the reply is
    "Clone Failed" and nothing is recorded or saved.  If both succeed, one
    record is appended to the list of the owner of the original: it has the
    new name and the original's resources, and it starts as running, not
    suspended, with an empty history and shared with nobody, whatever the
    original's state.  The name of the copy is not compared with the names
    in the store. *)
Theorem clone_vps_spec env name new_name timestamp w uid i v :
  held_at (vps_data (mem w)) name uid i v →
  let w' := (clone_vps env name new_name timestamp w).2 in
  let target := clone_name name new_name timestamp in
  let copy := "RTC copy " +:+ name +:+ " " +:+ target in
  let start := "RTC start " +:+ target in
  let t0 := trace w ++ [Send Info "Cloning VPS"] in
  match rtc env t0 copy with
  | Failed e =>
    mem w' = mem w ∧ save_log w' = save_log w
    ∧ trace w' = t0 ++ [Exec copy (Failed e); Send Error "Clone Failed"]
  | Done o1 =>
    let t1 := t0 ++ [Exec copy (Done o1)] in
    match rtc env t1 start with
    | Failed e =>
      mem w' = mem w ∧ save_log w' = save_log w
      ∧ trace w' = t1 ++ [Exec start (Failed e); Send Error "Clone Failed"]
    | Done o2 =>
      let t2 := t1 ++ [Exec start (Done o2)] in
      vps_data (mem w')
      = alter (λ vps_list, vps_list ++ [new_vps v target (now env t2)]) uid
              (vps_data (mem w))
      ∧ admin_data (mem w') = admin_data (mem w)
      ∧ port_data (mem w') = port_data (mem w)
      ∧ save_log w' = save_log w ++ [disk_write env (save_log w)]
      ∧ trace w' = t2 ++ [Clock; Send Success "VPS Cloned"]
    end
  end.
Proof.
  intros Hheld. cbv zeta. unfold clone_vps. munfold.
  rewrite (find_named_held _ _ _ _ _ Hheld).
  destruct Hheld as [Hv _].
  destruct (vps_data (mem w) !! uid) as [lst|] eqn:Hlst; [|done].
  munfold.
  destruct (rtc env (trace w ++ [_]) _) as [o1|e1]; munfold; [|trace_eq].
  destruct (rtc env ((trace w ++ [_]) ++ [_]) _) as [o2|e2]; munfold;
    [|trace_eq].
  rewrite Hlst. munfold. trace_eq.
Qed.

Lemma clone_vps_spec_witness :
  let w' := (clone_vps quiet_env "web-1" (Some "web-2") "20240101-000000"
                       web_world).2 in
  let target := clone_name "web-1" (Some "web-2") "20240101-000000" in
  let copy := "RTC copy " +:+ "web-1" +:+ " " +:+ target in
  let start := "RTC start " +:+ target in
  let t0 := trace web_world ++ [Send Info "Cloning VPS"] in
  match rtc quiet_env t0 copy with
  | Failed e =>
    mem w' = mem web_world ∧ save_log w' = save_log web_world
    ∧ trace w' = t0 ++ [Exec copy (Failed e); Send Error "Clone Failed"]
  | Done o1 =>
    let t1 := t0 ++ [Exec copy (Done o1)] in
    match rtc quiet_env t1 start with
    | Failed e =>
      mem w' = mem web_world ∧ save_log w' = save_log web_world
      ∧ trace w' = t1 ++ [Exec start (Failed e); Send Error "Clone Failed"]
    | Done o2 =>
      let t2 := t1 ++ [Exec start (Done o2)] in
      vps_data (mem w')
      = alter (λ vps_list, vps_list ++ [new_vps web1 target (now quiet_env t2)])
              "7" (vps_data (mem web_world))
      ∧ admin_data (mem w') = admin_data (mem web_world)
      ∧ port_data (mem w') = port_data (mem web_world)
      ∧ save_log w' = save_log web_world
                      ++ [disk_write quiet_env (save_log web_world)]
      ∧ trace w' = t2 ++ [Clock; Send Success "VPS Cloned"]
    end
  end.
Proof.
  exact (clone_vps_spec quiet_env "web-1" (Some "web-2") "20240101-000000"
           web_world "7" 0%nat web1 web1_held).
Defined.

(** Cloning under the name of the original gives two records of one name. *)
Example clone_under_same_name :
  let w' := (clone_vps quiet_env "web-1" (Some "web-1") "20240101-000000"
                       web_world).2 in
  container_name <$> default [] (vps_data (mem w') !! "7")
  = ["web-1"; "web-1"].
Proof. vm_compute. reflexivity. Qed.

(** ** The text helper *)

(** X24. For a limit of at least 3 the result of [truncate_text] never has
    more than [max_length] code points; a text within the limit is returned
    as it is, and a longer one is cut to its first [max_length - 3] code
    points followed by three dots, which is exactly [max_length] code
    points; truncating twice is truncating once. *)
Theorem truncate_text_spec text max_length :
  3 ≤ max_length →
  Z.of_nat (length (truncate_text text max_length)) ≤ max_length
  ∧ (Z.of_nat (length text) ≤ max_length →
     truncate_text text max_length = text)
  ∧ (max_length < Z.of_nat (length text) →
     truncate_text text max_length
     = take (Z.to_nat (max_length - 3)) text ++ dots
     ∧ Z.of_nat (length (truncate_text text max_length)) = max_length)
  ∧ truncate_text (truncate_text text max_length) max_length
    = truncate_text text max_length.
Proof.
  intros Hm.
  assert (Hcases : ∀ t,
    Z.of_nat (length (truncate_text t max_length)) ≤ max_length
    ∧ (Z.of_nat (length t) ≤ max_length → truncate_text t max_length = t)
    ∧ (max_length < Z.of_nat (length t) →
       truncate_text t max_length
       = take (Z.to_nat (max_length - 3)) t ++ dots
       ∧ Z.of_nat (length (truncate_text t max_length)) = max_length)).
  { intros t. unfold truncate_text, slice_to.
    case_bool_decide as H0; [rewrite H0; cbn; split_and!; [lia|done|lia]|].
    case_bool_decide as Hlen; [split_and!; [lia|done|lia]|].
    rewrite bool_decide_eq_false_2 by lia.
    rewrite Z.min_l by lia.
    rewrite length_app, length_take. cbn [length dots].
    split_and!; [lia|lia|]. intros _. split; [done|lia]. }
  destruct (Hcases text) as (Hle & Hshort & Hlong).
  split_and!; [done..|].
  by apply (Hcases (truncate_text text max_length)).
Qed.

(** A title as [create_embed] builds it: a star (one code point, 127775),
    a space, and ["RathamCloud"]; 13 code points cut to 8. *)
Definition star_title : list N :=
  [127775; 32; 82; 97; 116; 104; 97; 109; 67; 108; 111; 117; 100]%N.

Lemma truncate_text_spec_witness :
  Z.of_nat (length (truncate_text star_title 8)) ≤ 8
  ∧ (Z.of_nat (length star_title) ≤ 8 →
     truncate_text star_title 8 = star_title)
  ∧ (8 < Z.of_nat (length star_title) →
     truncate_text star_title 8
     = take (Z.to_nat (8 - 3)) star_title ++ dots
     ∧ Z.of_nat (length (truncate_text star_title 8)) = 8)
  ∧ truncate_text (truncate_text star_title 8) 8
    = truncate_text star_title 8.
Proof. apply (truncate_text_spec star_title 8). lia. Defined.

(** The star counts as one character: the title within its limit is
    returned whole, and the cut keeps the star and four more. *)
Example truncate_text_counts_code_points :
  truncate_text star_title 13 = star_title
  ∧ truncate_text star_title 8 = [127775; 32; 82; 97; 116; 46; 46; 46]%N.
Proof. split; reflexivity. Qed.

(** Below 3 the slice index is negative and counts from the end: the
    result is then longer than the limit, and can be longer than the text
    (here ["abcdef"], code points 97 to 102). *)
Example truncate_text_short_limit :
  truncate_text [97; 98; 99; 100; 101; 102]%N 2
  = [97; 98; 99; 100; 101; 46; 46; 46]%N
  ∧ truncate_text [97; 98; 99; 100; 101; 102]%N 0
    = [97; 98; 99; 46; 46; 46]%N.
Proof. split; reflexivity. Qed.
